(** * Ace Invaders: the rules and strategy engine, embedded and verified

    The development follows the layout of the Python sources:
    - [Py]          the fragment of Python's dynamic values the engine uses
    - [Settings]    game/settings.py
    - [Cards]       game/cards.py   (Card, Deck)
    - [Players]     game/players.py (Hand, Player, Dealer,
                    get_basic_strategy_move)
    - [Session]     game/game_session.py (Table, GameSession)
    - [Profile]     game/profile_manager.py (PlayerProfile)
    followed by the properties of the specification and of the code.

    Standard input is a list of lines and [random.random()] an oracle;
    what is printed is left out.

    Python [float]s are IEEE binary64 and are embedded as Rocq's primitive
    floats, Python [int]s as [Z], dictionaries as [gmap string pyval]. *)

From Stdlib Require Import ZArith Lia List Bool.
From Stdlib Require Import PrimFloat FloatOps SpecFloat FloatAxioms.
From stdpp Require Import gmap strings list.

#[local] Set Warnings "-inexact-float".
#[local] Open Scope Z_scope.

(* ===================================================================== *)
(** * Python values *)
(* ===================================================================== *)
Module Py.

(** Exceptions the engine can raise. *)
Inductive exn : Set :=
| ValueError | TypeError | KeyError | AttributeError | OverflowError
| EOFError.

(** A computation either returns or raises. *)
Inductive result (A : Type) : Type :=
| Ok (a : A)
| Raise (e : exn).
Arguments Ok {A} a.
Arguments Raise {A} e.

Definition bind {A B} (m : result A) (k : A -> result B) : result B :=
  match m with
  | Ok a => k a
  | Raise e => Raise e
  end.

(** The scalar values a JSON document (a table's [rules], the settings
    file, a profile) can put in a dictionary. *)
Inductive pyval : Set :=
| VNone
| VBool (b : bool)
| VInt (z : Z)
| VFloat (f : float)
| VStr (s : string).

(** Numbers: [bool] is a subclass of [int]. *)
Inductive pynum : Set :=
| NInt (z : Z)
| NFloat (f : float).

Definition as_num (v : pyval) : option pynum :=
  match v with
  | VBool b => Some (NInt (Z.b2z b))
  | VInt z => Some (NInt z)
  | VFloat f => Some (NFloat f)
  | VNone | VStr _ => None
  end.

Definition of_num (n : pynum) : pyval :=
  match n with
  | NInt z => VInt z
  | NFloat f => VFloat f
  end.

(** [float(z)]: the correctly rounded double; [OverflowError] when the
    integer is beyond the range of a double. *)
Definition Z2float (z : Z) : float :=
  SF2Prim (binary_normalize prec emax z 0 false).

Definition to_float (z : Z) : result float :=
  let f := Z2float z in
  if is_infinity f then Raise OverflowError else Ok f.

(** [int(f)]: truncation toward zero. *)
Definition int_of_float (f : float) : result Z :=
  match Prim2SF f with
  | S754_nan => Raise ValueError
  | S754_infinity _ => Raise OverflowError
  | S754_zero _ => Ok 0
  | S754_finite s m e =>
      let mag := if 0 <=? e then Z.pos m * 2 ^ e
                 else Z.pos m / 2 ^ (- e) in
      Ok (if s then - mag else mag)
  end.

(** Exact comparison of a double with an integer, as CPython does it
    (no rounding of the integer); [None] when the double is a NaN. *)
Definition float_cmp_Z (f : float) (z : Z) : option comparison :=
  match Prim2SF f with
  | S754_nan => None
  | S754_infinity s => Some (if s then Lt else Gt)
  | S754_zero _ => Some (0 ?= z)
  | S754_finite s m e =>
      let sm := if s then Z.neg m else Z.pos m in
      Some (if 0 <=? e then (sm * 2 ^ e ?= z)
            else (sm ?= z * 2 ^ (- e)))
  end.

Definition num_eq (a b : pynum) : bool :=
  match a, b with
  | NInt x, NInt y => x =? y
  | NFloat x, NFloat y => PrimFloat.eqb x y
  | NFloat x, NInt y | NInt y, NFloat x =>
      match float_cmp_Z x y with Some Eq => true | _ => false end
  end.

Definition num_lt (a b : pynum) : bool :=
  match a, b with
  | NInt x, NInt y => x <? y
  | NFloat x, NFloat y => PrimFloat.ltb x y
  | NFloat x, NInt y =>
      match float_cmp_Z x y with Some Lt => true | _ => false end
  | NInt y, NFloat x =>
      match float_cmp_Z x y with Some Gt => true | _ => false end
  end.

Definition num_le (a b : pynum) : bool :=
  match a, b with
  | NInt x, NInt y => x <=? y
  | NFloat x, NFloat y => PrimFloat.leb x y
  | NFloat x, NInt y =>
      match float_cmp_Z x y with Some (Lt | Eq) => true | _ => false end
  | NInt y, NFloat x =>
      match float_cmp_Z x y with Some (Gt | Eq) => true | _ => false end
  end.

(** [a == b] *)
Definition py_eq (a b : pyval) : bool :=
  match a, b with
  | VNone, VNone => true
  | VStr s, VStr t => String.eqb s t
  | _, _ =>
      match as_num a, as_num b with
      | Some x, Some y => num_eq x y
      | _, _ => false
      end
  end.

(** [a < b]: numbers with numbers, strings with strings, anything else
    is a [TypeError]. *)
Definition py_lt (a b : pyval) : result bool :=
  match a, b with
  | VStr s, VStr t => Ok (String.ltb s t)
  | _, _ =>
      match as_num a, as_num b with
      | Some x, Some y => Ok (num_lt x y)
      | _, _ => Raise TypeError
      end
  end.

(** [a <= b] *)
Definition py_le (a b : pyval) : result bool :=
  match a, b with
  | VStr s, VStr t => Ok (String.leb s t)
  | _, _ =>
      match as_num a, as_num b with
      | Some x, Some y => Ok (num_le x y)
      | _, _ => Raise TypeError
      end
  end.

(** [a > b] is [b < a] for these types. *)
Definition py_gt (a b : pyval) : result bool := py_lt b a.

(** Truth value of an object used as a condition. *)
Definition truthy (v : pyval) : bool :=
  match v with
  | VNone => false
  | VBool b => b
  | VInt z => negb (z =? 0)
  | VFloat f => negb (PrimFloat.eqb f 0)
  | VStr s => negb (String.eqb s "")
  end.

(** Binary arithmetic on numbers: [int] with [int] stays exact, a
    [float] operand converts the other one. *)
Definition num_arith (fz : Z -> Z -> Z) (ff : float -> float -> float)
    (a b : pynum) : result pynum :=
  match a, b with
  | NInt x, NInt y => Ok (NInt (fz x y))
  | NFloat x, NFloat y => Ok (NFloat (ff x y))
  | NInt x, NFloat y =>
      bind (to_float x) (fun x' => Ok (NFloat (ff x' y)))
  | NFloat x, NInt y =>
      bind (to_float y) (fun y' => Ok (NFloat (ff x y')))
  end.

Definition num_add := num_arith Z.add PrimFloat.add.
Definition num_sub := num_arith Z.sub PrimFloat.sub.
Definition num_mul := num_arith Z.mul PrimFloat.mul.

(** [d.get(k, dflt)] and [d[k]] *)
Definition get (d : gmap string pyval) (k : string) (dflt : pyval) : pyval :=
  default dflt (d !! k).

Definition getitem (d : gmap string pyval) (k : string) : result pyval :=
  match d !! k with
  | Some v => Ok v
  | None => Raise KeyError
  end.

(** An object used where an integer is required ([range(n)]). *)
Definition index (v : pyval) : result Z :=
  match v with
  | VBool b => Ok (Z.b2z b)
  | VInt z => Ok z
  | _ => Raise TypeError
  end.

(** [sum(...)] of integers: a left fold from 0. *)
Definition sum (l : list Z) : Z := fold_left Z.add l 0.

(** [x in [k1, ..., kn]] for integers. *)
Definition mem (x : Z) (l : list Z) : bool := existsb (Z.eqb x) l.

(** The two-argument [min] and [max] on floats: the first argument is
    kept unless the second is strictly smaller (larger). *)
Definition fmin (a b : float) : float := if PrimFloat.ltb b a then b else a.
Definition fmax (a b : float) : float := if PrimFloat.ltb a b then b else a.

End Py.

#[global] Instance result_ret : MRet Py.result := @Py.Ok.
#[global] Instance result_bind : MBind Py.result :=
  fun A B k m => Py.bind m k.

(* ===================================================================== *)
(** * game/settings.py *)
(* ===================================================================== *)
Module Settings.
Import Py.

(** [DEFAULT_SETTINGS['GAME_SETTINGS']] *)
Definition DEFAULT_GAME_SETTINGS : gmap string pyval :=
  <["MAX_DECKS" := VInt 8]>
  (<["MIN_DECKS" := VInt 1]>
  (<["DEFAULT_CUT_CARD_PERCENT" := VFloat 0.75]>
  (<["SHOW_HOUSE_EDGE" := VBool true]>
  (<["SHOW_HINTS" := VBool true]> ∅)))).

(** [DEFAULT_SETTINGS['PLAYER_SETTINGS']]; the list-valued
    ['BET_INCREMENT'] entry, which the engine never reads, is left out. *)
Definition DEFAULT_PLAYER_SETTINGS : gmap string pyval :=
  <["MIN_BET" := VInt 1]>
  (<["MAX_BET" := VInt 1000]>
  (<["INITIAL_BANKROLL" := VInt 1000]> ∅)).

(** [DEFAULT_SETTINGS['DEALER_SETTINGS']] *)
Definition DEFAULT_DEALER_SETTINGS : gmap string pyval :=
  <["DEALER_HIT_ON_SOFT_17" := VBool false]>
  (<["DEALER_STAND_ON_HARD_17" := VBool true]> ∅).

(** [SETTINGS = load_settings()]: the settings file when there is one,
    the defaults otherwise; the engine sees the three sub-dictionaries. *)
Record settings : Type := {
  GAME_SETTINGS : gmap string pyval;
  PLAYER_SETTINGS : gmap string pyval;
  DEALER_SETTINGS : gmap string pyval
}.

Definition DEFAULT_SETTINGS : settings := {|
  GAME_SETTINGS := DEFAULT_GAME_SETTINGS;
  PLAYER_SETTINGS := DEFAULT_PLAYER_SETTINGS;
  DEALER_SETTINGS := DEFAULT_DEALER_SETTINGS
|}.

End Settings.

(* ===================================================================== *)
(** * game/cards.py *)
(* ===================================================================== *)
Module Cards.
Import Py Settings.

Inductive Suit : Set := Hearts | Diamonds | Clubs | Spades.

(** The thirteen rank strings ['2'] ... ['10'], ['J'], ['Q'], ['K'], ['A']. *)
Inductive Rank : Set :=
| R2 | R3 | R4 | R5 | R6 | R7 | R8 | R9 | R10 | RJ | RQ | RK | RA.

#[global] Instance Suit_eq_dec : EqDecision Suit.
Proof. solve_decision. Defined.
#[global] Instance Rank_eq_dec : EqDecision Rank.
Proof. solve_decision. Defined.

(** [rank in [...]] and [rank == ...] on rank strings. *)
Definition rank_in (r : Rank) (l : list Rank) : bool := bool_decide (r ∈ l).
Definition rank_eqb (r1 r2 : Rank) : bool := bool_decide (r1 = r2).

Record Card : Set := mkCard { suit : Suit; rank : Rank }.

#[global] Instance Card_eq_dec : EqDecision Card.
Proof. solve_decision. Defined.

(** The [value] attribute [Card.__init__] assigns; it is never written
    again. *)
Definition value (c : Card) : Z :=
  match rank c with
  | RA => 11
  | RJ | RQ | RK => 10
  | R2 => 2 | R3 => 3 | R4 => 4 | R5 => 5 | R6 => 6
  | R7 => 7 | R8 => 8 | R9 => 9 | R10 => 10
  end.

(** [Card.get_count_value]: the Hi-Lo tag. *)
Definition get_count_value (c : Card) : Z :=
  if rank_in (rank c) [R2; R3; R4; R5; R6] then 1
  else if rank_in (rank c) [R10; RJ; RQ; RK; RA] then -1
  else 0.

Record Deck : Set := mkDeck {
  cards : list Card;
  number_of_decks : Z;
  running_count : Z;
  initial_cards : Z;
  cut_card_position : Z
}.

Definition suits : list Suit := [Hearts; Diamonds; Clubs; Spades].
Definition ranks : list Rank :=
  [R2; R3; R4; R5; R6; R7; R8; R9; R10; RJ; RQ; RK; RA].

(** One pass of the two inner loops of [build_deck]: 52 cards, suit by
    suit, rank by rank. *)
Definition one_deck : list Card :=
  s ← suits; r ← ranks; [mkCard s r].

(** [Deck.build_deck]: [range(n)] appends of a full deck to [cards]. *)
Fixpoint build_deck_loop (n : nat) (cards : list Card) : list Card :=
  match n with
  | O => cards
  | S n' => build_deck_loop n' (cards ++ one_deck)
  end.

Definition build_deck (d : Deck) : Deck :=
  mkDeck (build_deck_loop (Z.to_nat (number_of_decks d)) (cards d))
         (number_of_decks d) (running_count d)
         (initial_cards d) (cut_card_position d).

(** [Deck.__init__(number_of_decks, cut_card_percent)] under the game
    settings [gs].  A [bool] deck count is kept as its integer value. *)
Definition Deck_init (gs : gmap string pyval)
    (number_of_decks : pyval) (cut_card_percent : float) : result Deck :=
  let number_of_decks :=
    match number_of_decks with VNone => VInt 1 | v => v end in
  min_decks ← getitem gs "MIN_DECKS";
  below ← py_lt number_of_decks min_decks;
  if below : bool then Raise ValueError else
  max_decks ← getitem gs "MAX_DECKS";
  above ← py_gt number_of_decks max_decks;
  if above : bool then Raise ValueError else
  n ← index number_of_decks;
  let self := build_deck (mkDeck [] n 0 0 0) in
  let initial_cards := Z.of_nat (length (cards self)) in
  len ← to_float initial_cards;
  cut ← int_of_float (len * (1 - cut_card_percent))%float;
  Ok (mkDeck (cards self) n 0 initial_cards cut).

(** [random.shuffle]: the library's Fisher-Yates pass, for [i] from
    [len - 1] down to 1 swap positions [i] and [j = randbelow(i + 1)].
    The draws come from an oracle [rnd], reduced into range. *)
Definition swap (l : list Card) (i j : nat) : list Card :=
  match l !! i, l !! j with
  | Some x, Some y => <[i := y]> (<[j := x]> l)
  | _, _ => l
  end.

Fixpoint random_shuffle (rnd : nat -> nat) (i : nat) (l : list Card)
    : list Card :=
  match i with
  | O => l
  | S i' => random_shuffle rnd i' (swap l i (rnd (S i) mod S i))
  end.

(** [Deck.shuffle] *)
Definition shuffle (rnd : nat -> nat) (d : Deck) : Deck :=
  mkDeck (random_shuffle rnd (pred (length (cards d))) (cards d))
         (number_of_decks d) 0 (initial_cards d) (cut_card_position d).

(** [Deck.deal_card(face_up)]: the returned object ([None] for Python's
    [None]) and the deck afterwards.  No exception is raised. *)
Definition deal_card (d : Deck) (face_up : bool) : option Card * Deck :=
  match cards d with
  | [] => (None, d)
  | card :: rest =>
      let count := if face_up then running_count d + get_count_value card
                   else running_count d in
      (Some card,
       mkDeck rest (number_of_decks d) count
              (initial_cards d) (cut_card_position d))
  end.

Definition cards_left (d : Deck) : Z := Z.of_nat (length (cards d)).

Definition is_cut_card (d : Deck) : bool :=
  cards_left d <=? cut_card_position d.

End Cards.

(* ===================================================================== *)
(** * game/players.py *)
(* ===================================================================== *)
Module Players.
Import Py Settings Cards.

(** ** class Hand *)
Record Hand : Set := mkHand {
  cards : list Card;
  bet : pynum;
  is_split : bool;
  is_doubled : bool;
  is_surrendered : bool
}.

(** [Hand(bet)] *)
Definition Hand_init (bet : pynum) : Hand := mkHand [] bet false false false.

Definition add_card (self : Hand) (card : Card) : Hand :=
  mkHand (cards self ++ [card]) (bet self)
         (is_split self) (is_doubled self) (is_surrendered self).

(** The first pass shared by [get_value] and [is_soft]: the total of the
    non-aces and the number of aces. *)
Definition first_pass (cs : list Card) : Z * nat :=
  fold_left (fun '(value, aces) card =>
               if rank_eqb (rank card) RA then (value, S aces)
               else (value + Cards.value card, aces))
            cs (0, O).

(** [for _ in range(aces)]: 11 when it still fits under 21, else 1. *)
Fixpoint add_aces (aces : nat) (value : Z) : Z :=
  match aces with
  | O => value
  | S aces' =>
      add_aces aces' (if value + 11 <=? 21 then value + 11 else value + 1)
  end.

(** [Hand.get_value] *)
Definition get_value (self : Hand) : Z :=
  let '(value, aces) := first_pass (cards self) in
  add_aces aces value.

Definition is_busted (self : Hand) : bool := 21 <? get_value self.

Definition is_blackjack (self : Hand) : bool :=
  (length (cards self) =? 2)%nat && (get_value self =? 21).

(** [Hand.is_soft] *)
Definition is_soft (self : Hand) : bool :=
  let '(value, aces) := first_pass (cards self) in
  (0 <? aces)%nat && (value + 11 <=? 21).

Definition is_pair (self : Hand) : bool :=
  match cards self with
  | [c0; c1] => rank_eqb (rank c0) (rank c1)
  | _ => false
  end.

(** ** Two pieces the valuations below have in common *)

(** The loop [while total > 21 and aces > 0: total -= 10; aces -= 1],
    which [Dealer.get_hand_value], [get_basic_strategy_move] and
    [GameSession.hand_value] all run; it returns the total and the aces
    still counted as 11. *)
Fixpoint demote_aces (aces : nat) (total : Z) : Z * nat :=
  match aces with
  | O => (total, O)
  | S aces' =>
      if 21 <? total then demote_aces aces' (total - 10)
      else (total, aces)
  end.

(** [sum(1 for card in hand if card.rank == 'A')] *)
Definition count_aces (hand : list Card) : nat :=
  length (filter (fun card => rank card = RA) hand).

(** ** class Dealer: the valuation of the dealer's own hand *)

Definition get_hand_value (hand : list Card) : Z :=
  let '(total, aces) :=
    fold_left (fun '(total, aces) card =>
                 (total + value card,
                  if rank_eqb (rank card) RA then S aces else aces))
              hand (0, O) in
  fst (demote_aces aces total).

Definition _is_soft_hand (hand : list Card) : bool :=
  let has_ace := existsb (fun card => rank_eqb (rank card) RA) hand in
  if negb has_ace then false else
  let non_ace_value :=
    sum (map value (filter (fun card => rank card <> RA) hand)) in
  let ace_count := count_aces hand in
  non_ace_value + Z.of_nat ace_count + 10 <=? 21.

Definition should_hit (hit_on_soft_17 : pyval) (hand : list Card) : bool :=
  let value := get_hand_value hand in
  if value <? 17 then true
  else if (value =? 17) && truthy hit_on_soft_17 then _is_soft_hand hand
  else false.

(** ** Strategy helper *)
Inductive Move : Set := Hit | Stand | Double | Split | Surrender.

(** The pair table; [None] when no branch of the chain returns. *)
Definition pair_move (pair_rank : Rank) (dealer_value : Z)
    (len : nat) : option Move :=
  if rank_eqb pair_rank RA || rank_eqb pair_rank R8 then Some Split
  else if rank_eqb pair_rank R10 || rank_eqb pair_rank RJ
          || rank_eqb pair_rank RQ || rank_eqb pair_rank RK then Some Stand
  else if rank_eqb pair_rank R9 then
    if mem dealer_value [2; 3; 4; 5; 6; 8; 9] then Some Split
    else Some Stand
  else if rank_eqb pair_rank R7 then
    if mem dealer_value [2; 3; 4; 5; 6; 7] then Some Split else Some Hit
  else if rank_eqb pair_rank R6 then
    if mem dealer_value [2; 3; 4; 5; 6] then Some Split else Some Hit
  else if rank_eqb pair_rank R5 then
    if mem dealer_value [2; 3; 4; 5; 6; 7; 8; 9] && (len =? 2)%nat
    then Some Double else Some Hit
  else if rank_eqb pair_rank R4 then
    if mem dealer_value [5; 6] then Some Split else Some Hit
  else if rank_eqb pair_rank R3 || rank_eqb pair_rank R2 then
    if mem dealer_value [2; 3; 4; 5; 6; 7] then Some Split else Some Hit
  else None.

Definition soft_move (hand_value dealer_value : Z) (len : nat) : Move :=
  if 19 <=? hand_value then Stand
  else if hand_value =? 18 then
    if mem dealer_value [2; 3; 4; 5; 6; 7; 8] then Stand else Hit
  else if hand_value =? 17 then
    if mem dealer_value [3; 4; 5; 6] && (len =? 2)%nat then Double else Hit
  else if (hand_value =? 16) || (hand_value =? 15) then
    if mem dealer_value [4; 5; 6] && (len =? 2)%nat then Double else Hit
  else if (hand_value =? 14) || (hand_value =? 13) then
    if mem dealer_value [5; 6] && (len =? 2)%nat then Double else Hit
  else Hit.

Definition hard_move (hand_value dealer_value : Z) (len : nat) : Move :=
  if 17 <=? hand_value then Stand
  else if (13 <=? hand_value) && (hand_value <=? 16) then
    if mem dealer_value [2; 3; 4; 5; 6] then Stand else Hit
  else if hand_value =? 12 then
    if mem dealer_value [4; 5; 6] then Stand else Hit
  else if hand_value =? 11 then
    if (len =? 2)%nat then Double else Hit
  else if hand_value =? 10 then
    if mem dealer_value [2; 3; 4; 5; 6; 7; 8; 9] && (len =? 2)%nat
    then Double else Hit
  else if hand_value =? 9 then
    if mem dealer_value [3; 4; 5; 6] && (len =? 2)%nat then Double else Hit
  else Hit.

(** [get_basic_strategy_move(player_hand, dealer_upcard)] *)
Definition get_basic_strategy_move (player_hand : list Card)
    (dealer_upcard : Card) : Move :=
  let hand_value := sum (map value player_hand) in
  let aces := count_aces player_hand in
  let '(hand_value, aces) := demote_aces aces hand_value in
  let is_soft := (0 <? aces)%nat && (hand_value <=? 21) in
  let pair :=
    match player_hand with
    | [c0; c1] => if rank_eqb (rank c0) (rank c1) then Some (rank c0) else None
    | _ => None
    end in
  let dealer_value := value dealer_upcard in
  let len := length player_hand in
  let paired :=
    match pair with
    | Some pair_rank => pair_move pair_rank dealer_value len
    | None => None
    end in
  match paired with
  | Some move => move
  | None =>
      if is_soft then soft_move hand_value dealer_value len
      else hard_move hand_value dealer_value len
  end.

(** ** class Player *)

(** The counters of [Player.stats]; the dictionary is created with all of
    its keys and none is ever removed. *)
Record PlayerStats : Set := mkPlayerStats {
  stat_hands_played : Z;
  stat_hands_won : Z;
  stat_hands_lost : Z;
  stat_hands_pushed : Z;
  stat_blackjacks : Z;
  stat_busts : Z;
  splits : Z;
  doubles : Z;
  surrenders : Z;
  largest_win : Z;
  largest_loss : Z;
  current_streak : Z;
  longest_win_streak : Z;
  longest_loss_streak : Z
}.

(** [current_hand_index] starts at 0 and is only ever incremented. *)
Record Player : Type := mkPlayer {
  name : string;
  bankroll : pyval;
  hands : list Hand;
  current_hand_index : nat;
  stats : PlayerStats
}.

(** [Player(name, bankroll)] under the player settings [ps]. *)
Definition Player_init (ps : gmap string pyval) (name : string)
    (bankroll : option pyval) : Player :=
  let bankroll :=
    match bankroll with
    | None => get ps "INITIAL_BANKROLL" (VFloat 1000)
    | Some b => b
    end in
  mkPlayer name bankroll [] 0 (mkPlayerStats 0 0 0 0 0 0 0 0 0 0 0 0 0 0).

(** [self.bankroll -= amount] *)
Definition withdraw (bankroll : pyval) (amount : pynum) : result pyval :=
  b ← match as_num bankroll with
      | Some b => Ok b
      | None => Raise TypeError
      end;
  b' ← num_sub b amount;
  Ok (of_num b').

(** [Player.place_bet(amount)]: the new hand and the player afterwards.
    The three [ValueError]s are raised before anything is assigned. *)
Definition place_bet (ps : gmap string pyval) (self : Player)
    (amount : pynum) : result (Hand * Player) :=
  let min_bet := get ps "MIN_BET" (VInt 1) in
  let max_bet := get ps "MAX_BET" (VInt 1000) in
  low ← py_lt (of_num amount) min_bet;
  if low : bool then Raise ValueError else
  high ← py_gt (of_num amount) max_bet;
  if high : bool then Raise ValueError else
  short ← py_gt (of_num amount) (bankroll self);
  if short : bool then Raise ValueError else
  let hand := Hand_init amount in
  b ← withdraw (bankroll self) amount;
  Ok (hand,
      mkPlayer (name self) b (hands self ++ [hand])
               (current_hand_index self) (stats self)).

(** The index a method works on: the argument, or by default the current
    hand; it must lie within [self.hands]. *)
Definition resolve_index (self : Player) (hand_index : option Z)
    : result nat :=
  let hand_index :=
    match hand_index with
    | None => Z.of_nat (current_hand_index self)
    | Some i => i
    end in
  if (hand_index <? 0) || (Z.of_nat (length (hands self)) <=? hand_index)
  then Raise ValueError
  else Ok (Z.to_nat hand_index).

(** [Player.hit(hand_index)] *)
Definition hit (self : Player) (hand_index : option Z) : result Hand :=
  i ← resolve_index self hand_index;
  match hands self !! i with
  | Some hand => Ok hand
  | None => Raise ValueError
  end.

(** [Player.stand(hand_index)]: whether hands remain, and the player. *)
Definition stand (self : Player) (hand_index : option Z)
    : result (bool * Player) :=
  i ← resolve_index self hand_index;
  let self :=
    if (i =? current_hand_index self)%nat
    then mkPlayer (name self) (bankroll self) (hands self)
                  (S (current_hand_index self)) (stats self)
    else self in
  Ok ((current_hand_index self <? length (hands self))%nat, self).

Definition bump_doubles (st : PlayerStats) : PlayerStats :=
  mkPlayerStats (stat_hands_played st) (stat_hands_won st)
    (stat_hands_lost st) (stat_hands_pushed st) (stat_blackjacks st)
    (stat_busts st) (splits st) (doubles st + 1) (surrenders st)
    (largest_win st) (largest_loss st) (current_streak st)
    (longest_win_streak st) (longest_loss_streak st).

Definition bump_splits (st : PlayerStats) : PlayerStats :=
  mkPlayerStats (stat_hands_played st) (stat_hands_won st)
    (stat_hands_lost st) (stat_hands_pushed st) (stat_blackjacks st)
    (stat_busts st) (splits st + 1) (doubles st) (surrenders st)
    (largest_win st) (largest_loss st) (current_streak st)
    (longest_win_streak st) (longest_loss_streak st).

(** [Player.double_down(hand_index)]: the doubled hand, which is also the
    one now at that index of [self.hands]. *)
Definition double_down (self : Player) (hand_index : option Z)
    : result (Hand * Player) :=
  i ← resolve_index self hand_index;
  match hands self !! i with
  | None => Raise ValueError
  | Some hand =>
      if negb (length (cards hand) =? 2)%nat then Raise ValueError else
      short ← py_gt (of_num (bet hand)) (bankroll self);
      if short : bool then Raise ValueError else
      b ← withdraw (bankroll self) (bet hand);
      doubled ← num_mul (bet hand) (NInt 2);
      let hand :=
        mkHand (cards hand) doubled (is_split hand) true
               (is_surrendered hand) in
      Ok (hand,
          mkPlayer (name self) b (<[i := hand]> (hands self))
                   (current_hand_index self) (bump_doubles (stats self)))
  end.

(** [Player.split(hand_index)]: the two hands, which are also the ones
    now at that index and the next of [self.hands]. *)
Definition split (self : Player) (hand_index : option Z)
    : result (Hand * Hand * Player) :=
  i ← resolve_index self hand_index;
  match hands self !! i with
  | None => Raise ValueError
  | Some hand =>
      if negb (is_pair hand) then Raise ValueError else
      short ← py_gt (of_num (bet hand)) (bankroll self);
      if short : bool then Raise ValueError else
      match cards hand with
      | [c0; c1] =>
          let new_hand := mkHand [c1] (bet hand) true false false in
          let hand :=
            mkHand [c0] (bet hand) true (is_doubled hand)
                   (is_surrendered hand) in
          b ← withdraw (bankroll self) (bet hand);
          let hands :=
            take (S i) (<[i := hand]> (hands self)) ++ new_hand
            :: drop (S i) (hands self) in
          Ok (hand, new_hand,
              mkPlayer (name self) b hands (current_hand_index self)
                       (bump_splits (stats self)))
      | _ => Raise ValueError
      end
  end.

(** [Player.get_current_hand] *)
Definition get_current_hand (self : Player) : option Hand :=
  hands self !! current_hand_index self.

Definition clear_hands (self : Player) : Player :=
  mkPlayer (name self) (bankroll self) [] 0 (stats self).

(** ** class Dealer: the object and its automatic play *)

Record Dealer : Type := mkDealer {
  hand : list Card;
  hit_on_soft_17 : pyval;
  stand_on_hard_17 : pyval;
  hide_hole_card : bool
}.

(** [Dealer()] under the dealer settings [ds]. *)
Definition Dealer_init (ds : gmap string pyval) : Dealer :=
  mkDealer [] (get ds "DEALER_HIT_ON_SOFT_17" (VBool false))
           (get ds "DEALER_STAND_ON_HARD_17" (VBool true)) true.

Definition receive_card (self : Dealer) (card : Card) : Dealer :=
  mkDealer (hand self ++ [card]) (hit_on_soft_17 self)
           (stand_on_hard_17 self) (hide_hole_card self).

Definition reset_hand (self : Dealer) : Dealer :=
  mkDealer [] (hit_on_soft_17 self) (stand_on_hard_17 self) true.

Definition reveal_hand (self : Dealer) : Dealer :=
  mkDealer (hand self) (hit_on_soft_17 self) (stand_on_hard_17 self) false.

Definition get_visible_card (self : Dealer) : option Card := head (hand self).

(** The loop of [Dealer.play]: [while self.should_hit():
    self.receive_card(deck.deal_card())].  [shoe] is the list of cards
    left in [deck], the measure of the recursion.  On an exhausted shoe
    [None] is received and the next [should_hit] reads [None.rank]. *)
Fixpoint play_loop (shoe : list Card) (self : Dealer) (deck : Deck)
    {struct shoe} : result (Dealer * Deck) :=
  if should_hit (hit_on_soft_17 self) (hand self) then
    match shoe, deal_card deck true with
    | _ :: shoe, (Some card, deck) =>
        play_loop shoe (receive_card self card) deck
    | _, _ => Raise AttributeError
    end
  else Ok (self, deck).

(** [Dealer.play(deck)]: the final value, the dealer and the deck. *)
Definition play (self : Dealer) (deck : Deck) : result (Z * Dealer * Deck) :=
  let self := reveal_hand self in
  r ← play_loop (Cards.cards deck) self deck;
  Ok (get_hand_value (hand r.1), r.1, r.2).

End Players.

(* ===================================================================== *)
(** * game/game_session.py *)
(* ===================================================================== *)
Module Session.
Import Py Settings Cards.

(** ** class Table *)

(** [c * n] for a float constant and a number. *)
Definition fmul_num (c : float) (n : pynum) : result float :=
  match n with
  | NInt z => z' ← to_float z; Ok (c * z')%float
  | NFloat f => Ok (c * f)%float
  end.

Definition as_number (v : pyval) : result pynum :=
  match as_num v with
  | Some n => Ok n
  | None => Raise TypeError
  end.

(** The deck count [Table.calculate_house_edge] reads:
    [self.rules.get("number_of_decks", 6)]. *)
Definition house_edge_number_of_decks (rules : gmap string pyval) : pyval :=
  get rules "number_of_decks" (VInt 6).

(** [Table.calculate_house_edge], on [self.rules]. *)
Definition calculate_house_edge (rules : gmap string pyval) : result float :=
  let house_edge := 0.5%float in
  let decks := house_edge_number_of_decks rules in
  house_edge ←
    (if py_eq decks (VInt 1) then Ok (house_edge - 0.25)%float
     else if py_eq decks (VInt 2) then Ok (house_edge - 0.2)%float
     else
       over ← py_gt decks (VInt 6);
       if over : bool then
         n ← as_number decks;
         extra ← num_sub n (NInt 6);
         impact ← fmul_num 0.02 extra;
         Ok (house_edge + impact)%float
       else Ok house_edge);
  let blackjack_payout := get rules "blackjack_payout" (VStr "3:2") in
  let house_edge :=
    if py_eq blackjack_payout (VStr "6:5") then (house_edge + 1.4)%float
    else if py_eq blackjack_payout (VStr "1:1") then (house_edge + 2.3)%float
    else house_edge in
  let house_edge :=
    if truthy (get rules "dealer_hits_soft_17" (VBool false))
    then (house_edge + 0.2)%float else house_edge in
  let house_edge :=
    if negb (truthy (get rules "allow_double_down" (VBool true)))
    then (house_edge + 0.2)%float else house_edge in
  let house_edge :=
    if negb (truthy (get rules "allow_double_after_split" (VBool true)))
    then (house_edge + 0.14)%float else house_edge in
  let house_edge :=
    if negb (truthy (get rules "allow_split" (VBool true)))
    then (house_edge + 0.4)%float else house_edge in
  let house_edge :=
    if negb (truthy (get rules "resplit_aces" (VBool false)))
    then (house_edge + 0.08)%float else house_edge in
  let house_edge :=
    if truthy (get rules "allow_surrender" (VBool false))
    then (house_edge - 0.08)%float else house_edge in
  let penetration := get rules "deck_penetration" (VFloat 0.75) in
  house_edge ←
    (deep ← py_gt penetration (VFloat 0.8);
     if deep : bool then Ok (house_edge - 0.1)%float
     else
       shallow ← py_lt penetration (VFloat 0.5);
       if shallow : bool then Ok (house_edge + 0.1)%float
       else Ok house_edge);
  let house_edge :=
    if negb (truthy (get rules "dealer_peek" (VBool true)))
    then (house_edge + 0.1)%float else house_edge in
  let house_edge :=
    if negb (py_eq (get rules "insurance_pays" (VStr "2:1")) (VStr "2:1"))
    then (house_edge + 0.1)%float else house_edge in
  Ok (fmax 0.1 (fmin house_edge 5.0)).

Record Table : Type := mkTable {
  name : string;
  rules : gmap string pyval;
  house_edge : float;
  show_house_edge : bool
}.

(** [Table(name, rules, house_edge=..., show_house_edge=...)]: the edge
    is computed from the rules unless one is given. *)
Definition Table_init (name : string) (rules : gmap string pyval)
    (house_edge : option float) (show_house_edge : bool) : result Table :=
  match house_edge with
  | None =>
      edge ← calculate_house_edge rules;
      Ok (mkTable name rules edge show_house_edge)
  | Some edge => Ok (mkTable name rules edge show_house_edge)
  end.

(** ** class GameSession *)

Record Stats : Set := mkStats {
  hands_played : Z;
  hands_won : Z;
  hands_lost : Z;
  pushes : Z;
  blackjacks : Z;
  busts : Z;
  dealer_busts : Z
}.

Record GameSession : Type := mkSession {
  bankroll : pynum;               (* self.profile.bankroll *)
  session_rules : gmap string pyval;  (* self.table.rules *)
  number_of_decks : pyval;
  min_bet : pyval;
  max_bet : pyval;
  blackjack_payout : pyval;
  dealer_hits_soft_17 : pyval;
  deck : Deck;
  show_hints : pyval;
  session_stats : Stats
}.

Definition with_bankroll (self : GameSession) (b : pynum) : GameSession :=
  mkSession b (session_rules self) (number_of_decks self) (min_bet self)
    (max_bet self) (blackjack_payout self) (dealer_hits_soft_17 self)
    (deck self) (show_hints self) (session_stats self).

Definition with_deck (self : GameSession) (d : Deck) : GameSession :=
  mkSession (bankroll self) (session_rules self) (number_of_decks self)
    (min_bet self) (max_bet self) (blackjack_payout self)
    (dealer_hits_soft_17 self) d (show_hints self) (session_stats self).

Definition with_stats (self : GameSession) (st : Stats) : GameSession :=
  mkSession (bankroll self) (session_rules self) (number_of_decks self)
    (min_bet self) (max_bet self) (blackjack_payout self)
    (dealer_hits_soft_17 self) (deck self) (show_hints self) st.

(** [self.session_stats[key] += 1] for each counter. *)
Definition played (st : Stats) : Stats :=
  mkStats (hands_played st + 1) (hands_won st) (hands_lost st) (pushes st)
    (blackjacks st) (busts st) (dealer_busts st).
Definition won (st : Stats) : Stats :=
  mkStats (hands_played st) (hands_won st + 1) (hands_lost st) (pushes st)
    (blackjacks st) (busts st) (dealer_busts st).
Definition lost (st : Stats) : Stats :=
  mkStats (hands_played st) (hands_won st) (hands_lost st + 1) (pushes st)
    (blackjacks st) (busts st) (dealer_busts st).
Definition pushed (st : Stats) : Stats :=
  mkStats (hands_played st) (hands_won st) (hands_lost st) (pushes st + 1)
    (blackjacks st) (busts st) (dealer_busts st).
Definition blackjacked (st : Stats) : Stats :=
  mkStats (hands_played st) (hands_won st) (hands_lost st) (pushes st)
    (blackjacks st + 1) (busts st) (dealer_busts st).
Definition busted (st : Stats) : Stats :=
  mkStats (hands_played st) (hands_won st) (hands_lost st) (pushes st)
    (blackjacks st) (busts st + 1) (dealer_busts st).

(** The deck count [GameSession.__init__] reads:
    [table.rules.get("number_of_decks", GAME_SETTINGS.get('MAX_DECKS', 6))]. *)
Definition session_number_of_decks (st : settings)
    (rules : gmap string pyval) : pyval :=
  get rules "number_of_decks" (get (GAME_SETTINGS st) "MAX_DECKS" (VInt 6)).

(** [GameSession(profile, table)]; [rnd] drives the first shuffle. *)
Definition GameSession_init (st : settings) (rnd : nat -> nat)
    (profile_bankroll : pynum) (table : Table) : result GameSession :=
  let number_of_decks := session_number_of_decks st (rules table) in
  let min_bet :=
    get (rules table) "min_bet" (get (PLAYER_SETTINGS st) "MIN_BET" (VInt 5)) in
  let max_bet :=
    get (rules table) "max_bet" (get (PLAYER_SETTINGS st) "MAX_BET" (VInt 500)) in
  let blackjack_payout := get (rules table) "blackjack_payout" (VStr "3:2") in
  let dealer_hits_soft_17 :=
    get (rules table) "dealer_hits_soft_17" (VBool false) in
  deck ← Deck_init (GAME_SETTINGS st) number_of_decks 0.75;
  let deck := shuffle rnd deck in
  let show_hints := get (GAME_SETTINGS st) "SHOW_HINTS" (VBool false) in
  Ok (mkSession profile_bankroll (rules table) number_of_decks min_bet
        max_bet blackjack_payout dealer_hits_soft_17 deck show_hints
        (mkStats 0 0 0 0 0 0 0)).

(** [GameSession.hand_value] *)
Definition hand_value (hand : list Card) : Z :=
  let value := sum (map Cards.value hand) in
  let aces := Players.count_aces hand in
  fst (Players.demote_aces aces value).

Definition check_blackjack (hand : list Card) : bool :=
  (length hand =? 2)%nat && (hand_value hand =? 21).

(** [GameSession.is_soft_hand] *)
Definition is_soft_hand (hand : list Card) : bool :=
  let value := sum (map Cards.value hand) in
  let aces := Z.of_nat (Players.count_aces hand) in
  let alt_value := value - aces * 10 in
  (0 <? aces) && (alt_value + 10 <=? 21).

Definition can_split (hand : list Card) : bool :=
  match hand with
  | [c0; c1] => rank_eqb (rank c0) (rank c1)
  | _ => false
  end.

(** [GameSession.flip_card]: the hole card enters the running count. *)
Definition flip_card (self : GameSession) (card : Card) : GameSession :=
  let d := deck self in
  with_deck self
    (mkDeck (cards d) (Cards.number_of_decks d)
            (running_count d + get_count_value card)
            (initial_cards d) (cut_card_position d)).

(** [GameSession.get_bet].  Each prompt reads one line: ['q'], text that
    [int()] rejects, or an integer.  It returns the accepted bet
    ([None] on quit) and the lines not yet read. *)
Inductive bet_line : Set := Quit | NotAnInt | Amount (bet : Z).

Fixpoint get_bet (self : GameSession) (lines : list bet_line)
    : result (option Z * GameSession * list bet_line) :=
  match lines with
  | [] => Raise EOFError
  | Quit :: rest => Ok (None, self, rest)
  | NotAnInt :: rest => get_bet self rest
  | Amount bet :: rest =>
      above_min ← py_le (min_bet self) (VInt bet);
      in_range ←
        (if above_min : bool then py_le (VInt bet) (max_bet self)
         else Ok false);
      if in_range && num_le (NInt bet) (bankroll self) then
        b ← num_sub (bankroll self) (NInt bet);
        Ok (Some bet, with_bankroll self b, rest)
      else get_bet self rest
  end.

(** [GameSession.compare_hands].  Both hands are displayed first, and the
    renderer takes [max()] over the cards shown: an empty hand raises. *)
Definition compare_hands (self : GameSession)
    (player_hand dealer_hand : list Card) (bet : Z) : result GameSession :=
  let player_value := hand_value player_hand in
  let dealer_value := hand_value dealer_hand in
  if (length player_hand =? 0)%nat || (length dealer_hand =? 0)%nat
  then Raise ValueError else
  let self := with_stats self (played (session_stats self)) in
  if 21 <? player_value then
    Ok (with_stats self (busted (lost (session_stats self))))
  else if 21 <? dealer_value then
    b ← num_add (bankroll self) (NInt (bet * 2));
    Ok (with_stats (with_bankroll self b) (won (session_stats self)))
  else if dealer_value <? player_value then
    b ← num_add (bankroll self) (NInt (bet * 2));
    Ok (with_stats (with_bankroll self b) (won (session_stats self)))
  else if player_value <? dealer_value then
    Ok (with_stats self (lost (session_stats self)))
  else
    b ← num_add (bankroll self) (NInt bet);
    Ok (with_stats (with_bankroll self b) (pushed (session_stats self))).

(** One pass of the loop of [GameSession.play], from the initial deal to
    the blackjack checks, for a bet [get_bet] has accepted.  Either the
    round is over (the loop goes on to [play_again]) or play moves to
    the player's turn. *)
Inductive opening : Type :=
| RoundOver (self : GameSession)
| PlayerTurn (self : GameSession) (player_hand : list Card)
    (dealer_upcard : Card) (hole_card : option Card).

(** The payout branch for a player blackjack. *)
Definition pay_blackjack (self : GameSession) (hole_card : option Card)
    (bet : Z) : result GameSession :=
  match hole_card with
  | None => Raise AttributeError          (* flip_card(None) *)
  | Some hole =>
      let self := flip_card self hole in
      payout ←
        (if py_eq (blackjack_payout self) (VStr "3:2")
         then num_mul (NInt bet) (NFloat 1.5)
         else num_mul (NInt bet) (NFloat 1.2));
      total ← num_add (NInt bet) payout;
      b ← num_add (bankroll self) total;
      Ok (with_stats (with_bankroll self b)
            (blackjacked (won (played (session_stats self)))))
  end.

Definition play_opening (self : GameSession) (bet : Z) : result opening :=
  let '(p0, d) := deal_card (deck self) true in
  let '(p1, d) := deal_card d true in
  let '(d0, d) := deal_card d true in
  let '(d1, d) := deal_card d false in
  let self := with_deck self d in
  match p0, p1, d0 with
  | Some p0, Some p1, Some dealer_upcard =>
      let player_hand := [p0; p1] in
      let player_blackjack := check_blackjack player_hand in
      let no_dealer_blackjack :=
        if player_blackjack then
          self ← pay_blackjack self d1 bet; Ok (RoundOver self)
        else Ok (PlayerTurn self player_hand dealer_upcard d1) in
      if mem (value dealer_upcard) [10; 11] then
        match d1 with
        | None => Raise AttributeError    (* hand_value reads None.value *)
        | Some hole =>
            if check_blackjack [dealer_upcard; hole] then
              let self := flip_card self hole in
              let self := with_stats self (played (session_stats self)) in
              if player_blackjack then
                b ← num_add (bankroll self) (NInt bet);
                Ok (RoundOver
                      (with_stats (with_bankroll self b)
                         (pushed (session_stats self))))
              else
                Ok (RoundOver
                      (with_stats self (lost (session_stats self))))
            else no_dealer_blackjack
        end
      else no_dealer_blackjack
  | _, _, _ => Raise AttributeError       (* a displayed card is None *)
  end.

(** ** Table.get_house_edge_breakdown *)

(** The [name] of a factor: a literal, or the f-string ["{decks} decks"]
    of the deck count, kept unformatted. *)
Inductive FactorName : Set :=
| Named (s : string)
| DecksCount (decks : pynum).

Record Factor : Set := mkFactor { factor_name : FactorName; impact : float }.

Record Breakdown : Set := mkBreakdown {
  base_edge : float;
  factors : list Factor;
  total_edge : float
}.

(** [breakdown["factors"].append(...)] when the condition holds. *)
Definition append_if (c : bool) (f : Factor) (factors : list Factor)
    : list Factor :=
  if c then factors ++ [f] else factors.

Definition get_house_edge_breakdown (rules : gmap string pyval)
    : result Breakdown :=
  let base_edge := 0.5%float in
  let factors := [] in
  let decks := get rules "number_of_decks" (VInt 6) in
  factors ←
    (if py_eq decks (VInt 1)
     then Ok (factors ++ [mkFactor (Named "Single deck") (-0.25)])
     else if py_eq decks (VInt 2)
     then Ok (factors ++ [mkFactor (Named "Double deck") (-0.2)])
     else
       over ← py_gt decks (VInt 6);
       if over : bool then
         n ← as_number decks;
         extra ← num_sub n (NInt 6);
         impact ← fmul_num 0.02 extra;
         Ok (factors ++ [mkFactor (DecksCount n) impact])
       else Ok factors);
  let blackjack_payout := get rules "blackjack_payout" (VStr "3:2") in
  let factors :=
    if py_eq blackjack_payout (VStr "6:5")
    then factors ++ [mkFactor (Named "6:5 blackjack payout") 1.4]
    else if py_eq blackjack_payout (VStr "1:1")
    then factors ++ [mkFactor (Named "1:1 blackjack payout") 2.3]
    else factors in
  let factors :=
    append_if (truthy (get rules "dealer_hits_soft_17" (VBool false)))
      (mkFactor (Named "Dealer hits soft 17") 0.2) factors in
  let factors :=
    append_if (negb (truthy (get rules "allow_double_down" (VBool true))))
      (mkFactor (Named "No doubling down") 0.2) factors in
  let factors :=
    append_if
      (negb (truthy (get rules "allow_double_after_split" (VBool true))))
      (mkFactor (Named "No doubling after split") 0.14) factors in
  let factors :=
    append_if (negb (truthy (get rules "allow_split" (VBool true))))
      (mkFactor (Named "No splitting") 0.4) factors in
  let factors :=
    append_if (negb (truthy (get rules "resplit_aces" (VBool false))))
      (mkFactor (Named "No resplitting aces") 0.08) factors in
  let factors :=
    append_if (truthy (get rules "allow_surrender" (VBool false)))
      (mkFactor (Named "Surrender allowed") (-0.08)) factors in
  let penetration := get rules "deck_penetration" (VFloat 0.75) in
  factors ←
    (deep ← py_gt penetration (VFloat 0.8);
     if deep : bool
     then Ok (factors ++ [mkFactor (Named "Deep deck penetration") (-0.1)])
     else
       shallow ← py_lt penetration (VFloat 0.5);
       if shallow : bool
       then Ok (factors ++ [mkFactor (Named "Shallow deck penetration") 0.1])
       else Ok factors);
  let factors :=
    append_if (negb (truthy (get rules "dealer_peek" (VBool true))))
      (mkFactor (Named "No dealer peek") 0.1) factors in
  let factors :=
    append_if
      (negb (py_eq (get rules "insurance_pays" (VStr "2:1")) (VStr "2:1")))
      (mkFactor (Named "Non-standard insurance") 0.1) factors in
  let total :=
    fold_left (fun total factor => (total + impact factor)%float)
              factors base_edge in
  Ok (mkBreakdown base_edge factors (fmax 0.1 (fmin total 5.0))).

(** ** GameSession.dealer_turn *)

Definition dealer_busted (st : Stats) : Stats :=
  mkStats (hands_played st) (hands_won st) (hands_lost st) (pushes st)
    (blackjacks st) (busts st) (dealer_busts st + 1).

(** The condition of the loop of [dealer_turn]. *)
Definition dealer_draws (self : GameSession) (hand : list Card) : bool :=
  (hand_value hand <? 17)
  || (truthy (dealer_hits_soft_17 self)
      && ((hand_value hand =? 17) && is_soft_hand hand)).

(** The loop of [dealer_turn]: one card from the shoe, face up, onto the
    hand, which is then displayed.  [shoe] is the list of cards left in
    [self.deck], the measure of the recursion.  On an exhausted shoe
    [None] is appended and the display reads [None.rank]. *)
Fixpoint dealer_turn_loop (shoe : list Card) (self : GameSession)
    (hand : list Card) {struct shoe} : result (list Card * GameSession) :=
  if dealer_draws self hand then
    match shoe, deal_card (deck self) true with
    | _ :: shoe, (Some card, deck) =>
        dealer_turn_loop shoe (with_deck self deck) (hand ++ [card])
    | _, _ => Raise AttributeError
    end
  else Ok (hand, self).

(** [GameSession.dealer_turn(hand)]: the returned total, the hand as the
    loop left it (the caller's list is the one appended to) and the
    session.  The hand is displayed first: an empty one raises. *)
Definition dealer_turn (self : GameSession) (hand : list Card)
    : result (Z * list Card * GameSession) :=
  if (length hand =? 0)%nat then Raise ValueError else
  r ← dealer_turn_loop (cards (deck self)) self hand;
  let '(hand, self) := r in
  let self :=
    if hand_value hand <=? 21 then self
    else with_stats self (dealer_busted (session_stats self)) in
  Ok (hand_value hand, hand, self).

(** ** Standard input and [random.random()] *)

(** A line of standard input, by what the prompts make of it once
    lowered: ['q'], ['y'], ['h'], ['s'], ['d'], ['p'], text that [int()]
    accepts, or anything else. *)
Inductive line : Set :=
| LQuit | LYes | LHit | LStand | LDouble | LSplit | LInt (z : Z) | LOther.

(** What [get_bet] makes of a line. *)
Definition as_bet_line (l : line) : bet_line :=
  match l with
  | LQuit => Quit
  | LInt z => Amount z
  | _ => NotAnInt
  end.

(** The lines not yet read and the number of calls of [random.random()]
    so far; [chance n] below is the value of the call after [n] calls. *)
Record World : Set := mkWorld { stdin : list line; draws : nat }.

(** [input(...)]: the next line, [EOFError] at the end of the input. *)
Definition input (w : World) : result (line * World) :=
  match stdin w with
  | [] => Raise EOFError
  | l :: rest => Ok (l, mkWorld rest (draws w))
  end.

(** [random.random()] *)
Definition random (chance : nat -> float) (w : World) : float * World :=
  (chance (draws w), mkWorld (stdin w) (S (draws w))).

(** [GameSession.display_hint]: the advice of [get_basic_strategy_move]
    is printed; three times in ten a line is read, on which more is
    printed.  Only the reads are kept. *)
Definition display_hint (chance : nat -> float) (self : GameSession)
    (hand : list Card) (dealer_upcard : Card) (w : World) : result World :=
  if negb (truthy (show_hints self)) then Ok w else
  let '(x, w) := random chance w in
  if PrimFloat.ltb x 0.3 then r ← input w; Ok r.2 else Ok w.

(** ** GameSession.player_turn and GameSession.handle_split *)

(** What a turn returns: the tuple [(hand, bet)], or [(None, None)] once
    the hand has been split. *)
Definition outcome : Type := option (list Card * Z).

(** The session, [self.hands_to_compare] and the world. *)
Record Round : Type := mkRound {
  session : GameSession;
  hands_to_compare : list outcome;
  world : World
}.

Definition with_session (st : Round) (self : GameSession) : Round :=
  mkRound self (hands_to_compare st) (world st).

Definition with_world (st : Round) (w : World) : Round :=
  mkRound (session st) (hands_to_compare st) w.

(** [self.hands_to_compare.append((final_hand, final_bet))] *)
Definition compare_later (st : Round) (r : outcome) : Round :=
  mkRound (session st) (hands_to_compare st ++ [r]) (world st).

(** [hand.append(self.deck.deal_card())] followed by the display of the
    hand, which reads [None.rank] when the shoe was empty. *)
Definition hit_card (st : Round) : result (Card * Round) :=
  match deal_card (deck (session st)) true with
  | (Some card, d) => Ok (card, with_session st (with_deck (session st) d))
  | (None, _) => Raise AttributeError
  end.

(** [GameSession.handle_split], over the [player_turn] it calls on each
    of the two hands.  [hand[0]] and [hand[1]] exist when [player_turn]
    offers the split; on a shorter list they raise [IndexError], a
    lookup error for which [KeyError] stands here and which a turn never
    meets (lemma [player_turn_loop_errors]). *)
Definition handle_split
    (player_turn : Round -> list Card -> Z -> Card -> result (outcome * Round))
    (st : Round) (hand : list Card) (bet : Z) (dealer_upcard : Card)
    : result (outcome * Round) :=
  if num_lt (bankroll (session st)) (NInt bet) then Ok (Some (hand, bet), st)
  else
    match hand with
    | c0 :: c1 :: _ =>
        let '(n1, d) := deal_card (deck (session st)) true in
        let '(n2, d) := deal_card d true in
        b ← num_sub (bankroll (session st)) (NInt bet);
        let st := with_session st (with_bankroll (with_deck (session st) d) b) in
        match n1 with
        | None => Raise AttributeError    (* the display of [hand1] *)
        | Some n1 =>
            r ← player_turn st [c0; n1] bet dealer_upcard;
            let st := compare_later r.2 r.1 in
            match n2 with
            | None => Raise AttributeError
            | Some n2 =>
                r ← player_turn st [c1; n2] bet dealer_upcard;
                Ok (None, compare_later r.2 r.1)
            end
        end
    | _ => Raise KeyError
    end.

(** The loop of [player_turn], with its two flags.  Every pass reads a
    line, so [fuel], at least the number of lines left, bounds the
    passes; when it is used up the input is. *)
Fixpoint player_turn_loop (chance : nat -> float) (fuel : nat) (st : Round)
    (hand : list Card) (bet : Z) (dealer_upcard : Card)
    (can_double splittable : bool) {struct fuel}
    : result (outcome * Round) :=
  if negb (hand_value hand <? 21) then Ok (Some (hand, bet), st) else
  match fuel with
  | O => Raise EOFError
  | S fuel =>
      w ← display_hint chance (session st) hand dealer_upcard (world st);
      r ← input w;
      let move := r.1 in
      let st := with_world st r.2 in
      let again :=
        player_turn_loop chance fuel st hand bet dealer_upcard
          can_double splittable in
      match move with
      | LHit =>
          r ← hit_card st;
          player_turn_loop chance fuel r.2 (hand ++ [r.1]) bet dealer_upcard
            false false
      | LStand => Ok (Some (hand, bet), st)
      | LDouble =>
          if can_double then
            if num_le (NInt bet) (bankroll (session st)) then
              b ← num_sub (bankroll (session st)) (NInt bet);
              r ← hit_card (with_session st (with_bankroll (session st) b));
              Ok (Some (hand ++ [r.1], bet * 2), r.2)
            else again
          else again
      | LSplit =>
          if splittable then
            handle_split
              (fun st hand bet dealer_upcard =>
                 player_turn_loop chance fuel st hand bet dealer_upcard
                   true (can_split hand))
              st hand bet dealer_upcard
          else again
      | _ => again
      end
  end.

(** [GameSession.player_turn(hand, bet, dealer_upcard)] *)
Definition player_turn (chance : nat -> float) (st : Round)
    (hand : list Card) (bet : Z) (dealer_upcard : Card)
    : result (outcome * Round) :=
  player_turn_loop chance (length (stdin (world st))) st hand bet
    dealer_upcard true (can_split hand).

(** ** GameSession.play: a round from the player's turn on *)

(** [self.compare_hands(hand, dealer_hand, hand_bet)] on an entry of
    [hands_to_compare]; [hand_value(None)] is a type error. *)
Definition compare_entry (self : GameSession) (dealer_hand : list Card)
    (entry : outcome) : result GameSession :=
  match entry with
  | Some (hand, hand_bet) => compare_hands self hand dealer_hand hand_bet
  | None => Raise TypeError
  end.

Fixpoint compare_all (self : GameSession) (dealer_hand : list Card)
    (entries : list outcome) : result GameSession :=
  match entries with
  | [] => Ok self
  | entry :: entries =>
      self ← compare_entry self dealer_hand entry;
      compare_all self dealer_hand entries
  end.

(** [dealer_hand[1] = self.flip_card(dealer_hand[1])] *)
Definition reveal (self : GameSession) (hole_card : option Card)
    : result (Card * GameSession) :=
  match hole_card with
  | None => Raise AttributeError
  | Some hole => Ok (hole, flip_card self hole)
  end.

(** The dealer's turn against the hands still to be settled. *)
Definition showdown (self : GameSession) (dealer_upcard : Card)
    (hole_card : option Card) (entries : list outcome) : result GameSession :=
  r ← reveal self hole_card;
  t ← dealer_turn r.2 [dealer_upcard; r.1];
  compare_all t.2 t.1.2 entries.

(** The rest of the pass of the loop of [play], once neither side has a
    blackjack: hint, player's turn, dealer's turn and settlement, and
    the shuffle at the cut card ([rnd] drives it). *)
Definition play_hand (chance : nat -> float) (rnd : nat -> nat) (st : Round)
    (player_hand : list Card) (bet : Z) (dealer_upcard : Card)
    (hole_card : option Card) : result Round :=
  w ← display_hint chance (session st) player_hand dealer_upcard (world st);
  let st := mkRound (session st) [] w in
  r ← player_turn chance st player_hand bet dealer_upcard;
  let st := r.2 in
  self ←
    match hands_to_compare st with
    | _ :: _ =>
        showdown (session st) dealer_upcard hole_card (hands_to_compare st)
    | [] =>
        match r.1 with
        | Some (player_hand, bet) =>
            if negb (length player_hand =? 0)%nat
               && negb (21 <? hand_value player_hand)
            then
              showdown (session st) dealer_upcard hole_card
                [Some (player_hand, bet)]
            else if negb (length player_hand =? 0)%nat then
              r ← reveal (session st) hole_card;
              let self := r.2 in
              Ok (with_stats self
                    (busted (lost (played (session_stats self)))))
            else Ok (session st)
        | None => Ok (session st)
        end
    end;
  let self :=
    if is_cut_card (deck self) then with_deck self (shuffle rnd (deck self))
    else self in
  Ok (mkRound self (hands_to_compare st) (world st)).

(** One pass of the loop of [play] up to the question of [play_again]:
    [None] when [play] returns (too little money, or ['q']). *)
Definition play_round (chance : nat -> float) (rnd : nat -> nat) (st : Round)
    : result (option Round) :=
  let self := session st in
  broke ← py_lt (of_num (bankroll self)) (min_bet self);
  if broke : bool then Ok None else
  r ← get_bet self (map as_bet_line (stdin (world st)));
  let '(bet, self, rest) := r in
  let w :=
    mkWorld (drop (length (stdin (world st)) - length rest) (stdin (world st)))
            (draws (world st)) in
  match bet with
  | None => Ok None
  | Some bet =>
      o ← play_opening self bet;
      match o with
      | RoundOver self => Ok (Some (mkRound self (hands_to_compare st) w))
      | PlayerTurn self player_hand dealer_upcard hole_card =>
          st ← play_hand chance rnd (mkRound self (hands_to_compare st) w)
                 player_hand bet dealer_upcard hole_card;
          Ok (Some st)
      end
  end.

End Session.

(* ===================================================================== *)
(** * game/profile_manager.py *)
(* ===================================================================== *)
Module Profile.
Import Py.

(** What a profile holds and what the saved dictionary maps to: a
    scalar, or the dictionary of counters. *)
Inductive obj : Type :=
| Scalar (v : pyval)
| Dict (d : gmap string pyval).

Record PlayerProfile : Type := mkProfile {
  name : obj;
  bankroll : obj;
  xp : obj;
  stats : obj
}.

(** The counters of a new profile. *)
Definition new_stats : gmap string pyval :=
  <["hands_played" := VInt 0]>
  (<["wins" := VInt 0]>
  (<["losses" := VInt 0]>
  (<["blackjacks" := VInt 0]>
  (<["splits" := VInt 0]>
  (<["doubles" := VInt 0]> ∅))))).

(** [PlayerProfile(name, bankroll, xp, stats)]; the defaults of the
    keyword arguments are 1000, 0 and [None]. *)
Definition PlayerProfile_init (name bankroll xp stats : obj) : PlayerProfile :=
  mkProfile name bankroll xp
    (match stats with
     | Scalar VNone => Dict new_stats
     | _ => stats
     end).

Definition to_dict (self : PlayerProfile) : gmap string obj :=
  <["name" := name self]>
  (<["bankroll" := bankroll self]>
  (<["xp" := xp self]>
  (<["stats" := stats self]> ∅))).

(** [PlayerProfile.from_dict(data)] *)
Definition from_dict (data : gmap string obj) : result PlayerProfile :=
  match data !! "name" with
  | None => Raise KeyError
  | Some name =>
      Ok (PlayerProfile_init name
            (default (Scalar (VInt 1000)) (data !! "bankroll"))
            (default (Scalar (VInt 0)) (data !! "xp"))
            (default (Dict ∅) (data !! "stats")))
  end.

End Profile.

(* ===================================================================== *)
(** * Properties *)
(* ===================================================================== *)
Import Py Settings Cards.

(** ** Vocabulary of the statements *)

(** The total of the cards that are not aces. *)
Definition non_ace_total (hand : list Card) : Z :=
  Py.sum (map value (filter (fun card => rank card <> RA) hand)).

Definition count_total (cs : list Card) : Z := Py.sum (map get_count_value cs).

(** A hand as the table builds it: [Hand()] and one [add_card] per card. *)
Definition hand_of (cs : list Card) : Players.Hand :=
  fold_left Players.add_card cs (Players.Hand_init (NFloat 0)).

Definition king_ace_ace : list Card :=
  [mkCard Spades RK; mkCard Hearts RA; mkCard Diamonds RA].

(** The spec's wording of softness: the hand holds an ace, and the total
    with every ace counted 1, plus 10, is at most 21. *)
Definition all_aces_low_total (cs : list Card) : Z :=
  Py.sum (map (fun c => if rank_eqb (rank c) RA then 1 else value c) cs).

Definition is_soft_spec (cs : list Card) : bool :=
  existsb (fun c => rank_eqb (rank c) RA) cs
  && (all_aces_low_total cs + 10 <=? 21).

(** The total of a hand when [j] of its aces are counted 11 and the others
    1; the interpretations of a hand are those with [j] at most the number
    of its aces. *)
Definition interpretation (cs : list Card) (j : nat) : Z :=
  all_aces_low_total cs + 10 * Z.of_nat j.

(** The answer of the pair table, when the hand is an as-dealt pair and
    the table has an entry. *)
Definition pair_table (player_hand : list Card) (dealer_upcard : Card)
    : option Players.Move :=
  match player_hand with
  | [c0; c1] =>
      if rank_eqb (rank c0) (rank c1)
      then Players.pair_move (rank c0) (value dealer_upcard) 2
      else None
  | _ => None
  end.

(** A hand that is the two cards of rank [r] as dealt. *)
Definition pair_of (r : Rank) (h : list Card) : Prop :=
  exists s0 s1, h = [mkCard s0 r; mkCard s1 r].

(** The call returned a float that compares equal ([==]) to [x]. *)
Definition returned_float (r : result float) (x : float) : bool :=
  match r with
  | Ok f => PrimFloat.eqb f x
  | Raise _ => false
  end.

Definition only (k : string) (v : pyval) : gmap string pyval := <[k := v]> ∅.

Definition empty_shoe : Deck := mkDeck [] 1 0 52 13.

(** A session opened on a table built from [rules], under the default
    settings, for a profile holding [b]. *)
Definition open_session (rules : gmap string pyval) (rnd : nat -> nat)
    (b : pynum) : result Session.GameSession :=
  table ← Session.Table_init "Default Table" rules None true;
  Session.GameSession_init DEFAULT_SETTINGS rnd b table.

(** The first round of a fresh session: the bet is read from [lines], the
    cards are dealt and the blackjack checks made.  The result is the
    session once the bet is placed and, unless the player quit, the bet
    and how the opening ended. *)
Definition first_round (rules : gmap string pyval) (rnd : nat -> nat)
    (b : pynum) (lines : list Session.bet_line)
    : result (Session.GameSession * option (Z * Session.opening)) :=
  self ← open_session rules rnd b;
  r ← Session.get_bet self lines;
  match r with
  | (Some bet, self, _) =>
      o ← Session.play_opening self bet; Ok (self, Some (bet, o))
  | (None, self, _) => Ok (self, None)
  end.

(** Draws that leave a single deck in build order except that the ace and
    the king of hearts come to the front: the player is dealt A, K, the
    dealer 4 up and 5 down. *)
Definition stacked (n : nat) : nat :=
  if (n =? 13)%nat then 0%nat else if (n =? 12)%nat then 1%nat else (n - 1)%nat.

Definition single_deck_paying (payout : string) : gmap string pyval :=
  <["number_of_decks" := VInt 1]> (only "blackjack_payout" (VStr payout)).

(** The bankroll after the bet and after the opening, when the opening
    ends the round. *)
Definition bankrolls (r : result (Session.GameSession
                                  * option (Z * Session.opening)))
    : option (pynum * pynum) :=
  match r with
  | Ok (placed, Some (_, Session.RoundOver settled)) =>
      Some (Session.bankroll placed, Session.bankroll settled)
  | _ => None
  end.

Definition nineteen : list Card := [mkCard Hearts RK; mkCard Hearts R9].


Definition session_holding (b : Z) : Session.GameSession :=
  Session.mkSession (NInt b) ∅ (VInt 1) (VInt 1) (VInt 1000) (VStr "3:2")
    (VBool false) (mkDeck one_deck 1 0 52 13) (VBool true)
    (Session.mkStats 0 0 0 0 0 0 0).

(** [k] face-up deals in a row from a shoe; the cards dealt are set
    aside. *)
Fixpoint deal_many (k : nat) (d : Deck) : Deck :=
  match k with
  | O => d
  | S k => deal_many k (snd (deal_card d true))
  end.

(** The dealer of [players.py] holding [hand], with the soft-17 flag of a
    session. *)
Definition dealer_of (self : Session.GameSession) (hand : list Card)
    : Players.Dealer :=
  Players.mkDealer hand (Session.dealer_hits_soft_17 self) (VBool true) true.

(** The sum the loop of [get_house_edge_breakdown] forms, from the base
    edge. *)
Definition add_impact (total : float) (factor : Session.Factor) : float :=
  (total + Session.impact factor)%float.

Definition edge_of (factors : list Session.Factor) : float :=
  fold_left add_impact factors 0.5%float.

(** The breakdown and the edge agree: the same error, or the same total
    over the base 0.5. *)
Definition same_edge (b : result Session.Breakdown) (e : result float)
    : Prop :=
  match b, e with
  | Ok b, Ok edge =>
      Session.total_edge b = edge /\ Session.base_edge b = 0.5%float
  | Raise e, Raise e' => e = e'
  | _, _ => False
  end.

(** The factors so far sum to the edge so far, or both computations have
    raised the same error. *)
Definition same_so_far (fs : result (list Session.Factor))
    (h : result float) : Prop :=
  match fs, h with
  | Ok fs, Ok h => edge_of fs = h
  | Raise e, Raise e' => e = e'
  | _, _ => False
  end.

(** The bet riding on what a turn returned (a hand given up to a split
    carries none) and on the hands still to be settled. *)
Definition pending (r : Session.outcome) : Z :=
  match r with
  | Some (_, bet) => bet
  | None => 0
  end.

Definition stake (entries : list Session.outcome) : Z :=
  Py.sum (map pending entries).

(** The session counters add up: every hand played was won, lost or
    pushed, every bust was a loss and every blackjack a win. *)
Definition consistent (s : Session.Stats) : Prop :=
  Session.hands_played s
    = Session.hands_won s + Session.hands_lost s + Session.pushes s /\
  Session.busts s <= Session.hands_lost s /\
  Session.blackjacks s <= Session.hands_won s.

(** Draws of [random.random()] on which no hint asks for more. *)
Definition incurious (n : nat) : float := 0.5%float.

(** A round at a single-deck table in build order, for a player holding
    [b] who will type [lines]. *)
Definition seated (b : Z) (lines : list Session.line) : Session.Round :=
  Session.mkRound (session_holding b) [] (Session.mkWorld lines 0).

Definition five_six : list Card := [mkCard Spades R5; mkCard Spades R6].
Definition eights : list Card := [mkCard Spades R8; mkCard Clubs R8].
Definition nine : Card := mkCard Clubs R9.

(** The same table with the shoe stacked as [shoe]. *)
Definition seated_at (shoe : list Card) (b : Z) (lines : list Session.line)
    : Session.Round :=
  Session.mkRound
    (Session.mkSession (NInt b) ∅ (VInt 1) (VInt 1) (VInt 1000) (VStr "3:2")
       (VBool false) (mkDeck shoe 1 0 52 13) (VBool true)
       (Session.mkStats 0 0 0 0 0 0 0))
    [] (Session.mkWorld lines 0).

(** Two more eights on top of the shoe, then small cards. *)
Definition more_eights : list Card :=
  [mkCard Hearts R8; mkCard Diamonds R8; mkCard Hearts R2; mkCard Hearts R3].

(** Split, split the first hand again, then stand on the three hands. *)
Definition split_twice : list Session.line :=
  [Session.LSplit; Session.LSplit; Session.LStand; Session.LStand;
   Session.LStand].

(** The chips of a [Player] whose bankroll and bets are integers: the
    bets on the table, the bankroll, and their sum. *)
Definition int_bet (h : Players.Hand) : option Z :=
  match Players.bet h with
  | NInt z => Some z
  | NFloat _ => None
  end.

Fixpoint bets (hs : list Players.Hand) : option Z :=
  match hs with
  | [] => Some 0
  | h :: hs => z ← int_bet h; t ← bets hs; Some (z + t)
  end.

Definition funds (self : Players.Player) : option Z :=
  match Players.bankroll self with
  | VInt b => Some b
  | _ => None
  end.

Definition chips (self : Players.Player) : option Z :=
  b ← funds self; t ← bets (Players.hands self); Some (b + t).

(** A player holding 100 with a bet of 10 on a pair of eights. *)
Definition eights_player : Players.Player :=
  Players.mkPlayer "Player" (VInt 100)
    [Players.mkHand eights (NInt 10) false false false] 0
    (Players.mkPlayerStats 0 0 0 0 0 0 0 0 0 0 0 0 0 0).

(** ** Sums and the two ace loops *)

Lemma sum_from (l : list Z) (a : Z) : fold_left Z.add l a = a + Py.sum l.
Proof.
  unfold Py.sum. revert a.
  induction l as [|x l IH]; intros a; cbn [fold_left]; [lia|].
  rewrite (IH (a + x)), (IH (0 + x)). lia.
Qed.

Lemma sum_cons (x : Z) (l : list Z) : Py.sum (x :: l) = x + Py.sum l.
Proof. unfold Py.sum at 1. simpl. apply sum_from. Qed.

Lemma sum_app (l1 l2 : list Z) : Py.sum (l1 ++ l2) = Py.sum l1 + Py.sum l2.
Proof.
  induction l1 as [|x l1 IH]; simpl; [reflexivity|].
  rewrite !sum_cons, IH. lia.
Qed.

Lemma value_pos (c : Card) : 2 <= value c <= 11.
Proof. destruct c as [s []]; cbn; lia. Qed.

Lemma non_ace_total_cons (c : Card) (hand : list Card) :
  non_ace_total (c :: hand) =
  (if bool_decide (rank c = RA) then 0 else value c) + non_ace_total hand.
Proof.
  unfold non_ace_total. rewrite filter_cons.
  case_bool_decide; destruct (decide (rank c <> RA)); try tauto;
    cbn [map]; rewrite ?sum_cons; lia.
Qed.

Lemma count_aces_cons (c : Card) (hand : list Card) :
  Players.count_aces (c :: hand) =
  ((if bool_decide (rank c = RA) then 1 else 0) + Players.count_aces hand)%nat.
Proof.
  unfold Players.count_aces. rewrite filter_cons.
  case_bool_decide; destruct (decide (rank c = RA)); try tauto; reflexivity.
Qed.

Lemma non_ace_total_nonneg (hand : list Card) : 0 <= non_ace_total hand.
Proof.
  induction hand as [|c hand IH]; [reflexivity|].
  rewrite non_ace_total_cons. pose proof (value_pos c).
  case_bool_decide; lia.
Qed.

(** Every ace counted as 11: the plain sum of the card values. *)
Lemma sum_values_split (hand : list Card) :
  Py.sum (map value hand) =
  non_ace_total hand + 11 * Z.of_nat (Players.count_aces hand).
Proof.
  induction hand as [|c hand IH]; [reflexivity|].
  simpl map. rewrite sum_cons, IH, non_ace_total_cons, count_aces_cons.
  case_bool_decide as Hc.
  - unfold value. rewrite Hc. lia.
  - lia.
Qed.

Lemma first_pass_from (hand : list Card) (v : Z) (n : nat) :
  fold_left (fun '(value, aces) card =>
               if rank_eqb (rank card) RA then (value, S aces)
               else (value + Cards.value card, aces))
            hand (v, n)
  = (v + non_ace_total hand, (n + Players.count_aces hand)%nat).
Proof.
  revert v n. induction hand as [|c hand IH]; intros v n.
  - cbn [fold_left].
    change (non_ace_total []) with 0.
    change (Players.count_aces []) with 0%nat.
    f_equal; lia.
  - simpl fold_left. rewrite non_ace_total_cons, count_aces_cons.
    unfold rank_eqb. case_bool_decide; rewrite IH; f_equal; lia.
Qed.

Lemma first_pass_spec (hand : list Card) :
  Players.first_pass hand = (non_ace_total hand, Players.count_aces hand).
Proof. unfold Players.first_pass. now rewrite first_pass_from. Qed.

(** The greedy loop of [Hand.get_value] only ever looks at the running
    total: once it is above 10 every further ace counts 1. *)
Lemma add_aces_high (aces : nat) (v : Z) :
  10 < v -> Players.add_aces aces v = v + Z.of_nat aces.
Proof.
  revert v. induction aces as [|n IH]; intros v Hv; simpl; [lia|].
  destruct (Z.leb_spec (v + 11) 21); [lia|]. rewrite IH; lia.
Qed.

Lemma add_aces_spec (aces : nat) (v : Z) :
  0 <= v ->
  Players.add_aces aces v =
  v + Z.of_nat aces + (if (0 <? aces)%nat && (v <=? 10) then 10 else 0).
Proof.
  intros Hv. destruct aces as [|n]; [simpl; lia|].
  change (0 <? S n)%nat with true. cbn [andb Players.add_aces].
  destruct (Z.leb_spec (v + 11) 21), (Z.leb_spec v 10); try lia;
    rewrite add_aces_high; lia.
Qed.

(** What the demotion loop leaves: [k] aces still at 11, the total lowered
    by 10 for each of the others, at most 21 if an ace is still at 11, and
    the total one step earlier was above 21. *)
Lemma demote_aces_spec (aces : nat) (total : Z) :
  let '(t, k) := Players.demote_aces aces total in
  (k <= aces)%nat /\ t = total - 10 * (Z.of_nat aces - Z.of_nat k) /\
  ((0 < k)%nat -> t <= 21) /\ ((k < aces)%nat -> 21 < t + 10).
Proof.
  revert total. induction aces as [|n IH]; intros total; simpl.
  - repeat split; lia.
  - destruct (Z.ltb_spec 21 total).
    + specialize (IH (total - 10)).
      destruct (Players.demote_aces n (total - 10)) as [t k].
      destruct IH as (Hk & Ht & Hs & Hp). repeat split; lia.
    + repeat split; lia.
Qed.

(** Closed forms of the two valuations. *)
Lemma get_value_closed (h : Players.Hand) :
  let s := non_ace_total (Players.cards h) in
  let a := Players.count_aces (Players.cards h) in
  Players.get_value h =
  s + Z.of_nat a + (if (0 <? a)%nat && (s <=? 10) then 10 else 0).
Proof.
  unfold Players.get_value. rewrite first_pass_spec.
  apply add_aces_spec, non_ace_total_nonneg.
Qed.

Lemma hand_value_closed (hand : list Card) :
  let s := non_ace_total hand in
  let a := Players.count_aces hand in
  Session.hand_value hand =
  s + Z.of_nat a + (if (0 <? a)%nat && (s + Z.of_nat a <=? 11) then 10 else 0).
Proof.
  cbv zeta. unfold Session.hand_value. rewrite sum_values_split.
  pose proof (non_ace_total_nonneg hand) as Hs.
  pose proof (demote_aces_spec (Players.count_aces hand)
    (non_ace_total hand + 11 * Z.of_nat (Players.count_aces hand))) as H.
  destruct (Players.demote_aces _ _) as [t k]. simpl fst.
  destruct H as (Hk & Ht & Hsoft & Hprev).
  destruct (Nat.ltb_spec 0 (Players.count_aces hand)) as [Ha|Ha];
    destruct (Z.leb_spec (non_ace_total hand + Z.of_nat (Players.count_aces hand)) 11);
    cbn [andb]; lia.
Qed.

(** ** Inverting a successful chain of calls *)

Lemma bind_Ok {A B} (m : result A) (k : A -> result B) (b : B) :
  (x ← m; k x) = Ok b -> exists a, m = Ok a /\ k a = Ok b.
Proof. destruct m as [a|e]; [eauto | discriminate]. Qed.

Ltac inv_bind H :=
  repeat match type of H with
  | mbind _ _ = Ok _ =>
      let a := fresh "a" in
      let Ha := fresh "Ha" in
      apply bind_Ok in H; destruct H as (a & Ha & H)
  | (if ?b then _ else _) = Ok _ => destruct b eqn:?; [discriminate H|]
  | Ok _ = Ok _ => injection H as H
  end.

(** ** The shoe *)

Lemma count_total_app (cs1 cs2 : list Card) :
  count_total (cs1 ++ cs2) = count_total cs1 + count_total cs2.
Proof. unfold count_total. now rewrite map_app, sum_app. Qed.

Lemma build_deck_loop_count (n : nat) (cs : list Card) :
  count_total (build_deck_loop n cs) = count_total cs.
Proof.
  revert cs. induction n as [|n IH]; intros cs; simpl; [reflexivity|].
  rewrite IH, count_total_app. change (count_total one_deck) with 0. lia.
Qed.

Lemma build_deck_loop_length (n : nat) (cs : list Card) :
  length (build_deck_loop n cs) = (length cs + 52 * n)%nat.
Proof.
  revert cs. induction n as [|n IH]; intros cs; simpl; [lia|].
  rewrite IH, length_app. change (length one_deck) with 52%nat. lia.
Qed.

Lemma Deck_init_cards gs v p d :
  Deck_init gs v p = Ok d ->
  cards d = build_deck_loop (Z.to_nat (Cards.number_of_decks d)) [] /\
  running_count d = 0 /\
  initial_cards d = Z.of_nat (length (cards d)).
Proof.
  unfold Deck_init. intros H. inv_bind H. subst d. simpl. auto.
Qed.

(** C10: the Hi-Lo tag of a card is +1 exactly for the ranks 2 to 6, -1
    exactly for 10, J, Q, K, A and 0 for the others (7, 8, 9); the tags of
    one 52-card deck add up to 0, and so do those of the shoe
    [build_deck] makes for any deck count and of every shoe
    [Deck.__init__] returns. *)
Theorem hi_lo_count_balanced :
  (forall c, get_count_value c = 1 <-> rank c ∈ [R2; R3; R4; R5; R6]) /\
  (forall c, get_count_value c = -1 <-> rank c ∈ [R10; RJ; RQ; RK; RA]) /\
  (forall c, get_count_value c = 0 <-> rank c ∈ [R7; R8; R9]) /\
  length one_deck = 52%nat /\
  count_total one_deck = 0 /\
  (forall n, count_total (cards (build_deck (mkDeck [] n 0 0 0))) = 0) /\
  (forall gs v p, match Deck_init gs v p with
                  | Ok d => count_total (cards d) = 0
                  | Raise _ => True
                  end).
Proof.
  repeat split; try reflexivity.
  1-6: try (destruct c as [s []]; cbn; intros H; try discriminate H;
            try (by apply (bool_decide_unpack _));
            by apply (bool_decide_pack _) in H).
  - intros n. simpl. now rewrite build_deck_loop_count.
  - intros gs v p. destruct (Deck_init gs v p) as [d|e] eqn:H; [|exact I].
    apply Deck_init_cards in H as (-> & _ & _).
    now rewrite build_deck_loop_count.
Qed.

(** ** Hand valuation *)

Lemma fold_add_card (cs : list Card) (h : Players.Hand) :
  Players.cards (fold_left Players.add_card cs h) = Players.cards h ++ cs.
Proof.
  revert h. induction cs as [|c cs IH]; intros h; simpl.
  - now rewrite app_nil_r.
  - rewrite IH. simpl. now rewrite <- app_assoc.
Qed.

Lemma hand_of_cards (cs : list Card) : Players.cards (hand_of cs) = cs.
Proof. unfold hand_of. now rewrite fold_add_card. Qed.

(** Where the two valuations agree: everywhere except on hands whose
    non-aces total at most 10 and whose aces, all counted 1, bring the hand
    above 11 (so at least two aces). *)
Lemma get_value_vs_hand_value (h : Players.Hand) :
  let s := non_ace_total (Players.cards h) in
  let a := Players.count_aces (Players.cards h) in
  (Players.get_value h = Session.hand_value (Players.cards h)
   <-> ~ ((0 < a)%nat /\ s <= 10 /\ 11 < s + Z.of_nat a)) /\
  Session.hand_value (Players.cards h) <= Players.get_value h.
Proof.
  cbv zeta. rewrite get_value_closed, hand_value_closed.
  destruct (Nat.ltb_spec 0 (Players.count_aces (Players.cards h)));
    destruct (Z.leb_spec (non_ace_total (Players.cards h)) 10);
    destruct (Z.leb_spec (non_ace_total (Players.cards h)
                          + Z.of_nat (Players.count_aces (Players.cards h))) 11);
    cbn [andb]; lia.
Qed.

Lemma get_value_one_ace (h : Players.Hand) :
  (Players.count_aces (Players.cards h) <= 1)%nat ->
  Players.get_value h = Session.hand_value (Players.cards h).
Proof.
  intros Ha. apply get_value_vs_hand_value. lia.
Qed.

(** C1: [Hand.get_value] is meant to agree with the every-ace-11 sum
    lowered by 10 per ace while above 21 ([GameSession.hand_value]).  On
    K, A, A it does not: the first ace is taken as 11 because the king
    alone leaves room for it, the second ace then adds 1, and the hand is
    valued 22, a bust, where the other valuation gives 12. *)
Theorem get_value_king_ace_ace :
  Players.get_value (hand_of king_ace_ace) = 22 /\
  Players.is_busted (hand_of king_ace_ace) = true /\
  Session.hand_value king_ace_ace = 12 /\
  interpretation king_ace_ace 0 = 12.
Proof. repeat split; reflexivity. Qed.

Lemma all_aces_low_total_split (cs : list Card) :
  all_aces_low_total cs = non_ace_total cs + Z.of_nat (Players.count_aces cs).
Proof.
  unfold all_aces_low_total.
  induction cs as [|c cs IH]; [reflexivity|].
  cbn [map]. rewrite sum_cons, IH, non_ace_total_cons, count_aces_cons.
  unfold rank_eqb. case_bool_decide; lia.
Qed.

Lemma has_ace_count (cs : list Card) :
  existsb (fun c => rank_eqb (rank c) RA) cs = (0 <? Players.count_aces cs)%nat.
Proof.
  induction cs as [|c cs IH]; [reflexivity|].
  cbn [existsb]. rewrite IH, count_aces_cons.
  unfold rank_eqb. case_bool_decide; reflexivity.
Qed.

(** X30: [GameSession.hand_value] is the maximum non-busting
    interpretation whenever the hand has one: when the total with every
    ace counted 1 is at most 21, the value is at most 21, it counts some
    number of the aces as 11, and no such count that stays within 21
    gives more. *)
Lemma hand_value_is_best (cs : list Card) :
  all_aces_low_total cs <= 21 ->
  Session.hand_value cs <= 21 /\
  (exists j, (j <= Players.count_aces cs)%nat /\
             Session.hand_value cs = interpretation cs j) /\
  (forall j, (j <= Players.count_aces cs)%nat ->
             interpretation cs j <= 21 ->
             interpretation cs j <= Session.hand_value cs).
Proof.
  unfold interpretation. rewrite all_aces_low_total_split, hand_value_closed.
  pose proof (non_ace_total_nonneg cs) as Hs. intros Hlow.
  destruct (Nat.ltb_spec 0 (Players.count_aces cs));
    destruct (Z.leb_spec (non_ace_total cs
                          + Z.of_nat (Players.count_aces cs)) 11);
    cbn [andb]; (split; [lia|]); (split; [|intros j Hj Hi; lia]).
  1: exists 1%nat; lia.
  all: exists 0%nat; lia.
Qed.

(** The two sibling predicates implement the spec's wording. *)
Lemma is_soft_hand_spec (cs : list Card) :
  Session.is_soft_hand cs = is_soft_spec cs.
Proof.
  unfold Session.is_soft_hand, is_soft_spec.
  rewrite has_ace_count, all_aces_low_total_split, sum_values_split.
  destruct (Nat.ltb_spec 0 (Players.count_aces cs));
    destruct (Z.ltb_spec 0 (Z.of_nat (Players.count_aces cs))); try lia;
    cbn [andb]; try reflexivity; f_equal; lia.
Qed.

Lemma Dealer_is_soft_hand_spec (cs : list Card) :
  Players._is_soft_hand cs = is_soft_spec cs.
Proof.
  unfold Players._is_soft_hand, is_soft_spec.
  rewrite all_aces_low_total_split.
  destruct (existsb _ cs); reflexivity.
Qed.

(** [Hand.is_soft] against the spec's wording. *)
Lemma is_soft_vs_spec (h : Players.Hand) :
  let s := non_ace_total (Players.cards h) in
  let a := Players.count_aces (Players.cards h) in
  Players.is_soft h = is_soft_spec (Players.cards h)
  <-> ~ ((0 < a)%nat /\ s <= 10 /\ 11 < s + Z.of_nat a).
Proof.
  cbv zeta. unfold Players.is_soft, is_soft_spec.
  rewrite first_pass_spec, has_ace_count, all_aces_low_total_split.
  destruct (Nat.ltb_spec 0 (Players.count_aces (Players.cards h)));
    destruct (Z.leb_spec (non_ace_total (Players.cards h) + 11) 21);
    destruct (Z.leb_spec (non_ace_total (Players.cards h)
               + Z.of_nat (Players.count_aces (Players.cards h)) + 10) 21);
    cbn [andb]; split; intros; try lia; try discriminate; try reflexivity.
Qed.

(** C5: [Hand.is_soft] is meant to hold exactly when the hand has an ace
    and its total with every ace counted 1, plus 10, is at most 21.  On
    K, A, A it answers true although that total is 12 + 10 = 22: it adds
    11 to the non-aces only and forgets the second ace.
    [GameSession.is_soft_hand] and [Dealer._is_soft_hand] both answer
    false there. *)
Theorem is_soft_king_ace_ace :
  Players.is_soft (hand_of king_ace_ace) = true /\
  all_aces_low_total king_ace_ace + 10 = 22 /\
  is_soft_spec king_ace_ace = false /\
  Session.is_soft_hand king_ace_ace = false /\
  Players._is_soft_hand king_ace_ace = false.
Proof. repeat split; reflexivity. Qed.

(** ** The strategy advisor *)

(** The advisor's own valuation is [GameSession.hand_value], and its soft
    flag is [GameSession.is_soft_hand]. *)
Lemma advisor_valuation (hand : list Card) :
  let '(v, k) :=
    Players.demote_aces (Players.count_aces hand) (Py.sum (map value hand)) in
  v = Session.hand_value hand /\
  (0 <? k)%nat && (v <=? 21) = Session.is_soft_hand hand.
Proof.
  unfold Session.hand_value, Session.is_soft_hand.
  pose proof (demote_aces_spec (Players.count_aces hand)
                (Py.sum (map value hand))) as H.
  destruct (Players.demote_aces _ _) as [t k].
  destruct H as (Hk & Ht & Hsoft & Hprev).
  split; [reflexivity|].
  destruct (Nat.ltb_spec 0 k); destruct (Z.leb_spec t 21);
    destruct (Z.ltb_spec 0 (Z.of_nat (Players.count_aces hand)));
    destruct (Z.leb_spec (Py.sum (map value hand)
                - Z.of_nat (Players.count_aces hand) * 10 + 10) 21);
    cbn [andb]; try reflexivity; lia.
Qed.

Lemma get_basic_strategy_move_unfold (h : list Card) (up : Card) :
  Players.get_basic_strategy_move h up =
  match pair_table h up with
  | Some move => move
  | None =>
      if Session.is_soft_hand h
      then Players.soft_move (Session.hand_value h) (value up) (length h)
      else Players.hard_move (Session.hand_value h) (value up) (length h)
  end.
Proof.
  unfold Players.get_basic_strategy_move.
  pose proof (advisor_valuation h) as H.
  destruct (Players.demote_aces _ _) as [v k]. destruct H as [-> ->].
  unfold pair_table.
  destruct h as [|c0 [|c1 [|c2 h]]]; try reflexivity.
  destruct (rank_eqb (rank c0) (rank c1)); reflexivity.
Qed.

(** Two cards of one rank total 16 only as a pair of eights, never total
    11, and are soft only as a pair of aces (valued 12). *)
Lemma pair_table_hard_16 (h : list Card) (up : Card) :
  Session.hand_value h = 16 -> ~ pair_of R8 h -> pair_table h up = None.
Proof.
  intros Hv Hp. destruct h as [|[s0 r0] [|[s1 r1] [|c2 h]]]; try reflexivity.
  destruct r0, r1; try discriminate Hv; try reflexivity.
  exfalso. apply Hp. now exists s0, s1.
Qed.

Lemma pair_table_11 (h : list Card) (up : Card) :
  Session.hand_value h = 11 -> pair_table h up = None.
Proof.
  intros Hv. destruct h as [|[s0 r0] [|[s1 r1] [|c2 h]]]; try reflexivity.
  destruct r0, r1; try discriminate Hv; reflexivity.
Qed.

Lemma pair_table_18 (h : list Card) (up : Card) :
  Session.hand_value h = 18 -> Session.is_soft_hand h = true ->
  pair_table h up = None.
Proof.
  intros Hv Hs. destruct h as [|[s0 r0] [|[s1 r1] [|c2 h]]]; try reflexivity.
  destruct r0, r1; try discriminate Hv; try discriminate Hs; reflexivity.
Qed.

(** The counterexample to "hit on every hard 16 against a ten": a pair
    of eights is a hard 16, and the advisor says split. *)
Lemma split_eights_against_ten :
  let h := [mkCard Spades R8; mkCard Hearts R8] in
  let up := mkCard Clubs RK in
  Session.hand_value h = 16 /\ Session.is_soft_hand h = false /\
  value up = 10 /\
  Players.get_basic_strategy_move h up = Players.Split /\
  Players.get_basic_strategy_move h up <> Players.Hit.
Proof. repeat split; try reflexivity. discriminate. Qed.

(** C9 (amended): the advisor answers hit for every hard 16 other than a
    pair of eights against an upcard of value 10 (a pair of eights it
    always splits), double for every two-card hard 11 against any upcard,
    split for a pair of aces against any upcard, and hit for every soft 18
    against a dealer 9.  Equal
    inputs get equal answers; the source only reads the hand and the
    upcard, which is why the advisor is a function of the two here. *)
Theorem basic_strategy_cases :
  (forall h up,
      Session.hand_value h = 16 -> Session.is_soft_hand h = false ->
      ~ pair_of R8 h -> value up = 10 ->
      Players.get_basic_strategy_move h up = Players.Hit) /\
  (forall h up,
      pair_of R8 h ->
      Players.get_basic_strategy_move h up = Players.Split) /\
  (forall h up,
      length h = 2%nat ->
      Session.hand_value h = 11 -> Session.is_soft_hand h = false ->
      Players.get_basic_strategy_move h up = Players.Double) /\
  (forall h up,
      pair_of RA h ->
      Players.get_basic_strategy_move h up = Players.Split) /\
  (forall h up,
      Session.hand_value h = 18 -> Session.is_soft_hand h = true ->
      value up = 9 ->
      Players.get_basic_strategy_move h up = Players.Hit) /\
  (forall h up h' up',
      h = h' -> up = up' ->
      Players.get_basic_strategy_move h up
      = Players.get_basic_strategy_move h' up').
Proof.
  repeat split.
  6: now intros h up h' up' -> ->.
  - intros h up Hv Hs Hp Hup.
    rewrite get_basic_strategy_move_unfold, pair_table_hard_16 by assumption.
    now rewrite Hs, Hv, Hup.
  - intros h up (s0 & s1 & ->). reflexivity.
  - intros h up Hlen Hv Hs.
    rewrite get_basic_strategy_move_unfold, pair_table_11 by assumption.
    now rewrite Hs, Hv, Hlen.
  - intros h up (s0 & s1 & ->). reflexivity.
  - intros h up Hv Hs Hup.
    rewrite get_basic_strategy_move_unfold, pair_table_18 by assumption.
    now rewrite Hs, Hv, Hup.
Qed.

Lemma basic_strategy_cases_witness :
  Players.get_basic_strategy_move
    [mkCard Spades R10; mkCard Hearts R6] (mkCard Clubs RK) = Players.Hit /\
  Players.get_basic_strategy_move
    [mkCard Spades R5; mkCard Hearts R6] (mkCard Clubs RA) = Players.Double /\
  Players.get_basic_strategy_move
    [mkCard Spades RA; mkCard Hearts RA] (mkCard Clubs R6) = Players.Split /\
  Players.get_basic_strategy_move
    [mkCard Spades RA; mkCard Hearts R7] (mkCard Clubs R9) = Players.Hit.
Proof.
  destruct basic_strategy_cases as (H16 & _ & H11 & HA & H18 & _).
  refine (conj _ (conj _ (conj _ _))).
  - apply H16; [reflexivity | reflexivity | | reflexivity].
    intros (s0 & s1 & H). discriminate H.
  - apply H11; reflexivity.
  - apply HA. exists Spades, Hearts. reflexivity.
  - apply H18; reflexivity.
Defined.

(** ** The house edge *)

(** With no key overridden the estimate is not 0.5, nor 1.9 at 6:5, nor
    0.25 on a single deck. *)
Lemma house_edge_default_not_base :
  returned_float (Session.calculate_house_edge ∅) 0.5 = false /\
  returned_float
    (Session.calculate_house_edge (only "blackjack_payout" (VStr "6:5"))) 1.9
    = false /\
  returned_float
    (Session.calculate_house_edge (only "number_of_decks" (VInt 1))) 0.25
    = false.
Proof. repeat split; vm_compute; reflexivity. Qed.

(** C2 (amended): with no rule key overridden [calculate_house_edge]
    returns 0.58, the base 0.5 plus the 0.08 of "resplitting aces not
    allowed", since [resplit_aces] defaults to false; with only the payout
    changed to 6:5 it returns 1.98 and with only the deck count changed to
    1 it returns 0.33.  The values 0.5, 1.9 and 0.25 are returned when
    [resplit_aces] is also set to true. *)
Theorem house_edge_default_configurations :
  Session.calculate_house_edge ∅ = Ok 0.58%float /\
  Session.calculate_house_edge (only "blackjack_payout" (VStr "6:5"))
    = Ok 1.98%float /\
  Session.calculate_house_edge (only "number_of_decks" (VInt 1))
    = Ok 0.33%float /\
  Session.calculate_house_edge (only "resplit_aces" (VBool true))
    = Ok 0.5%float /\
  Session.calculate_house_edge
    (<["blackjack_payout" := VStr "6:5"]> (only "resplit_aces" (VBool true)))
    = Ok 1.9%float /\
  Session.calculate_house_edge
    (<["number_of_decks" := VInt 1]> (only "resplit_aces" (VBool true)))
    = Ok 0.25%float.
Proof. repeat split; vm_compute; reflexivity. Qed.

(** ** Shuffling and dealing *)

Lemma swap_Permutation (l : list Card) (i j : nat) : swap l i j ≡ₚ l.
Proof.
  unfold swap.
  destruct (l !! i) as [x|] eqn:Hi; [|reflexivity].
  destruct (l !! j) as [y|] eqn:Hj; [|reflexivity].
  now apply Permutation_insert_swap.
Qed.

Lemma random_shuffle_Permutation (rnd : nat -> nat) (i : nat) (l : list Card) :
  random_shuffle rnd i l ≡ₚ l.
Proof.
  revert l. induction i as [|i IH]; intros l; simpl; [reflexivity|].
  rewrite IH. apply swap_Permutation.
Qed.

(** A shuffle reorders the cards that are left in the shoe, and nothing
    else: no card comes back. *)
Lemma shuffle_Permutation (rnd : nat -> nat) (d : Deck) :
  cards (shuffle rnd d) ≡ₚ cards d.
Proof. apply random_shuffle_Permutation. Qed.

Lemma shuffle_cards_left (rnd : nat -> nat) (d : Deck) :
  cards_left (shuffle rnd d) = cards_left d.
Proof.
  unfold cards_left. now rewrite (Permutation_length (shuffle_Permutation rnd d)).
Qed.

Lemma shuffle_keeps_cut_card (rnd : nat -> nat) (d : Deck) :
  is_cut_card (shuffle rnd d) = is_cut_card d.
Proof. unfold is_cut_card. now rewrite shuffle_cards_left. Qed.

Lemma Deck_init_single :
  Deck_init DEFAULT_GAME_SETTINGS (VInt 1) 0.75
  = Ok (mkDeck one_deck 1 0 52 13).
Proof. vm_compute. reflexivity. Qed.

(** C3: the reshuffle run at the cut card is meant to bring the shoe back
    to [decks * 52] cards with a running count of 0.  [Deck.shuffle]
    resets the count but only reorders what is left: a single-deck shoe
    that has dealt one card still holds 51 cards after it, whatever the
    random draws.  In general the number of cards left is unchanged, so
    the cut-card test that triggered the reshuffle stays true. *)
Theorem shuffle_does_not_refill :
  (forall rnd : nat -> nat,
     match Deck_init DEFAULT_GAME_SETTINGS (VInt 1) 0.75 with
     | Ok fresh =>
         let dealt := snd (deal_card fresh true) in
         let reshuffled := shuffle rnd dealt in
         cards_left reshuffled = 51 /\
         Cards.number_of_decks reshuffled * 52 = 52 /\
         running_count reshuffled = 0
     | Raise _ => False
     end) /\
  (forall (rnd : nat -> nat) (d : Deck),
     cards_left (shuffle rnd d) = cards_left d /\
     running_count (shuffle rnd d) = 0 /\
     is_cut_card (shuffle rnd d) = is_cut_card d).
Proof.
  split.
  - intros rnd. rewrite Deck_init_single. cbv zeta.
    rewrite shuffle_cards_left. repeat split.
  - intros rnd d.
    rewrite shuffle_cards_left, shuffle_keeps_cut_card. repeat split.
Qed.

(** Dealing from an exhausted shoe returns [None] like any other result,
    and the shoe is as it was: nothing is raised for the caller to see. *)
Lemma deal_card_empty_returns_None :
  deal_card empty_shoe true = (None, empty_shoe) /\
  deal_card empty_shoe false = (None, empty_shoe).
Proof. split; reflexivity. Qed.

(** C4 (amended): dealing from a shoe with no cards left returns [None]
    to the caller and leaves the shoe unchanged, without raising; dealing
    from a non-empty shoe removes and returns the front card, and adds its
    Hi-Lo tag to the running count when the card is dealt face up. *)
Theorem deal_card_front (d : Deck) (face_up : bool) :
  match cards d with
  | [] => deal_card d face_up = (None, d)
  | front :: rest =>
      fst (deal_card d face_up) = Some front /\
      cards (snd (deal_card d face_up)) = rest /\
      cards_left (snd (deal_card d face_up)) = cards_left d - 1 /\
      running_count (snd (deal_card d face_up)) =
        running_count d + (if face_up then get_count_value front else 0)
  end.
Proof.
  unfold deal_card, cards_left.
  destruct (cards d) as [|front rest] eqn:Hd; [reflexivity|].
  simpl. repeat split; [lia | destruct face_up; lia].
Qed.

(** A round opened on an exhausted shoe: every deal returns [None] and
    the display of the first hand raises. *)
Lemma play_opening_on_empty_shoe (self : Session.GameSession) (bet : Z) :
  cards (Session.deck self) = [] ->
  Session.play_opening self bet = Raise AttributeError.
Proof.
  intros H. unfold Session.play_opening.
  destruct (Session.deck self) as [cs n count initial cut].
  simpl in H. subst cs. reflexivity.
Qed.

(** ** One configuration, two deck counts *)

Lemma deck_count_agrees_when_set (st : settings) (rules : gmap string pyval)
    (v : pyval) :
  rules !! "number_of_decks" = Some v ->
  Session.session_number_of_decks st rules = v /\
  Session.house_edge_number_of_decks rules = v.
Proof.
  intros H. unfold Session.session_number_of_decks,
    Session.house_edge_number_of_decks, get. now rewrite H.
Qed.

Lemma Deck_init_eight :
  Deck_init DEFAULT_GAME_SETTINGS (VInt 8) 0.75
  = Ok (mkDeck (build_deck_loop 8 []) 8 0 416 104).
Proof. vm_compute. reflexivity. Qed.

(** C8: the session and the estimator are meant to assume the same deck
    count for the same rules.  For a table whose rules do not set
    ["number_of_decks"] (the ["Default Table"] of [load_table_from_json])
    under the default settings, the session falls back on ['MAX_DECKS']
    and plays an eight-deck shoe of 416 cards, while the estimator falls
    back on 6: its edge is the six-deck one, not the eight-deck one. *)
Theorem default_deck_count_differs :
  Session.session_number_of_decks DEFAULT_SETTINGS ∅ = VInt 8 /\
  Session.house_edge_number_of_decks ∅ = VInt 6 /\
  (forall (rnd : nat -> nat) (b : pynum),
     match open_session ∅ rnd b with
     | Ok self =>
         Session.number_of_decks self = VInt 8 /\
         cards_left (Session.deck self) = 8 * 52
     | Raise _ => False
     end) /\
  Session.calculate_house_edge ∅
    = Session.calculate_house_edge (only "number_of_decks" (VInt 6)) /\
  returned_float (Session.calculate_house_edge ∅) 0.58 = true /\
  returned_float
    (Session.calculate_house_edge (only "number_of_decks" (VInt 8))) 0.58
    = false.
Proof.
  split; [reflexivity|]. split; [reflexivity|]. split.
  - intros rnd b. unfold open_session, Session.Table_init.
    replace (Session.calculate_house_edge ∅) with (@Ok float 0.58%float)
      by (vm_compute; reflexivity).
    cbn [mbind result_bind Py.bind].
    unfold Session.GameSession_init, Session.session_number_of_decks.
    cbn [Session.rules].
    replace (get ∅ "number_of_decks"
               (get (GAME_SETTINGS DEFAULT_SETTINGS) "MAX_DECKS" (VInt 6)))
      with (VInt 8) by reflexivity.
    cbn [GAME_SETTINGS DEFAULT_SETTINGS].
    rewrite Deck_init_eight.
    cbn [mbind result_bind Py.bind Session.number_of_decks Session.deck].
    rewrite shuffle_cards_left. split; reflexivity.
  - repeat split; vm_compute; reflexivity.
Qed.

(** ** Bets, blackjack and settlement *)

(** C6: a player blackjack against no dealer blackjack is meant to return
    the stake plus the bet times the configured ratio.  With a bet of 10
    from a bankroll of 1000 the round ends at once and the bankroll goes
    from 990 to 1015 at 3:2 and to 1012 at 6:5; at 1:1 it also goes to
    1012, not to the 1010 that even money pays: the payout branch only
    tells "3:2" from everything else. *)
Theorem blackjack_at_even_money_pays_six_to_five :
  bankrolls (first_round (single_deck_paying "3:2") stacked (NInt 1000)
               [Session.Amount 10])
    = Some (NInt 990, NFloat 1015) /\
  bankrolls (first_round (single_deck_paying "6:5") stacked (NInt 1000)
               [Session.Amount 10])
    = Some (NInt 990, NFloat 1012) /\
  bankrolls (first_round (single_deck_paying "1:1") stacked (NInt 1000)
               [Session.Amount 10])
    = Some (NInt 990, NFloat 1012) /\
  num_eq (NFloat 1012) (NInt (990 + 10 + 1 * 10)) = false.
Proof. repeat split; vm_compute; reflexivity. Qed.





(** ** Double arithmetic *)

Lemma SFsub_SFadd_opp prec emax (x y : spec_float) :
  SFsub prec emax x y = SFadd prec emax x (SFopp y).
Proof.
  destruct x as [sx|sx| |sx mx ex], y as [sy|sy| |sy my ey];
    simpl; try reflexivity.
  all: destruct sx, sy; reflexivity.
Qed.

(** Subtracting a double is adding its opposite, bit for bit. *)
Lemma sub_add_opp (x y : float) : (x - y)%float = (x + - y)%float.
Proof.
  rewrite <- (SF2Prim_Prim2SF (x - y)), <- (SF2Prim_Prim2SF (x + - y)).
  rewrite sub_spec, add_spec, opp_spec. unfold SF64sub, SF64add.
  now rewrite SFsub_SFadd_opp.
Qed.

(** ** More on the strategy advisor *)

Lemma pair_move_shape (r : Rank) (v : Z) (n : nat) (m : Players.Move) :
  Players.pair_move r v n = Some m ->
  m <> Players.Surrender /\ (m = Players.Double -> n = 2%nat).
Proof.
  unfold Players.pair_move.
  repeat match goal with
         | |- context [if ?c then _ else _] => destruct c eqn:?
         end;
    intros [= <-]; (split; [discriminate|]); try discriminate.
  intros _.
  match goal with
  | H : _ && (n =? 2)%nat = true |- _ =>
      apply andb_prop in H as [_ H]; now apply Nat.eqb_eq in H
  end.
Qed.

Lemma soft_move_shape (v d : Z) (n : nat) :
  let m := Players.soft_move v d n in
  m <> Players.Surrender /\ m <> Players.Split /\
  (m = Players.Double -> n = 2%nat).
Proof.
  unfold Players.soft_move.
  repeat match goal with
         | |- context [if ?c then _ else _] => destruct c eqn:?
         end;
    (split; [discriminate|]); (split; [discriminate|]); try discriminate;
    intros _;
    match goal with
    | H : _ && (n =? 2)%nat = true |- _ =>
        apply andb_prop in H as [_ H]; now apply Nat.eqb_eq in H
    end.
Qed.

Lemma hard_move_shape (v d : Z) (n : nat) :
  let m := Players.hard_move v d n in
  m <> Players.Surrender /\ m <> Players.Split /\
  (m = Players.Double -> n = 2%nat).
Proof.
  unfold Players.hard_move.
  repeat match goal with
         | |- context [if ?c then _ else _] => destruct c eqn:?
         end;
    (split; [discriminate|]); (split; [discriminate|]); try discriminate;
    intros _;
    match goal with
    | H : _ && (n =? 2)%nat = true |- _ =>
        apply andb_prop in H as [_ H]; now apply Nat.eqb_eq in H
    | H : (n =? 2)%nat = true |- _ => now apply Nat.eqb_eq in H
    end.
Qed.

Lemma pair_table_Some (h : list Card) (up : Card) (m : Players.Move) :
  pair_table h up = Some m ->
  (exists r, pair_of r h) /\ length h = 2%nat /\
  Players.pair_move (rank (default up (head h))) (value up) 2 = Some m.
Proof.
  unfold pair_table.
  destruct h as [|[s0 r0] [|[s1 r1] [|c2 h]]]; try discriminate.
  unfold rank_eqb. cbn [rank]. case_bool_decide as Hr; [|discriminate].
  subst r1. intros H. split; [|split; [reflexivity | exact H]].
  exists r0, s0, s1. reflexivity.
Qed.

(** X1: whatever the hand and the upcard, the advisor never answers
    surrender, although surrender is one of its documented results. *)
Theorem advisor_never_surrenders (h : list Card) (up : Card) :
  Players.get_basic_strategy_move h up <> Players.Surrender.
Proof.
  rewrite get_basic_strategy_move_unfold.
  destruct (pair_table h up) as [m|] eqn:Hp.
  - apply pair_table_Some in Hp as (_ & _ & Hp).
    now apply pair_move_shape in Hp.
  - destruct (Session.is_soft_hand h).
    + apply soft_move_shape.
    + apply hard_move_shape.
Qed.

(** X2: the advisor answers double only for a hand of exactly two cards,
    and split only for two cards of one rank as dealt. *)
Theorem advisor_double_and_split_need_two_cards (h : list Card) (up : Card) :
  (Players.get_basic_strategy_move h up = Players.Double ->
   length h = 2%nat) /\
  (Players.get_basic_strategy_move h up = Players.Split ->
   exists r, pair_of r h).
Proof.
  rewrite get_basic_strategy_move_unfold.
  destruct (pair_table h up) as [m|] eqn:Hp.
  - apply pair_table_Some in Hp as (Hpair & Hlen & _). auto.
  - destruct (Session.is_soft_hand h).
    + pose proof (soft_move_shape (Session.hand_value h) (value up) (length h))
        as (_ & Hs & Hd).
      split; [exact Hd | intros H; now destruct Hs].
    + pose proof (hard_move_shape (Session.hand_value h) (value up) (length h))
        as (_ & Hs & Hd).
      split; [exact Hd | intros H; now destruct Hs].
Qed.

Lemma advisor_double_and_split_witness :
  length [mkCard Spades R5; mkCard Hearts R6] = 2%nat /\
  exists r, pair_of r [mkCard Spades RA; mkCard Hearts RA].
Proof.
  split.
  - apply (advisor_double_and_split_need_two_cards
             [mkCard Spades R5; mkCard Hearts R6] (mkCard Clubs RA)).
    reflexivity.
  - apply (advisor_double_and_split_need_two_cards
             [mkCard Spades RA; mkCard Hearts RA] (mkCard Clubs R6)).
    reflexivity.
Defined.

Ltac eval_hand_value H :=
  match type of H with
  | context [Session.hand_value ?l] =>
      let v := eval vm_compute in (Session.hand_value l) in
      change (Session.hand_value l) with v in H
  end.

(** X3: on a total of 19 or more (a busted total included) the advisor
    answers stand, and on a total of 11 or less, where no card can bust
    the hand, it never does. *)
Theorem advisor_stands_high_never_low (h : list Card) (up : Card) :
  (19 <= Session.hand_value h ->
   Players.get_basic_strategy_move h up = Players.Stand) /\
  (Session.hand_value h <= 11 ->
   Players.get_basic_strategy_move h up <> Players.Stand).
Proof.
  rewrite get_basic_strategy_move_unfold. split; intros Hv.
  - destruct (pair_table h up) as [m|] eqn:Hp.
    + destruct h as [|[s0 r0] [|[s1 r1] [|c2 h]]]; try discriminate Hp.
      destruct r0, r1; cbn in Hp; try discriminate Hp;
        eval_hand_value Hv; try lia; vm_compute in Hp; congruence.
    + unfold Players.soft_move, Players.hard_move.
      destruct (Session.is_soft_hand h).
      * destruct (Z.leb_spec 19 (Session.hand_value h)); [reflexivity | lia].
      * destruct (Z.leb_spec 17 (Session.hand_value h)); [reflexivity | lia].
  - destruct (pair_table h up) as [m|] eqn:Hp.
    + destruct h as [|[s0 r0] [|[s1 r1] [|c2 h]]]; try discriminate Hp.
      destruct r0, r1; cbn in Hp; try discriminate Hp;
        eval_hand_value Hv; try lia;
        unfold Players.pair_move in Hp; vm_compute rank_eqb in Hp;
        cbn [orb andb Nat.eqb] in Hp;
        repeat match type of Hp with
               | context [if ?c then _ else _] => destruct c
               end;
        congruence.
    + unfold Players.soft_move, Players.hard_move.
      destruct (Session.is_soft_hand h);
        repeat match goal with
               | |- context [?a <=? ?b] => destruct (Z.leb_spec a b); try lia
               | |- context [?a =? ?b] => destruct (Z.eqb_spec a b); try lia
               end;
        cbn [andb orb];
        repeat match goal with
               | |- context [if ?c then _ else _] => destruct c
               end;
        discriminate.
Qed.

Lemma advisor_stands_high_never_low_witness :
  Players.get_basic_strategy_move
    [mkCard Spades RK; mkCard Hearts R9] (mkCard Clubs RA) = Players.Stand /\
  Players.get_basic_strategy_move
    [mkCard Spades R5; mkCard Hearts R6] (mkCard Clubs RA) <> Players.Stand.
Proof.
  split.
  - apply (advisor_stands_high_never_low
             [mkCard Spades RK; mkCard Hearts R9] (mkCard Clubs RA)).
    vm_compute. discriminate.
  - apply (advisor_stands_high_never_low
             [mkCard Spades R5; mkCard Hearts R6] (mkCard Clubs RA)).
    vm_compute. discriminate.
Defined.

Lemma map_value_ranks (h h' : list Card) :
  map rank h = map rank h' -> map value h = map value h'.
Proof.
  revert h'. induction h as [|c h IH]; intros [|c' h']; try discriminate;
    [reflexivity|].
  cbn [map]. intros [= Hr Hh]. f_equal; [|now apply IH].
  unfold value. now rewrite Hr.
Qed.

Lemma count_aces_ranks (h h' : list Card) :
  map rank h = map rank h' -> Players.count_aces h = Players.count_aces h'.
Proof.
  revert h'. induction h as [|c h IH]; intros [|c' h']; try discriminate;
    [reflexivity|].
  cbn [map]. intros [= Hr Hh]. rewrite !count_aces_cons, Hr.
  f_equal. now apply IH.
Qed.

(** X4: the advisor looks at ranks only: two hands with the same ranks
    in the same order against upcards of the same rank get the same
    answer, whatever the suits. *)
Theorem advisor_ignores_suits (h h' : list Card) (up up' : Card) :
  map rank h = map rank h' -> rank up = rank up' ->
  Players.get_basic_strategy_move h up = Players.get_basic_strategy_move h' up'.
Proof.
  intros Hh Hup. unfold Players.get_basic_strategy_move.
  rewrite (map_value_ranks h h' Hh), (count_aces_ranks h h' Hh).
  replace (value up) with (value up') by (unfold value; now rewrite Hup).
  assert (Hlen : length h = length h')
    by (rewrite <- (length_map rank h), Hh; apply length_map).
  rewrite Hlen.
  destruct (Players.demote_aces _ _) as [v k].
  destruct h as [|c0 [|c1 [|c2 h]]], h' as [|c0' [|c1' [|c2' h']]];
    try discriminate Hh; try reflexivity.
  injection Hh as -> ->. reflexivity.
Qed.

Lemma advisor_ignores_suits_witness :
  Players.get_basic_strategy_move
    [mkCard Spades R9; mkCard Hearts R7] (mkCard Clubs RK)
  = Players.get_basic_strategy_move
    [mkCard Diamonds R9; mkCard Diamonds R7] (mkCard Hearts RK).
Proof.
  apply advisor_ignores_suits; reflexivity.
Defined.

(** ** The valuations of the dealer and of the session *)

Lemma Dealer_fold_from (hand : list Card) (t : Z) (n : nat) :
  fold_left (fun '(total, aces) card =>
               (total + value card,
                if rank_eqb (rank card) RA then S aces else aces))
            hand (t, n)
  = (t + Py.sum (map value hand), (n + Players.count_aces hand)%nat).
Proof.
  revert t n. induction hand as [|c hand IH]; intros t n.
  - cbn. f_equal; lia.
  - cbn [fold_left map]. rewrite IH, sum_cons, count_aces_cons.
    unfold rank_eqb. case_bool_decide; f_equal; lia.
Qed.

Lemma Dealer_get_hand_value_eq (hand : list Card) :
  Players.get_hand_value hand = Session.hand_value hand.
Proof.
  unfold Players.get_hand_value, Session.hand_value.
  now rewrite Dealer_fold_from.
Qed.

Lemma Dealer_is_soft_hand_eq (hand : list Card) :
  Players._is_soft_hand hand = Session.is_soft_hand hand.
Proof. now rewrite Dealer_is_soft_hand_spec, is_soft_hand_spec. Qed.

(** X5: [Dealer.get_hand_value] and [Dealer._is_soft_hand] return, on
    every hand, what [GameSession.hand_value] and
    [GameSession.is_soft_hand] return. *)
Theorem dealer_valuation_is_session_valuation (hand : list Card) :
  Players.get_hand_value hand = Session.hand_value hand /\
  Players._is_soft_hand hand = Session.is_soft_hand hand.
Proof.
  split; [apply Dealer_get_hand_value_eq | apply Dealer_is_soft_hand_eq].
Qed.

Lemma should_hit_eq (self : Session.GameSession) (hand : list Card) :
  Players.should_hit (Session.dealer_hits_soft_17 self) hand
  = Session.dealer_draws self hand.
Proof.
  unfold Players.should_hit, Session.dealer_draws.
  rewrite Dealer_get_hand_value_eq, Dealer_is_soft_hand_eq.
  destruct (Session.hand_value hand <? 17); [reflexivity|].
  destruct (Session.hand_value hand =? 17),
    (truthy (Session.dealer_hits_soft_17 self)); reflexivity.
Qed.

Lemma non_ace_total_app (h1 h2 : list Card) :
  non_ace_total (h1 ++ h2) = non_ace_total h1 + non_ace_total h2.
Proof.
  induction h1 as [|c h1 IH]; [reflexivity|].
  cbn [app]. rewrite !non_ace_total_cons, IH. lia.
Qed.

Lemma count_aces_app (h1 h2 : list Card) :
  Players.count_aces (h1 ++ h2)
  = (Players.count_aces h1 + Players.count_aces h2)%nat.
Proof.
  induction h1 as [|c h1 IH]; [reflexivity|].
  cbn [app]. rewrite !count_aces_cons, IH. lia.
Qed.

Lemma is_soft_hand_closed (hand : list Card) :
  Session.is_soft_hand hand
  = (0 <? Players.count_aces hand)%nat
    && (non_ace_total hand + Z.of_nat (Players.count_aces hand) <=? 11).
Proof.
  unfold Session.is_soft_hand. rewrite sum_values_split.
  destruct (Nat.ltb_spec 0 (Players.count_aces hand));
    destruct (Z.ltb_spec 0 (Z.of_nat (Players.count_aces hand))); try lia;
    cbn [andb]; try reflexivity.
  all: destruct (Z.leb_spec (non_ace_total hand
                   + 11 * Z.of_nat (Players.count_aces hand)
                   - Z.of_nat (Players.count_aces hand) * 10 + 10) 21);
    destruct (Z.leb_spec (non_ace_total hand
                + Z.of_nat (Players.count_aces hand)) 11);
    try reflexivity; lia.
Qed.

Lemma hand_value_and_low (hand : list Card) :
  Session.hand_value hand <= all_aces_low_total hand + 10 /\
  (21 < Session.hand_value hand -> Session.hand_value hand
                                   = all_aces_low_total hand).
Proof.
  rewrite all_aces_low_total_split, hand_value_closed.
  pose proof (non_ace_total_nonneg hand).
  destruct (Nat.ltb_spec 0 (Players.count_aces hand));
    destruct (Z.leb_spec (non_ace_total hand
                + Z.of_nat (Players.count_aces hand)) 11);
    cbn [andb]; lia.
Qed.

(** X7: [GameSession.hand_value] lies between the total with every ace
    counted 1 and that total plus 10; it is above 21 only when the hand
    is bust with every ace counted 1; and it counts an ace as 11 exactly
    when [GameSession.is_soft_hand] says the hand is soft. *)
Theorem hand_value_and_softness (hand : list Card) :
  all_aces_low_total hand <= Session.hand_value hand
    <= all_aces_low_total hand + 10 /\
  (21 < Session.hand_value hand <-> 21 < all_aces_low_total hand) /\
  (Session.is_soft_hand hand = true
   <-> Session.hand_value hand = all_aces_low_total hand + 10).
Proof.
  rewrite all_aces_low_total_split, hand_value_closed, is_soft_hand_closed.
  pose proof (non_ace_total_nonneg hand).
  destruct (Nat.ltb_spec 0 (Players.count_aces hand));
    destruct (Z.leb_spec (non_ace_total hand
                + Z.of_nat (Players.count_aces hand)) 11);
    cbn [andb]; repeat split; intros; try lia; try discriminate.
Qed.

(** X8: a soft hand cannot be busted by one more card, whatever the
    card. *)
Theorem soft_hand_survives_a_card (hand : list Card) (card : Card) :
  Session.is_soft_hand hand = true ->
  Session.hand_value (hand ++ [card]) <= 21.
Proof.
  rewrite is_soft_hand_closed, hand_value_closed.
  rewrite non_ace_total_app, count_aces_app.
  change (non_ace_total [card])
    with (non_ace_total (card :: [])).
  change (Players.count_aces [card]) with (Players.count_aces (card :: [])).
  rewrite non_ace_total_cons, count_aces_cons.
  change (non_ace_total []) with 0.
  change (Players.count_aces []) with 0%nat.
  pose proof (non_ace_total_nonneg hand). pose proof (value_pos card).
  intros [Ha Hs]%andb_prop.
  apply Nat.ltb_lt in Ha. apply Z.leb_le in Hs.
  assert (Hten : rank card <> RA -> value card <= 10)
    by (destruct card as [s []]; cbn; intros; try lia; congruence).
  case_bool_decide as Hace; [|specialize (Hten Hace)];
    repeat match goal with
           | |- context [(?a <=? ?b)] => destruct (Z.leb_spec a b)
           | |- context [(?a <? ?b)%nat] => destruct (Nat.ltb_spec a b)
           end; cbn [andb]; lia.
Qed.

Lemma soft_hand_survives_a_card_witness :
  Session.hand_value
    ([mkCard Spades RA; mkCard Hearts R7] ++ [mkCard Clubs RK]) <= 21.
Proof.
  apply soft_hand_survives_a_card. reflexivity.
Defined.

(** X9: [GameSession.check_blackjack] holds exactly for a two-card hand
    made of an ace and a card of value 10, in either order. *)
Theorem check_blackjack_iff (hand : list Card) :
  Session.check_blackjack hand = true
  <-> exists c0 c1, hand = [c0; c1] /\
        ((rank c0 = RA /\ value c1 = 10) \/ (value c0 = 10 /\ rank c1 = RA)).
Proof.
  destruct hand as [|[s0 r0] [|[s1 r1] [|c2 hand]]].
  1,2,4: split; [discriminate | intros (c0 & c1 & [=] & _)].
  destruct r0, r1;
    (split;
     [ intros H; try discriminate H;
       eexists _, _; (split; [reflexivity|]); cbn; auto
     | intros (c0 & c1 & [= <- <-] & [[? ?]|[? ?]]);
       try discriminate; reflexivity ]).
Qed.

(** X10: [Hand.is_blackjack] and [GameSession.check_blackjack] agree on
    every hand: the two valuations differ on no hand of two cards. *)
Theorem Hand_is_blackjack_agrees (h : Players.Hand) :
  Players.is_blackjack h = Session.check_blackjack (Players.cards h).
Proof.
  destruct h as [cs b f1 f2 f3].
  unfold Players.is_blackjack, Session.check_blackjack. cbn [Players.cards].
  destruct cs as [|[s0 r0] [|[s1 r1] [|c2 cs]]]; try reflexivity.
  destruct r0, r1; reflexivity.
Qed.

Lemma hand_value_is_best_witness :
  Session.hand_value king_ace_ace <= 21 /\
  (exists j, (j <= Players.count_aces king_ace_ace)%nat /\
             Session.hand_value king_ace_ace = interpretation king_ace_ace j) /\
  (forall j, (j <= Players.count_aces king_ace_ace)%nat ->
             interpretation king_ace_ace j <= 21 ->
             interpretation king_ace_ace j <= Session.hand_value king_ace_ace).
Proof.
  apply hand_value_is_best. vm_compute. discriminate.
Defined.

(** ** The shoe and its running count *)

Lemma count_total_cons (c : Card) (cs : list Card) :
  count_total (c :: cs) = get_count_value c + count_total cs.
Proof. unfold count_total. cbn [map]. apply sum_cons. Qed.

Lemma count_total_Permutation (cs1 cs2 : list Card) :
  cs1 ≡ₚ cs2 -> count_total cs1 = count_total cs2.
Proof.
  induction 1 as [|c cs1 cs2 _ IH|c1 c2 cs|cs1 cs2 cs3 _ IH1 _ IH2].
  - reflexivity.
  - rewrite !count_total_cons. lia.
  - rewrite !count_total_cons. lia.
  - congruence.
Qed.

Lemma deal_card_balance (d : Deck) :
  running_count (snd (deal_card d true))
    + count_total (cards (snd (deal_card d true)))
  = running_count d + count_total (cards d).
Proof.
  unfold deal_card.
  destruct (cards d) as [|c cs] eqn:Hd; cbn [snd cards running_count].
  - now rewrite Hd.
  - rewrite count_total_cons. lia.
Qed.

Lemma deal_many_balance (k : nat) (d : Deck) :
  running_count (deal_many k d) + count_total (cards (deal_many k d))
  = running_count d + count_total (cards d).
Proof.
  revert d. induction k as [|k IH]; intros d; [reflexivity|].
  cbn [deal_many]. rewrite IH. apply deal_card_balance.
Qed.

Lemma deal_many_cards (k : nat) (d : Deck) :
  cards (deal_many k d) = drop k (cards d) /\
  Cards.number_of_decks (deal_many k d) = Cards.number_of_decks d /\
  cut_card_position (deal_many k d) = cut_card_position d /\
  initial_cards (deal_many k d) = initial_cards d.
Proof.
  revert d. induction k as [|k IH]; intros d; [now rewrite drop_0|].
  cbn [deal_many]. destruct (IH (snd (deal_card d true))) as (-> & -> & -> & ->).
  unfold deal_card. destruct (cards d) as [|c cs] eqn:Hd; cbn.
  - rewrite Hd. now rewrite !drop_nil.
  - auto.
Qed.

(** X11: face-up dealing keeps the sum of the running count and of the
    Hi-Lo tags of the cards left in the shoe; so in a shoe that is built,
    shuffled and then dealt face up, the running count is always the
    opposite of the tags still in the shoe, and it is 0 again when the
    last card has been dealt. *)
Theorem running_count_mirrors_the_shoe :
  (forall (k : nat) (d : Deck),
     running_count (deal_many k d) + count_total (cards (deal_many k d))
     = running_count d + count_total (cards d)) /\
  (forall gs v p (rnd : nat -> nat) (k : nat),
     match Deck_init gs v p with
     | Ok fresh =>
         let d := deal_many k (shuffle rnd fresh) in
         running_count d = - count_total (cards d) /\
         (cards d = [] -> running_count d = 0)
     | Raise _ => True
     end).
Proof.
  split; [exact deal_many_balance|].
  intros gs v p rnd k. destruct (Deck_init gs v p) as [fresh|e] eqn:Hf;
    [|exact I].
  apply Deck_init_cards in Hf as (Hcards & _ & _).
  pose proof (deal_many_balance k (shuffle rnd fresh)) as Hb.
  rewrite (count_total_Permutation _ _ (shuffle_Permutation rnd fresh)) in Hb.
  rewrite Hcards, build_deck_loop_count in Hb.
  change (running_count (shuffle rnd fresh)) with 0 in Hb.
  change (count_total []) with 0 in Hb.
  cbv zeta. split; [lia|]. intros Hnil. rewrite Hnil in Hb.
  change (count_total []) with 0 in Hb. lia.
Qed.

Lemma Deck_init_default (n : Z) :
  1 <= n <= 8 ->
  Deck_init DEFAULT_GAME_SETTINGS (VInt n) 0.75
  = Ok (mkDeck (build_deck_loop (Z.to_nat n) []) n 0 (52 * n) (13 * n)).
Proof.
  intros Hn.
  assert (n = 1 \/ n = 2 \/ n = 3 \/ n = 4 \/ n = 5 \/ n = 6 \/ n = 7 \/ n = 8)
    as Hcases by lia.
  repeat destruct Hcases as [->|Hcases]; try subst n;
    vm_compute; reflexivity.
Qed.

Lemma running_count_mirrors_the_shoe_witness :
  match Deck_init DEFAULT_GAME_SETTINGS (VInt 1) 0.75 with
  | Ok fresh =>
      cards (deal_many 52%nat (shuffle stacked fresh)) = [] /\
      running_count (deal_many 52%nat (shuffle stacked fresh)) = 0
  | Raise _ => False
  end.
Proof.
  pose proof (proj2 running_count_mirrors_the_shoe DEFAULT_GAME_SETTINGS
                (VInt 1) 0.75%float stacked 52%nat) as H.
  destruct (Deck_init DEFAULT_GAME_SETTINGS (VInt 1) 0.75) as [fresh|e] eqn:Hf;
    [|vm_compute in Hf; discriminate Hf].
  assert (Hnil : cards (deal_many 52%nat (shuffle stacked fresh)) = []).
  { rewrite (Deck_init_default 1) in Hf by lia.
    assert (Hfresh : fresh
              = mkDeck (build_deck_loop (Z.to_nat 1) []) 1 0 (52 * 1) (13 * 1))
      by congruence.
    rewrite Hfresh. vm_compute. reflexivity. }
  exact (conj Hnil (proj2 H Hnil)).
Defined.

(** X12: under the default settings [Deck(n)] for an integer [n] raises
    [ValueError] when [n] is below 1 or above 8, and otherwise builds a
    shoe of [52 * n] cards in deck order with a running count of 0 and
    the cut card at [13 * n]. *)
Theorem Deck_init_bounds (n : Z) :
  Deck_init DEFAULT_GAME_SETTINGS (VInt n) 0.75
  = if (1 <=? n) && (n <=? 8)
    then Ok (mkDeck (build_deck_loop (Z.to_nat n) []) n 0 (52 * n) (13 * n))
    else Raise ValueError.
Proof.
  destruct (Z.leb_spec 1 n) as [Hlo|Hlo]; cbn [andb].
  - destruct (Z.leb_spec n 8) as [Hhi|Hhi].
    + apply Deck_init_default. lia.
    + unfold Deck_init.
      change (getitem DEFAULT_GAME_SETTINGS "MIN_DECKS") with (Ok (VInt 1)).
      change (getitem DEFAULT_GAME_SETTINGS "MAX_DECKS") with (Ok (VInt 8)).
      cbn [mbind result_bind Py.bind py_lt py_gt as_num num_lt].
      destruct (Z.ltb_spec n 1); [lia|].
      destruct (Z.ltb_spec 8 n); [reflexivity | lia].
  - unfold Deck_init.
    change (getitem DEFAULT_GAME_SETTINGS "MIN_DECKS") with (Ok (VInt 1)).
    cbn [mbind result_bind Py.bind py_lt py_gt as_num num_lt].
    destruct (Z.ltb_spec n 1); [reflexivity | lia].
Qed.

(** X13: in a shoe of [n] decks built under the default settings, the
    cut card is reached exactly when [39 * n] cards or more have been
    dealt, shuffled or not. *)
Theorem cut_card_after_three_quarters (n : Z) (rnd : nat -> nat) (k : nat) :
  1 <= n <= 8 ->
  match Deck_init DEFAULT_GAME_SETTINGS (VInt n) 0.75 with
  | Ok fresh =>
      is_cut_card (deal_many k fresh) = (39 * n <=? Z.of_nat k) /\
      is_cut_card (deal_many k (shuffle rnd fresh)) = (39 * n <=? Z.of_nat k)
  | Raise _ => False
  end.
Proof.
  intros Hn. rewrite Deck_init_default by assumption.
  unfold is_cut_card, cards_left.
  destruct (deal_many_cards k
              (mkDeck (build_deck_loop (Z.to_nat n) []) n 0 (52 * n) (13 * n)))
    as (-> & _ & -> & _).
  destruct (deal_many_cards k
              (shuffle rnd
                 (mkDeck (build_deck_loop (Z.to_nat n) []) n 0 (52 * n) (13 * n))))
    as (-> & _ & -> & _).
  rewrite !length_drop.
  rewrite (Permutation_length (shuffle_Permutation rnd _)).
  cbn [cards cut_card_position shuffle].
  rewrite build_deck_loop_length. cbn [length].
  split; destruct (Z.leb_spec (39 * n) (Z.of_nat k));
    destruct (Z.leb_spec (Z.of_nat (0 + 52 * Z.to_nat n - k)) (13 * n));
    try reflexivity; lia.
Qed.

Lemma cut_card_after_three_quarters_witness :
  is_cut_card (deal_many 39 (mkDeck one_deck 1 0 52 13)) = true /\
  is_cut_card (deal_many 38 (mkDeck one_deck 1 0 52 13)) = false.
Proof.
  pose proof (cut_card_after_three_quarters 1 (fun n => n) 39 ltac:(lia)) as H39.
  pose proof (cut_card_after_three_quarters 1 (fun n => n) 38 ltac:(lia)) as H38.
  rewrite Deck_init_single in H39, H38.
  split; [apply H39 | apply H38].
Defined.

(** ** The dealer's turn *)

Lemma all_aces_low_total_app (h1 h2 : list Card) :
  all_aces_low_total (h1 ++ h2)
  = all_aces_low_total h1 + all_aces_low_total h2.
Proof. unfold all_aces_low_total. now rewrite map_app, sum_app. Qed.

Lemma low_value_bounds (c : Card) : 1 <= all_aces_low_total [c] <= 10.
Proof. destruct c as [s []]; vm_compute; split; discriminate. Qed.

(** While the dealer draws, the hand is below 17 with every ace counted
    1, and one more card leaves it at 26 at most. *)
Lemma dealer_draws_low (self : Session.GameSession) (hand : list Card) :
  Session.dealer_draws self hand = true -> all_aces_low_total hand < 17.
Proof.
  unfold Session.dealer_draws.
  rewrite is_soft_hand_closed, hand_value_closed, all_aces_low_total_split.
  pose proof (non_ace_total_nonneg hand).
  repeat match goal with
         | |- context [(?a <=? ?b)] => destruct (Z.leb_spec a b)
         | |- context [(?a <? ?b)%nat] => destruct (Nat.ltb_spec a b)
         | |- context [(?a <? ?b)] => destruct (Z.ltb_spec a b)
         | |- context [(?a =? ?b)] => destruct (Z.eqb_spec a b)
         end;
    destruct (truthy (Session.dealer_hits_soft_17 self));
    cbn [andb orb] in *; try discriminate; lia.
Qed.

Lemma dealer_draws_next (self : Session.GameSession) (hand : list Card)
    (card : Card) :
  Session.dealer_draws self hand = true ->
  Session.hand_value (hand ++ [card]) <= 26.
Proof.
  intros Hd. pose proof (dealer_draws_low _ _ Hd) as Hlow.
  pose proof (hand_value_and_low (hand ++ [card])) as [Hhi Hbust].
  rewrite all_aces_low_total_app in Hhi, Hbust.
  pose proof (low_value_bounds card).
  destruct (Z.le_gt_cases (Session.hand_value (hand ++ [card])) 21); [lia|].
  rewrite Hbust by lia. lia.
Qed.

Lemma dealer_turn_loop_spec (shoe : list Card) :
  forall (self : Session.GameSession) (hand hand' : list Card)
         (self' : Session.GameSession),
  shoe = cards (Session.deck self) ->
  Session.dealer_turn_loop shoe self hand = Ok (hand', self') ->
  Session.dealer_draws self hand' = false /\
  (exists drawn,
     hand' = hand ++ drawn /\
     cards (Session.deck self) = drawn ++ cards (Session.deck self') /\
     running_count (Session.deck self')
       = running_count (Session.deck self) + count_total drawn /\
     (drawn = [] \/
      exists before last,
        hand' = before ++ [last] /\
        Session.dealer_draws self before = true)) /\
  Session.bankroll self' = Session.bankroll self /\
  Session.session_stats self' = Session.session_stats self.
Proof.
  induction shoe as [|c shoe IH]; intros self hand hand' self' Hshoe;
    cbn [Session.dealer_turn_loop];
    destruct (Session.dealer_draws self hand) eqn:Hdraw.
  - discriminate.
  - intros [= <- <-]. split; [exact Hdraw|].
    split; [exists []; rewrite app_nil_r, Z.add_0_r; auto | auto].
  - unfold deal_card. rewrite <- Hshoe.
    intros Hloop. apply IH in Hloop; [|reflexivity].
    destruct Hloop
      as (Hstand & (drawn & -> & Hcards & Hcount & Hlast) & Hb & Hs).
    split; [exact Hstand|]. split; [|auto].
    exists (c :: drawn).
    cbn [Session.deck Session.with_deck cards running_count] in Hcards, Hcount.
    rewrite <- app_assoc. split; [reflexivity|].
    rewrite Hcards, Hcount, count_total_cons.
    split; [reflexivity|]. split; [lia|]. right.
    destruct Hlast as [->|(before & last & Heq & Hbefore)].
    + exists hand, c. now rewrite app_nil_r.
    + exists before, last. rewrite <- app_assoc in Heq. auto.
  - intros [= <- <-]. split; [exact Hdraw|].
    split; [exists []; rewrite app_nil_r, Z.add_0_r; auto | auto].
Qed.

(** X14: when [GameSession.dealer_turn] returns, the total it returns is
    the value of the dealer's final hand and is at least 17, the loop
    condition no longer holds, the cards added to the hand are exactly
    those taken from the front of the shoe, each counted in the running
    count, the bankroll is untouched, and [dealer_busts] went up by one
    exactly when the total is above 21.  From a hand of 21 or less the
    total never exceeds 26. *)
Theorem dealer_turn_stands (self self' : Session.GameSession)
    (hand hand' : list Card) (total : Z) :
  Session.dealer_turn self hand = Ok (total, hand', self') ->
  total = Session.hand_value hand' /\ 17 <= total /\
  Session.dealer_draws self hand' = false /\
  (exists drawn,
     hand' = hand ++ drawn /\
     cards (Session.deck self) = drawn ++ cards (Session.deck self') /\
     running_count (Session.deck self')
       = running_count (Session.deck self) + count_total drawn) /\
  Session.bankroll self' = Session.bankroll self /\
  Session.session_stats self'
    = (if 21 <? total
       then Session.dealer_busted (Session.session_stats self)
       else Session.session_stats self) /\
  (Session.hand_value hand <= 21 -> total <= 26).
Proof.
  unfold Session.dealer_turn.
  destruct (length hand =? 0)%nat; [discriminate|].
  intros H. apply bind_Ok in H as ([hand1 self1] & Hloop & H).
  injection H as <- <- <-.
  apply dealer_turn_loop_spec in Hloop; [|reflexivity].
  destruct Hloop
    as (Hstand & (drawn & -> & Hcards & Hcount & Hlast) & Hb & Hs).
  split; [reflexivity|].
  assert (17 <= Session.hand_value (hand ++ drawn)) as H17.
  { unfold Session.dealer_draws in Hstand.
    apply orb_false_elim in Hstand as [Hlt _].
    now apply Z.ltb_ge in Hlt. }
  split; [exact H17|]. split; [exact Hstand|].
  split.
  { exists drawn. repeat split.
    - destruct (Session.hand_value (hand ++ drawn) <=? 21); exact Hcards.
    - destruct (Session.hand_value (hand ++ drawn) <=? 21); exact Hcount. }
  split.
  { destruct (Session.hand_value (hand ++ drawn) <=? 21); exact Hb. }
  split.
  { destruct (Z.leb_spec (Session.hand_value (hand ++ drawn)) 21);
      destruct (Z.ltb_spec 21 (Session.hand_value (hand ++ drawn)));
      try lia; cbn [Session.session_stats Session.with_stats];
      now rewrite ?Hs. }
  intros Hv. destruct Hlast as [->|(before & last & -> & Hbefore)].
  - rewrite app_nil_r. lia.
  - now apply (dealer_draws_next self).
Qed.

Lemma dealer_turn_stands_witness :
  exists total hand' self',
    Session.dealer_turn (session_holding 100)
      [mkCard Spades RK; mkCard Spades R6] = Ok (total, hand', self') /\
    17 <= total <= 26.
Proof.
  eexists _, _, _. split; [vm_compute; reflexivity|].
  pose proof (dealer_turn_stands (session_holding 100) _
                [mkCard Spades RK; mkCard Spades R6] _ _ eq_refl)
    as (_ & H17 & _ & _ & _ & _ & H26).
  split; [exact H17 | apply H26; vm_compute; discriminate].
Defined.

Lemma dealer_turn_loop_completes (shoe : list Card) :
  forall (self : Session.GameSession) (hand : list Card),
  shoe = cards (Session.deck self) ->
  17 <= all_aces_low_total hand + Z.of_nat (length shoe) ->
  exists r, Session.dealer_turn_loop shoe self hand = Ok r.
Proof.
  induction shoe as [|c shoe IH]; intros self hand Hshoe Hlen;
    cbn [Session.dealer_turn_loop];
    destruct (Session.dealer_draws self hand) eqn:Hdraw; eauto.
  - apply dealer_draws_low in Hdraw. cbn [length] in Hlen. lia.
  - unfold deal_card. rewrite <- Hshoe. apply IH; [reflexivity|].
    rewrite all_aces_low_total_app. pose proof (low_value_bounds c).
    cbn [length] in Hlen. lia.
Qed.

(** X15: the dealer's turn cannot run the shoe out when the shoe holds
    as many cards as the hand, every ace counted 1, is short of 17 (17
    cards are always enough): [dealer_turn] then returns. *)
Theorem dealer_turn_completes (self : Session.GameSession)
    (hand : list Card) :
  hand <> [] ->
  17 <= all_aces_low_total hand
        + Z.of_nat (length (cards (Session.deck self))) ->
  exists total hand' self',
    Session.dealer_turn self hand = Ok (total, hand', self').
Proof.
  intros Hne Hlen. unfold Session.dealer_turn.
  destruct hand as [|c hand]; [contradiction|]. cbn [length Nat.eqb].
  destruct (dealer_turn_loop_completes _ self (c :: hand) eq_refl Hlen)
    as ([hand' self'] & ->).
  cbn [mbind result_bind Py.bind]. eauto.
Qed.

Lemma dealer_turn_completes_witness :
  exists total hand' self',
    Session.dealer_turn (session_holding 100)
      [mkCard Spades R2; mkCard Spades R3] = Ok (total, hand', self').
Proof.
  apply dealer_turn_completes; [discriminate | vm_compute; discriminate].
Defined.

Lemma play_loop_is_dealer_turn_loop (shoe : list Card) :
  forall (self : Session.GameSession) (dealer : Players.Dealer),
  Players.hit_on_soft_17 dealer = Session.dealer_hits_soft_17 self ->
  match Players.play_loop shoe dealer (Session.deck self),
        Session.dealer_turn_loop shoe self (Players.hand dealer) with
  | Ok (dealer', deck'), Ok (hand', self') =>
      Players.hand dealer' = hand' /\ deck' = Session.deck self'
  | Raise e, Raise e' => e = e'
  | _, _ => False
  end.
Proof.
  induction shoe as [|c shoe IH]; intros self dealer Hflag;
    cbn [Players.play_loop Session.dealer_turn_loop];
    rewrite Hflag, should_hit_eq;
    destruct (Session.dealer_draws self (Players.hand dealer)); auto.
  destruct (deal_card (Session.deck self) true) as [[card|] deck'] eqn:Hd;
    [|reflexivity].
  apply (IH (Session.with_deck self deck')
            (Players.receive_card dealer card) Hflag).
Qed.

(** X16: [Dealer.play] and [GameSession.dealer_turn] are the same
    policy: from the same non-empty hand, the same shoe and the same
    soft-17 flag they draw the same cards and return the same total, or
    raise the same error. *)
Theorem Dealer_play_is_dealer_turn (self : Session.GameSession)
    (hand : list Card) :
  hand <> [] ->
  match Players.play (dealer_of self hand) (Session.deck self),
        Session.dealer_turn self hand with
  | Ok (total, dealer', deck'), Ok (total', hand', self') =>
      total = total' /\ Players.hand dealer' = hand' /\
      deck' = Session.deck self'
  | Raise e, Raise e' => e = e'
  | _, _ => False
  end.
Proof.
  intros Hne. unfold Players.play, Session.dealer_turn.
  destruct hand as [|c hand]; [contradiction|]. cbn [length Nat.eqb].
  pose proof (play_loop_is_dealer_turn_loop
                (cards (Session.deck self)) self
                (Players.reveal_hand (dealer_of self (c :: hand))) eq_refl)
    as H.
  cbn [Players.hand Players.reveal_hand dealer_of] in H.
  destruct (Players.play_loop _ _ _) as [[dealer' deck']|e];
    destruct (Session.dealer_turn_loop _ _ _) as [[hand' self']|e'];
    cbn [mbind result_bind Py.bind fst snd]; try contradiction; [|exact H].
  destruct H as [<- ->]. rewrite Dealer_get_hand_value_eq.
  destruct (Session.hand_value (Players.hand dealer') <=? 21); auto.
Qed.

Lemma Dealer_play_is_dealer_turn_witness :
  match Players.play
          (dealer_of (session_holding 100) [mkCard Spades RK; mkCard Spades R6])
          (Session.deck (session_holding 100)),
        Session.dealer_turn (session_holding 100)
          [mkCard Spades RK; mkCard Spades R6] with
  | Ok (total, dealer', deck'), Ok (total', hand', self') =>
      total = total' /\ Players.hand dealer' = hand' /\
      deck' = Session.deck self'
  | Raise e, Raise e' => e = e'
  | _, _ => False
  end.
Proof.
  apply Dealer_play_is_dealer_turn. discriminate.
Defined.

(** X6: [Dealer.should_hit] is the loop condition of
    [GameSession.dealer_turn] for the same soft-17 flag: below 17, or on
    a soft 17 when the flag is set, and never on 18 or more. *)
Theorem should_hit_is_dealer_draws (self : Session.GameSession)
    (hand : list Card) :
  Players.should_hit (Session.dealer_hits_soft_17 self) hand
    = Session.dealer_draws self hand /\
  (Session.hand_value hand < 17 ->
   Players.should_hit (Session.dealer_hits_soft_17 self) hand = true) /\
  (17 < Session.hand_value hand ->
   Players.should_hit (Session.dealer_hits_soft_17 self) hand = false).
Proof.
  rewrite should_hit_eq. unfold Session.dealer_draws.
  split; [reflexivity|].
  split; intros Hv.
  - destruct (Z.ltb_spec (Session.hand_value hand) 17); [reflexivity | lia].
  - destruct (Z.ltb_spec (Session.hand_value hand) 17); [lia|].
    destruct (Z.eqb_spec (Session.hand_value hand) 17); [lia|].
    cbn [orb andb]. apply andb_false_r.
Qed.

Lemma should_hit_is_dealer_draws_witness :
  17 < Session.hand_value nineteen /\
  Players.should_hit (Session.dealer_hits_soft_17 (session_holding 100))
    nineteen = false.
Proof.
  assert (H : 17 < Session.hand_value nineteen) by (vm_compute; reflexivity).
  refine (conj H _).
  exact (proj2 (proj2 (should_hit_is_dealer_draws (session_holding 100)
                         nineteen)) H).
Defined.

(** ** The breakdown of the house edge *)

Lemma edge_of_snoc (fs : list Session.Factor) (f : Session.Factor) :
  edge_of (fs ++ [f]) = (edge_of fs + Session.impact f)%float.
Proof. unfold edge_of. now rewrite fold_left_app. Qed.

Lemma same_edge_bind (A1 : result (list Session.Factor)) (A2 : result float)
    (K1 : list Session.Factor -> result Session.Breakdown)
    (K2 : float -> result float) :
  same_so_far A1 A2 ->
  (forall fs h, edge_of fs = h -> same_edge (K1 fs) (K2 h)) ->
  same_edge (A1 ≫= K1) (A2 ≫= K2).
Proof.
  intros HA HK. destruct A1 as [fs|e], A2 as [h|e']; cbn in *;
    try contradiction; auto.
Qed.

Lemma same_edge_let (E1 : list Session.Factor) (E2 : float)
    (K1 : list Session.Factor -> result Session.Breakdown)
    (K2 : float -> result float) :
  edge_of E1 = E2 ->
  (forall fs h, edge_of fs = h -> same_edge (K1 fs) (K2 h)) ->
  same_edge (let fs := E1 in K1 fs) (let h := E2 in K2 h).
Proof. intros HE HK. cbv zeta. auto. Qed.

(** One conditional adjustment, on both sides. *)
Ltac edge_step :=
  intros; subst; unfold Session.append_if;
  repeat first
    [ match goal with
      | |- context [if ?c then _ else _] => destruct c
      end
    | match goal with
      | |- context [mbind _ ?A] =>
          lazymatch A with
          | Ok _ => fail
          | Raise _ => fail
          | _ => destruct A
          end
      end
    | progress cbn [mbind result_bind Py.bind] ];
  try unfold same_so_far;
  rewrite ?edge_of_snoc, ?sub_add_opp; reflexivity.

Ltac zeta_left :=
  lazymatch goal with
  | |- same_edge (let x := ?E in @?K x) ?R =>
      change (same_edge (K E) R); cbv beta
  end.

Ltac zeta_right :=
  lazymatch goal with
  | |- same_edge ?L (let x := ?E in @?K x) =>
      change (same_edge L (K E)); cbv beta
  end.

Ltac edge_let :=
  lazymatch goal with
  | |- same_edge (let x := ?E1 in @?K1 x) (let y := ?E2 in @?K2 y) =>
      refine (same_edge_let E1 E2 K1 K2 _ _);
      [edge_step | clear; intros fs h Hfs; cbv beta]
  end.

Ltac edge_bind :=
  refine (same_edge_bind _ _ _ _ _ _);
  [edge_step | clear; intros fs h Hfs; cbv beta].

(** X17: for every rules mapping [get_house_edge_breakdown] and
    [calculate_house_edge] either raise the same error or return the
    same edge, bit for bit: the breakdown's [total_edge] is the edge the
    table displays, and its [base_edge] is 0.5. *)
Theorem breakdown_total_is_house_edge (rules : gmap string pyval) :
  match Session.get_house_edge_breakdown rules,
        Session.calculate_house_edge rules with
  | Ok b, Ok edge =>
      Session.total_edge b = edge /\ Session.base_edge b = 0.5%float
  | Raise e, Raise e' => e = e'
  | _, _ => False
  end.
Proof.
  change (same_edge (Session.get_house_edge_breakdown rules)
            (Session.calculate_house_edge rules)).
  cbv beta delta [Session.get_house_edge_breakdown
    Session.calculate_house_edge Session.house_edge_number_of_decks].
  do 3 zeta_left. do 2 zeta_right.
  edge_bind.
  zeta_left. zeta_right. edge_let.
  do 6 edge_let.
  zeta_left. zeta_right. edge_bind.
  do 2 edge_let.
  cbn. split; [|reflexivity]. now subst h.
Qed.

(** ** The limits of the house edge *)

Lemma SFcompare_swap (x y : spec_float) :
  SFcompare y x = option_map CompOpp (SFcompare x y).
Proof.
  destruct x as [sx|sx| |sx mx ex], y as [sy|sy| |sy my ey];
    try destruct sx; try destruct sy; cbn; try reflexivity;
    rewrite (Z.compare_antisym ey ex); destruct (ey ?= ex); cbn;
    try reflexivity;
    change (PosDef.Pos.compare_cont Eq my mx) with (Pos.compare my mx);
    change (PosDef.Pos.compare_cont Eq mx my) with (Pos.compare mx my);
    rewrite (Pos.compare_antisym mx my);
    destruct (Pos.compare mx my); reflexivity.
Qed.

Lemma ltb_leb (x y : float) :
  PrimFloat.ltb x y = true -> PrimFloat.leb x y = true.
Proof.
  rewrite ltb_spec, leb_spec. unfold SFltb, SFleb.
  destruct (SFcompare (Prim2SF x) (Prim2SF y)) as [[| |]|]; congruence.
Qed.

Lemma not_ltb_leb (x y z : float) :
  PrimFloat.leb x x = true ->
  PrimFloat.ltb x y = false -> PrimFloat.ltb z y = true ->
  PrimFloat.leb y x = true.
Proof.
  rewrite !ltb_spec, !leb_spec. unfold SFltb, SFleb.
  rewrite (SFcompare_swap (Prim2SF x) (Prim2SF y)).
  destruct (SFcompare (Prim2SF x) (Prim2SF y)) as [[| |]|] eqn:Hxy; cbn;
    try congruence.
  destruct (Prim2SF y) as [sy|sy| |sy my ey];
    destruct (Prim2SF x) as [sx|sx| |sx mx ex];
    destruct (Prim2SF z) as [sz|sz| |sz mz ez]; cbn in *; congruence.
Qed.

(** The last line of [calculate_house_edge]:
    [max(0.1, min(house_edge, 5.0))] is within the two limits, whatever
    the sum (a NaN included). *)
Lemma clamp_within_limits (h : float) :
  PrimFloat.leb 0.1 (fmax 0.1 (fmin h 5.0)) = true /\
  PrimFloat.leb (fmax 0.1 (fmin h 5.0)) 5.0 = true.
Proof.
  unfold fmin. destruct (PrimFloat.ltb 5.0 h) eqn:H5.
  - vm_compute. split; reflexivity.
  - unfold fmax. destruct (PrimFloat.ltb 0.1 h) eqn:H1.
    + split; [now apply ltb_leb|].
      now apply (not_ltb_leb 5.0 h 0.1); [vm_compute| |].
    + vm_compute. split; reflexivity.
Qed.

(** X18: whatever the rules, an edge that [calculate_house_edge] returns
    lies between 0.1 and 5.0 (and is a number). *)
Theorem house_edge_within_limits (rules : gmap string pyval) (edge : float) :
  Session.calculate_house_edge rules = Ok edge ->
  PrimFloat.leb 0.1 edge = true /\ PrimFloat.leb edge 5.0 = true.
Proof.
  unfold Session.calculate_house_edge. intros H.
  apply bind_Ok in H as (h1 & _ & H).
  apply bind_Ok in H as (h2 & _ & H).
  injection H as <-. apply clamp_within_limits.
Qed.

Lemma house_edge_within_limits_witness :
  PrimFloat.leb 0.1 0.58 = true /\ PrimFloat.leb 0.58 5.0 = true.
Proof.
  apply (house_edge_within_limits ∅). vm_compute. reflexivity.
Defined.

(** ** The errors of comparisons and of arithmetic *)

Lemma py_le_errors (a b : pyval) (e : exn) :
  py_le a b = Raise e -> e = TypeError.
Proof.
  unfold py_le.
  destruct a, b; cbn; try congruence.
Qed.

Lemma num_sub_errors (a b : pynum) (e : exn) :
  num_sub a b = Raise e -> e = OverflowError.
Proof.
  unfold num_sub, num_arith, to_float.
  destruct a as [x|x], b as [y|y]; try discriminate;
    destruct (is_infinity _); cbn; congruence.
Qed.

(** ** The player's turn *)

(** Induction over the passes of the loop of [player_turn] and the turns
    [handle_split] starts: a relation between the state, hand, bet and
    flags at the start and the result holds of every completed turn
    when it is closed under each move. *)
Section Turn.
Variable chance : nat -> float.
Variable Q :
  Session.Round -> list Card -> Z -> bool -> bool ->
  Session.outcome -> Session.Round -> Prop.

Hypothesis Q_stop : forall st hand bet can_double splittable,
  Q st hand bet can_double splittable (Some (hand, bet)) st.

Hypothesis Q_read : forall st dealer_upcard w0 move w hand bet
    can_double splittable r st',
  Session.display_hint chance (Session.session st) hand dealer_upcard
    (Session.world st) = Ok w0 ->
  Session.input w0 = Ok (move, w) ->
  Q (Session.with_world st w) hand bet can_double splittable r st' ->
  Q st hand bet can_double splittable r st'.

Hypothesis Q_hit : forall st card st1 hand bet can_double splittable r st',
  Session.hand_value hand < 21 ->
  Session.hit_card st = Ok (card, st1) ->
  Q st1 (hand ++ [card]) bet false false r st' ->
  Q st hand bet can_double splittable r st'.

Hypothesis Q_double : forall st hand bet splittable b card st1,
  Session.hand_value hand < 21 ->
  num_le (NInt bet) (Session.bankroll (Session.session st)) = true ->
  num_sub (Session.bankroll (Session.session st)) (NInt bet) = Ok b ->
  Session.hit_card
    (Session.with_session st (Session.with_bankroll (Session.session st) b))
    = Ok (card, st1) ->
  Q st hand bet true splittable (Some (hand ++ [card], bet * 2)) st1.

Hypothesis Q_split : forall st c0 c1 rest bet can_double n1 d1 n2 d2 b
    r1 st1 r2 st2,
  Session.hand_value (c0 :: c1 :: rest) < 21 ->
  num_lt (Session.bankroll (Session.session st)) (NInt bet) = false ->
  deal_card (Session.deck (Session.session st)) true = (Some n1, d1) ->
  deal_card d1 true = (Some n2, d2) ->
  num_sub (Session.bankroll (Session.session st)) (NInt bet) = Ok b ->
  Q (Session.with_session st
       (Session.with_bankroll (Session.with_deck (Session.session st) d2) b))
    [c0; n1] bet true (Session.can_split [c0; n1]) r1 st1 ->
  Q (Session.compare_later st1 r1) [c1; n2] bet true
    (Session.can_split [c1; n2]) r2 st2 ->
  Q st (c0 :: c1 :: rest) bet can_double true None
    (Session.compare_later st2 r2).

Lemma player_turn_loop_ind (fuel : nat) :
  forall st hand bet dealer_upcard can_double splittable r st',
  Session.player_turn_loop chance fuel st hand bet dealer_upcard
    can_double splittable = Ok (r, st') ->
  Q st hand bet can_double splittable r st'.
Proof.
  induction fuel as [|fuel IH];
    intros st hand bet up can_double splittable r st';
    cbn [Session.player_turn_loop];
    destruct (Z.ltb_spec (Session.hand_value hand) 21) as [Hlow|Hhigh];
    cbn [negb]; intros H; try discriminate H;
    try (injection H as <- <-; apply Q_stop).
  apply bind_Ok in H as (w & Hhint & H).
  apply bind_Ok in H as ([move w'] & Hinput & H). cbn [fst snd] in H.
  apply (Q_read _ _ _ _ _ _ _ _ _ _ _ Hhint Hinput).
  assert (Hagain :
    Session.player_turn_loop chance fuel (Session.with_world st w') hand bet
      up can_double splittable = Ok (r, st') ->
    Q (Session.with_world st w') hand bet can_double splittable r st')
    by apply IH.
  revert H. destruct move; auto.
  - (* hit *)
    intros H. apply bind_Ok in H as ([card st1] & Hhit & H).
    cbn [fst snd] in H. eapply Q_hit; eauto.
  - (* stand *)
    intros H. injection H as <- <-. apply Q_stop.
  - (* double *)
    destruct can_double; auto.
    destruct (num_le _ _) eqn:Hle; auto.
    intros H. apply bind_Ok in H as (b & Hb & H).
    apply bind_Ok in H as ([card st1] & Hhit & H). cbn [fst snd] in H.
    injection H as <- <-. eapply Q_double; eauto.
  - (* split *)
    destruct splittable; auto.
    unfold Session.handle_split.
    destruct (num_lt _ _) eqn:Hlt.
    { intros H. injection H as <- <-. apply Q_stop. }
    destruct hand as [|c0 [|c1 rest]]; try discriminate.
    destruct (deal_card _ true) as [n1 d1] eqn:Hd1.
    destruct (deal_card d1 true) as [n2 d2] eqn:Hd2.
    intros H. apply bind_Ok in H as (b & Hb & H).
    destruct n1 as [n1|]; [|discriminate H].
    apply bind_Ok in H as ([r1 st1] & H1 & H). cbn [fst snd] in H.
    destruct n2 as [n2|]; [|discriminate H].
    apply bind_Ok in H as ([r2 st2] & H2 & H). cbn [fst snd] in H.
    injection H as <- <-.
    eapply Q_split;
      [exact Hlow | exact Hlt | exact Hd1 | exact Hd2 | exact Hb
      | apply (IH _ _ _ _ _ _ _ _ H1) | apply (IH _ _ _ _ _ _ _ _ H2)].
Qed.

End Turn.

Lemma hit_card_Some (st st1 : Session.Round) (card : Card) :
  Session.hit_card st = Ok (card, st1) ->
  cards (Session.deck (Session.session st))
    = card :: cards (Session.deck (Session.session st1)) /\
  running_count (Session.deck (Session.session st1))
    = running_count (Session.deck (Session.session st))
      + get_count_value card /\
  Session.bankroll (Session.session st1)
    = Session.bankroll (Session.session st) /\
  Session.session_stats (Session.session st1)
    = Session.session_stats (Session.session st) /\
  Session.hands_to_compare st1 = Session.hands_to_compare st /\
  Session.world st1 = Session.world st.
Proof.
  unfold Session.hit_card, deal_card.
  destruct (cards (Session.deck (Session.session st))) as [|c cs];
    [discriminate|].
  intros [= <- <-]. cbn. repeat split.
Qed.

Lemma player_turn_loop_draws (chance : nat -> float) (fuel : nat)
    (st st' : Session.Round) (hand hand' : list Card) (bet bet' : Z)
    (dealer_upcard : Card) (can_double splittable : bool) :
  Session.player_turn_loop chance fuel st hand bet dealer_upcard
    can_double splittable = Ok (Some (hand', bet'), st') ->
  exists drawn,
    hand' = hand ++ drawn /\
    cards (Session.deck (Session.session st))
      = drawn ++ cards (Session.deck (Session.session st')) /\
    running_count (Session.deck (Session.session st'))
      = running_count (Session.deck (Session.session st))
        + count_total drawn /\
    (forall k, (k < length drawn)%nat ->
       Session.hand_value (hand ++ take k drawn) < 21) /\
    ((bet' = bet /\
      Session.bankroll (Session.session st')
        = Session.bankroll (Session.session st)) \/
     (can_double = true /\ bet' = bet * 2 /\ length drawn = 1%nat /\
      num_le (NInt bet) (Session.bankroll (Session.session st)) = true /\
      num_sub (Session.bankroll (Session.session st)) (NInt bet)
        = Ok (Session.bankroll (Session.session st')))) /\
    Session.hands_to_compare st' = Session.hands_to_compare st /\
    Session.session_stats (Session.session st')
      = Session.session_stats (Session.session st).
Proof.
  intros H.
  apply (player_turn_loop_ind chance
    (fun st hand bet can_double splittable r st' =>
       match r with
       | None => True
       | Some (hand', bet') =>
           exists drawn,
             hand' = hand ++ drawn /\
             cards (Session.deck (Session.session st))
               = drawn ++ cards (Session.deck (Session.session st')) /\
             running_count (Session.deck (Session.session st'))
               = running_count (Session.deck (Session.session st))
                 + count_total drawn /\
             (forall k, (k < length drawn)%nat ->
                Session.hand_value (hand ++ take k drawn) < 21) /\
             ((bet' = bet /\
               Session.bankroll (Session.session st')
                 = Session.bankroll (Session.session st)) \/
              (can_double = true /\ bet' = bet * 2 /\
               length drawn = 1%nat /\
               num_le (NInt bet) (Session.bankroll (Session.session st))
                 = true /\
               num_sub (Session.bankroll (Session.session st)) (NInt bet)
                 = Ok (Session.bankroll (Session.session st')))) /\
             Session.hands_to_compare st' = Session.hands_to_compare st /\
             Session.session_stats (Session.session st')
               = Session.session_stats (Session.session st)
       end)) in H; [exact H|..]; clear.
  - (* the turn ends *)
    intros st hand bet can_double splittable. exists []. rewrite app_nil_r.
    change (count_total []) with 0. rewrite Z.add_0_r.
    repeat split; auto. intros k Hk. cbn in Hk. lia.
  - (* a line is read *)
    intros st up w0 move w hand bet can_double splittable [[hand' bet']|] st'
      _ _; auto.
  - (* hit *)
    intros st card st1 hand bet can_double splittable [[hand' bet']|] st'
      Hlow Hhit; [|auto].
    apply hit_card_Some in Hhit as (Hc & Hrc & Hb & Hs & Hh & _).
    intros (drawn & -> & Hcards & Hcount & Hpre & Hbet & Hhands & Hstats).
    exists (card :: drawn). rewrite <- app_assoc.
    split; [reflexivity|]. split; [rewrite Hc, Hcards; reflexivity|].
    split; [rewrite Hcount, Hrc, count_total_cons; lia|].
    split.
    { intros [|k] Hk; cbn [take].
      - now rewrite app_nil_r.
      - specialize (Hpre k). rewrite <- app_assoc in Hpre.
        apply Hpre. cbn in Hk. lia. }
    split; [|split; congruence].
    destruct Hbet as [[-> Hbank]|(Hno & _)]; [|discriminate Hno].
    left. split; congruence.
  - (* double *)
    intros st hand bet splittable b card st1 Hlow Hle Hsub Hhit.
    apply hit_card_Some in Hhit as (Hc & Hrc & Hb & Hs & Hh & _).
    exists [card]. cbn in Hc, Hrc, Hb, Hs, Hh.
    split; [reflexivity|]. split; [exact Hc|].
    split; [rewrite Hrc, count_total_cons; change (count_total []) with 0; lia|].
    split.
    { intros [|k] Hk; [now rewrite app_nil_r | cbn in Hk; lia]. }
    split; [|split; assumption].
    right. rewrite Hb. auto.
  - (* split *)
    auto.
Qed.

(** X19: when [player_turn] returns a hand (no split), the hand is the
    one it was given followed by cards taken from the front of the shoe,
    each counted in the running count; a card was only drawn while the
    total was below 21; and either the bet and the bankroll are
    unchanged, or the bet was doubled, which costs the bet once more,
    needs a bankroll that covers it and brings exactly one card.  The
    session counters and the hands awaiting settlement are untouched. *)
Theorem player_turn_draws_from_the_shoe (chance : nat -> float)
    (st st' : Session.Round) (hand hand' : list Card) (bet bet' : Z)
    (dealer_upcard : Card) :
  Session.player_turn chance st hand bet dealer_upcard
    = Ok (Some (hand', bet'), st') ->
  exists drawn,
    hand' = hand ++ drawn /\
    cards (Session.deck (Session.session st))
      = drawn ++ cards (Session.deck (Session.session st')) /\
    running_count (Session.deck (Session.session st'))
      = running_count (Session.deck (Session.session st))
        + count_total drawn /\
    (forall k, (k < length drawn)%nat ->
       Session.hand_value (hand ++ take k drawn) < 21) /\
    ((bet' = bet /\
      Session.bankroll (Session.session st')
        = Session.bankroll (Session.session st)) \/
     (bet' = bet * 2 /\ length drawn = 1%nat /\
      num_le (NInt bet) (Session.bankroll (Session.session st)) = true /\
      num_sub (Session.bankroll (Session.session st)) (NInt bet)
        = Ok (Session.bankroll (Session.session st')))) /\
    Session.hands_to_compare st' = Session.hands_to_compare st /\
    Session.session_stats (Session.session st')
      = Session.session_stats (Session.session st).
Proof.
  intros H. apply player_turn_loop_draws in H
    as (drawn & Hh & Hc & Hrc & Hpre & Hbet & Hhands & Hstats).
  exists drawn. repeat (split; [assumption|]).
  split; [|auto]. destruct Hbet as [Hbet|(_ & Hbet)]; auto.
Qed.

Lemma player_turn_draws_from_the_shoe_witness :
  exists hand' drawn, hand' = five_six ++ drawn /\ length drawn = 1%nat.
Proof.
  destruct (player_turn_draws_from_the_shoe incurious
              (seated 100 [Session.LDouble]) _ five_six _ 10 _ nine
              ltac:(vm_compute; reflexivity))
    as (drawn & Hhand & _ & _ & _ & [[Hbet _]|(_ & Hlen & _)] & _).
  - discriminate Hbet.
  - exact (ex_intro _ _ (ex_intro _ drawn (conj Hhand Hlen))).
Defined.

(** ** The chips in play *)

Lemma stake_app (entries : list Session.outcome) (r : Session.outcome) :
  stake (entries ++ [r]) = stake entries + pending r.
Proof.
  unfold stake. rewrite map_app, sum_app. cbn [map].
  rewrite sum_cons. change (Py.sum []) with 0. lia.
Qed.

Lemma player_turn_loop_chips (chance : nat -> float) (fuel : nat)
    (st st' : Session.Round) (hand : list Card) (bet : Z)
    (dealer_upcard : Card) (can_double splittable : bool)
    (r : Session.outcome) (b : Z) :
  Session.player_turn_loop chance fuel st hand bet dealer_upcard
    can_double splittable = Ok (r, st') ->
  Session.bankroll (Session.session st) = NInt b ->
  exists b',
    Session.bankroll (Session.session st') = NInt b' /\
    b' + pending r + stake (Session.hands_to_compare st')
      = b + bet + stake (Session.hands_to_compare st) /\
    (0 <= b -> 0 <= b').
Proof.
  intros H. revert b.
  refine (player_turn_loop_ind chance
    (fun st hand bet can_double splittable r st' =>
       forall b,
         Session.bankroll (Session.session st) = NInt b ->
         exists b',
           Session.bankroll (Session.session st') = NInt b' /\
           b' + pending r + stake (Session.hands_to_compare st')
             = b + bet + stake (Session.hands_to_compare st) /\
           (0 <= b -> 0 <= b'))
    _ _ _ _ _ fuel _ _ _ _ _ _ _ _ H); clear.
  - intros st hand bet _ _ b Hb. exists b. cbn [pending]. auto.
  - intros st up w0 move w hand bet can_double splittable r st' _ _ IH b Hb.
    apply (IH b Hb).
  - intros st card st1 hand bet can_double splittable r st' _ Hhit IH b Hb.
    apply hit_card_Some in Hhit as (_ & _ & Hbank & _ & Hhands & _).
    rewrite <- Hhands. apply IH. congruence.
  - intros st hand bet splittable nb card st1 _ Hle Hsub Hhit b Hb.
    apply hit_card_Some in Hhit as (_ & _ & Hbank & _ & Hhands & _).
    cbn in Hbank, Hhands. rewrite Hb in Hle, Hsub.
    cbn in Hle, Hsub. injection Hsub as <-.
    exists (b - bet). rewrite Hbank, Hhands. cbn [pending].
    split; [reflexivity|]. split; lia.
  - intros st c0 c1 rest bet can_double n1 d1 n2 d2 nb r1 st1 r2 st2
      _ Hlt _ _ Hsub IH1 IH2 b Hb.
    rewrite Hb in Hlt, Hsub. cbn in Hlt, Hsub. injection Hsub as <-.
    destruct (IH1 (b - bet) eq_refl) as (b1 & Hb1 & Hsum1 & Hpos1).
    destruct (IH2 b1 Hb1) as (b2 & Hb2 & Hsum2 & Hpos2).
    cbn [Session.compare_later Session.hands_to_compare Session.session
         Session.with_session] in *.
    exists b2. rewrite !stake_app in *. cbn [pending].
    split; [exact Hb2|]. split; lia.
Qed.

(** X20: chips are neither made nor lost in the player's turn.  With an
    integer bankroll, the bankroll plus the bets riding on the hands
    (the one returned and those awaiting settlement) is the same after
    [player_turn] as before, however often the player doubled or split;
    and a bankroll that was not negative is not negative afterwards. *)
Theorem player_turn_conserves_chips (chance : nat -> float)
    (st st' : Session.Round) (hand : list Card) (bet : Z)
    (dealer_upcard : Card) (r : Session.outcome) (b : Z) :
  Session.player_turn chance st hand bet dealer_upcard = Ok (r, st') ->
  Session.bankroll (Session.session st) = NInt b ->
  exists b',
    Session.bankroll (Session.session st') = NInt b' /\
    b' + pending r + stake (Session.hands_to_compare st')
      = b + bet + stake (Session.hands_to_compare st) /\
    (0 <= b -> 0 <= b').
Proof. apply player_turn_loop_chips. Qed.

Lemma player_turn_conserves_chips_witness :
  exists r st' b',
    Session.bankroll (Session.session st') = NInt b' /\
    b' + pending r + stake (Session.hands_to_compare st') = 100 + 10 + stake [].
Proof.
  eassert (H : Session.player_turn incurious
                 (seated 100 [Session.LSplit; Session.LStand; Session.LStand])
                 eights 10 nine = Ok (_, _)) by (vm_compute; reflexivity).
  destruct (player_turn_conserves_chips _ _ _ _ _ _ _ 100 H eq_refl)
    as (b' & Hb & Hsum & _).
  exact (ex_intro _ _ (ex_intro _ _ (ex_intro _ b' (conj Hb Hsum)))).
Defined.

(** ** Settlement *)

Lemma compare_hands_Ok (self self' : Session.GameSession)
    (player_hand dealer_hand : list Card) (bet : Z) :
  Session.compare_hands self player_hand dealer_hand bet = Ok self' ->
  Session.deck self' = Session.deck self /\
  (forall b, Session.bankroll self = NInt b ->
     exists pay,
       Session.bankroll self' = NInt (b + pay) /\
       (pay = 0 \/ pay = bet \/ pay = bet * 2)) /\
  (consistent (Session.session_stats self) ->
   consistent (Session.session_stats self')).
Proof.
  unfold Session.compare_hands.
  destruct (_ || _); [discriminate|].
  repeat match goal with
         | |- context [if ?c then _ else _] => destruct c
         end;
    intros H;
    try (apply bind_Ok in H as (nb & Hadd & H));
    injection H as <-;
    (split; [reflexivity|]);
    (split;
     [intros b Hb;
      cbn [Session.bankroll Session.with_stats Session.with_bankroll] in *;
      first
        [ rewrite Hb in Hadd; cbn in Hadd; injection Hadd as <-;
          eexists; split; [reflexivity | auto]
        | exists 0; rewrite Z.add_0_r; auto ]
     | unfold consistent; cbn; lia]).
Qed.

Lemma compare_all_Ok (entries : list Session.outcome) :
  forall (self self' : Session.GameSession) (dealer_hand : list Card),
  Session.compare_all self dealer_hand entries = Ok self' ->
  ~ In None entries /\
  (consistent (Session.session_stats self) ->
   consistent (Session.session_stats self')).
Proof.
  induction entries as [|entry entries IH]; intros self self' dealer_hand;
    cbn [Session.compare_all].
  - intros [= <-]. split; [intros [] | auto].
  - intros H. apply bind_Ok in H as (self1 & H1 & H).
    apply IH in H as (Hno & Hstats).
    destruct entry as [[hand hand_bet]|]; [|discriminate H1].
    apply compare_hands_Ok in H1 as (_ & _ & Hstats1).
    split; [intros [Heq|Hin]; [discriminate Heq | auto] | auto].
Qed.

Lemma reveal_Ok (self self' : Session.GameSession) (hole_card : option Card)
    (hole : Card) :
  Session.reveal self hole_card = Ok (hole, self') ->
  hole_card = Some hole /\
  Session.bankroll self' = Session.bankroll self /\
  Session.session_stats self' = Session.session_stats self /\
  cards (Session.deck self') = cards (Session.deck self).
Proof.
  destruct hole_card as [c|]; [|discriminate].
  intros [= <- <-]. repeat split.
Qed.

Lemma dealer_turn_Ok (self self' : Session.GameSession)
    (hand hand' : list Card) (total : Z) :
  Session.dealer_turn self hand = Ok (total, hand', self') ->
  hand' <> [] /\
  Session.bankroll self' = Session.bankroll self /\
  (consistent (Session.session_stats self) ->
   consistent (Session.session_stats self')).
Proof.
  unfold Session.dealer_turn.
  destruct hand as [|c hand]; [discriminate|]. cbn [length Nat.eqb].
  intros H. apply bind_Ok in H as ([hand1 self1] & Hloop & H).
  apply dealer_turn_loop_spec in Hloop
    as (_ & (drawn & -> & _) & Hbank & Hstats); [|reflexivity].
  injection H as _ <- <-. split; [discriminate|].
  destruct (_ <=? 21); cbn [Session.bankroll Session.with_stats
                            Session.session_stats];
    rewrite ?Hstats; split; auto.
Qed.

Lemma showdown_Ok (self self' : Session.GameSession) (dealer_upcard : Card)
    (hole_card : option Card) (entries : list Session.outcome) :
  Session.showdown self dealer_upcard hole_card entries = Ok self' ->
  ~ In None entries /\
  (consistent (Session.session_stats self) ->
   consistent (Session.session_stats self')).
Proof.
  unfold Session.showdown. intros H.
  apply bind_Ok in H as ([hole self1] & Hrev & H).
  apply bind_Ok in H as ([[total dealer_hand] self2] & Hdealer & H).
  cbn [fst snd] in *.
  apply reveal_Ok in Hrev as (_ & _ & Hs1 & _).
  apply dealer_turn_Ok in Hdealer as (_ & _ & Hs2).
  apply compare_all_Ok in H as (Hno & Hs3).
  split; [exact Hno|]. rewrite Hs1 in Hs2. auto.
Qed.

Lemma player_turn_loop_stats (chance : nat -> float) (fuel : nat)
    (st st' : Session.Round) (hand : list Card) (bet : Z)
    (dealer_upcard : Card) (can_double splittable : bool)
    (r : Session.outcome) :
  Session.player_turn_loop chance fuel st hand bet dealer_upcard
    can_double splittable = Ok (r, st') ->
  Session.session_stats (Session.session st')
    = Session.session_stats (Session.session st).
Proof.
  intros H.
  refine (player_turn_loop_ind chance
    (fun st hand bet can_double splittable r st' =>
       Session.session_stats (Session.session st')
         = Session.session_stats (Session.session st))
    _ _ _ _ _ fuel _ _ _ _ _ _ _ _ H); clear.
  - reflexivity.
  - auto.
  - intros st card st1 hand bet _ _ r st' _ Hhit IH.
    apply hit_card_Some in Hhit as (_ & _ & _ & Hs & _). congruence.
  - intros st hand bet _ b card st1 _ _ _ Hhit.
    apply hit_card_Some in Hhit as (_ & _ & _ & Hs & _). exact Hs.
  - intros st c0 c1 rest bet _ n1 d1 n2 d2 b r1 st1 r2 st2 _ _ _ _ _ H1 H2.
    cbn in *. congruence.
Qed.

(** X21: a hand that came from a split must not be split again.
    [handle_split] then records [(None, None)] among the hands to
    settle, and a round in which that happened never completes: [play]
    raises (a [TypeError] from [compare_hands(None, ...)] once the hands
    before it are settled, unless another error comes first).  With two
    more eights on top of the shoe, splitting eights twice and standing
    on every hand ends in that [TypeError]. *)
Theorem resplit_is_never_settled :
  (forall (chance : nat -> float) (rnd : nat -> nat) (st st' : Session.Round)
          (player_hand : list Card) (bet : Z) (dealer_upcard : Card)
          (hole_card : option Card) (w : Session.World) (r : Session.outcome),
     Session.display_hint chance (Session.session st) player_hand
       dealer_upcard (Session.world st) = Ok w ->
     Session.player_turn chance (Session.mkRound (Session.session st) [] w)
       player_hand bet dealer_upcard = Ok (r, st') ->
     In None (Session.hands_to_compare st') ->
     exists e,
       Session.play_hand chance rnd st player_hand bet dealer_upcard hole_card
       = Raise e) /\
  Session.play_hand incurious stacked (seated_at more_eights 100 split_twice)
    eights 10 nine (Some (mkCard Spades RK))
  = Raise TypeError.
Proof.
  split; [|vm_compute; reflexivity].
  intros chance rnd st st' player_hand bet up hole w r Hhint Hturn Hin.
  unfold Session.play_hand. rewrite Hhint. cbn [mbind result_bind Py.bind].
  rewrite Hturn. cbn [mbind result_bind Py.bind fst snd].
  destruct (Session.hands_to_compare st') as [|entry entries] eqn:Hentries;
    [destruct Hin|].
  destruct (Session.showdown _ _ _ _) as [self'|e] eqn:Hshow;
    [|exists e; reflexivity].
  apply showdown_Ok in Hshow as (Hno & _). contradiction.
Qed.

Lemma resplit_is_never_settled_witness :
  exists e,
    Session.play_hand incurious stacked
      (seated_at more_eights 100 split_twice) eights 10 nine None
    = Raise e.
Proof.
  eapply (proj1 resplit_is_never_settled incurious stacked
            (seated_at more_eights 100 split_twice)).
  - vm_compute. reflexivity.
  - vm_compute. reflexivity.
  - vm_compute. right. right. left. reflexivity.
Defined.

(** ** The session counters *)

Lemma consistent_blackjack (s : Session.Stats) :
  consistent s ->
  consistent (Session.blackjacked (Session.won (Session.played s))).
Proof. unfold consistent. cbn. lia. Qed.

Lemma consistent_push (s : Session.Stats) :
  consistent s -> consistent (Session.pushed (Session.played s)).
Proof. unfold consistent. cbn. lia. Qed.

Lemma consistent_loss (s : Session.Stats) :
  consistent s -> consistent (Session.lost (Session.played s)).
Proof. unfold consistent. cbn. lia. Qed.

Lemma consistent_bust (s : Session.Stats) :
  consistent s ->
  consistent (Session.busted (Session.lost (Session.played s))).
Proof. unfold consistent. cbn. lia. Qed.

Lemma pay_blackjack_Ok (self self' : Session.GameSession)
    (hole_card : option Card) (bet : Z) :
  Session.pay_blackjack self hole_card bet = Ok self' ->
  consistent (Session.session_stats self) ->
  consistent (Session.session_stats self').
Proof.
  unfold Session.pay_blackjack. destruct hole_card as [hole|]; [|discriminate].
  intros H. apply bind_Ok in H as (payout & _ & H).
  apply bind_Ok in H as (total & _ & H).
  apply bind_Ok in H as (b & _ & H).
  injection H as <-. apply consistent_blackjack.
Qed.

Lemma play_opening_Ok (self : Session.GameSession) (bet : Z)
    (o : Session.opening) :
  Session.play_opening self bet = Ok o ->
  match o with
  | Session.RoundOver self' =>
      consistent (Session.session_stats self) ->
      consistent (Session.session_stats self')
  | Session.PlayerTurn self' _ _ _ =>
      Session.session_stats self' = Session.session_stats self /\
      Session.bankroll self' = Session.bankroll self
  end.
Proof.
  unfold Session.play_opening.
  destruct (deal_card (Session.deck self) true) as [p0 d0].
  destruct (deal_card d0 true) as [p1 d1].
  destruct (deal_card d1 true) as [u d2].
  destruct (deal_card d2 false) as [hole d3].
  destruct p0 as [p0|], p1 as [p1|], u as [up|]; try discriminate.
  set (self1 := Session.with_deck self d3).
  assert (Hno :
    (if Session.check_blackjack [p0; p1]
     then self' ← Session.pay_blackjack self1 hole bet;
          Ok (Session.RoundOver self')
     else Ok (Session.PlayerTurn self1 [p0; p1] up hole)) = Ok o ->
    match o with
    | Session.RoundOver self' =>
        consistent (Session.session_stats self) ->
        consistent (Session.session_stats self')
    | Session.PlayerTurn self' _ _ _ =>
        Session.session_stats self' = Session.session_stats self /\
        Session.bankroll self' = Session.bankroll self
    end).
  { destruct (Session.check_blackjack [p0; p1]).
    - intros H. apply bind_Ok in H as (self' & Hpay & H).
      injection H as <-. intros Hc.
      exact (pay_blackjack_Ok _ _ _ _ Hpay Hc).
    - intros [= <-]. split; reflexivity. }
  cbv zeta. fold self1.
  destruct (mem (value up) [10; 11]); [|exact Hno].
  destruct hole as [hole|]; [|discriminate].
  destruct (Session.check_blackjack [up; hole]); [|exact Hno].
  destruct (Session.check_blackjack [p0; p1]).
  - intros H. apply bind_Ok in H as (b & _ & H). injection H as <-.
    apply consistent_push.
  - intros [= <-]. apply consistent_loss.
Qed.

Lemma get_bet_stats (lines : list Session.bet_line) :
  forall (self self' : Session.GameSession) (bet : option Z)
         (rest : list Session.bet_line),
  Session.get_bet self lines = Ok (bet, self', rest) ->
  Session.session_stats self' = Session.session_stats self.
Proof.
  induction lines as [|line lines IH]; intros self self' bet rest;
    cbn [Session.get_bet]; [discriminate|].
  destruct line as [| |amount]; [intros [= _ <- _]; reflexivity | apply IH |].
  intros H. apply bind_Ok in H as (above & _ & H).
  apply bind_Ok in H as (in_range & _ & H).
  destruct (in_range && _); [|exact (IH _ _ _ _ H)].
  apply bind_Ok in H as (b & Hb & H).
  injection H as _ <- _. reflexivity.
Qed.

Lemma play_hand_stats (chance : nat -> float) (rnd : nat -> nat)
    (st st' : Session.Round) (player_hand : list Card) (bet : Z)
    (dealer_upcard : Card) (hole_card : option Card) :
  Session.play_hand chance rnd st player_hand bet dealer_upcard hole_card
    = Ok st' ->
  consistent (Session.session_stats (Session.session st)) ->
  consistent (Session.session_stats (Session.session st')).
Proof.
  unfold Session.play_hand. intros H Hc.
  apply bind_Ok in H as (w & _ & H).
  apply bind_Ok in H as ([r st1] & Hturn & H). cbn [fst snd] in H.
  apply player_turn_loop_stats in Hturn. cbn [Session.session] in Hturn.
  rewrite <- Hturn in Hc.
  apply bind_Ok in H as (self & Hself & H). injection H as <-.
  cbn [Session.session].
  assert (Hself' : consistent (Session.session_stats self)).
  { destruct (Session.hands_to_compare st1) as [|entry entries].
    - destruct r as [[hand' bet']|]; [|injection Hself as <-; exact Hc].
      destruct (negb _ && negb _).
      + now apply showdown_Ok in Hself as (_ & Hs); auto.
      + destruct (negb _); [|injection Hself as <-; exact Hc].
        apply bind_Ok in Hself as ([hole self1] & Hrev & Hself).
        apply reveal_Ok in Hrev as (_ & _ & Hs & _).
        injection Hself as <-. cbn [snd Session.session_stats Session.with_stats].
        rewrite Hs. now apply consistent_bust.
    - now apply showdown_Ok in Hself as (_ & Hs); auto. }
  destruct (is_cut_card _); exact Hself'.
Qed.

(** X22: a pass of the loop of [play] that completes keeps the session
    counters consistent: [hands_played] is the sum of [hands_won],
    [hands_lost] and [pushes], [busts] is at most [hands_lost] and
    [blackjacks] at most [hands_won], as they are in a fresh session,
    whatever was dealt and typed (blackjacks, doubles and splits
    included). *)
Theorem play_round_keeps_the_counters_consistent (chance : nat -> float)
    (rnd : nat -> nat) (st st' : Session.Round) :
  Session.play_round chance rnd st = Ok (Some st') ->
  consistent (Session.session_stats (Session.session st)) ->
  consistent (Session.session_stats (Session.session st')).
Proof.
  unfold Session.play_round. intros H Hc.
  apply bind_Ok in H as (broke & _ & H).
  destruct broke; [discriminate H|].
  apply bind_Ok in H as ([[bet self] rest] & Hbet & H).
  apply get_bet_stats in Hbet. rewrite <- Hbet in Hc.
  destruct bet as [bet|]; [|discriminate H].
  apply bind_Ok in H as (o & Ho & H).
  apply play_opening_Ok in Ho.
  destruct o as [self'|self' player_hand up hole].
  - injection H as <-. auto.
  - apply bind_Ok in H as (st1 & Hhand & H). injection H as <-.
    apply play_hand_stats in Hhand; [exact Hhand|].
    cbn [Session.session]. destruct Ho as [-> _]. exact Hc.
Qed.

Lemma play_round_keeps_the_counters_consistent_witness :
  exists st',
    Session.play_round incurious stacked
      (seated 100 [Session.LInt 10; Session.LStand]) = Ok (Some st') /\
    consistent (Session.session_stats (Session.session st')).
Proof.
  eassert (H : Session.play_round incurious stacked
                 (seated 100 [Session.LInt 10; Session.LStand])
               = Ok (Some _)) by (vm_compute; reflexivity).
  refine (ex_intro _ _ (conj H _)).
  apply (play_round_keeps_the_counters_consistent _ _ _ _ H).
  unfold consistent. cbn. lia.
Defined.

(** ** What a round can win or lose *)




(** ** The fuel of the player's turn *)

Lemma display_hint_stdin (chance : nat -> float) (self : Session.GameSession)
    (hand : list Card) (dealer_upcard : Card) (w w' : Session.World) :
  Session.display_hint chance self hand dealer_upcard w = Ok w' ->
  (length (Session.stdin w') <= length (Session.stdin w))%nat.
Proof.
  unfold Session.display_hint, Session.random, Session.input.
  destruct (negb _); [intros [= <-]; lia|].
  destruct (PrimFloat.ltb _ _); cbn [Session.stdin];
    [|intros [= <-]; cbn; lia].
  destruct (Session.stdin w) as [|l rest]; [discriminate|].
  intros [= <-]. cbn. lia.
Qed.

Lemma input_stdin (w w' : Session.World) (l : Session.line) :
  Session.input w = Ok (l, w') ->
  (length (Session.stdin w') < length (Session.stdin w))%nat.
Proof.
  unfold Session.input. destruct (Session.stdin w) as [|l' rest];
    [discriminate|].
  intros [= _ <-]. cbn. lia.
Qed.

Lemma player_turn_loop_stdin (chance : nat -> float) (fuel : nat)
    (st st' : Session.Round) (hand : list Card) (bet : Z)
    (dealer_upcard : Card) (can_double splittable : bool)
    (r : Session.outcome) :
  Session.player_turn_loop chance fuel st hand bet dealer_upcard
    can_double splittable = Ok (r, st') ->
  (length (Session.stdin (Session.world st'))
   <= length (Session.stdin (Session.world st)))%nat.
Proof.
  intros H.
  refine (player_turn_loop_ind chance
    (fun st hand bet can_double splittable r st' =>
       (length (Session.stdin (Session.world st'))
        <= length (Session.stdin (Session.world st)))%nat)
    _ _ _ _ _ fuel _ _ _ _ _ _ _ _ H); clear.
  - reflexivity.
  - intros st up w0 move w hand bet _ _ r st' Hhint Hinput IH.
    apply display_hint_stdin in Hhint. apply input_stdin in Hinput.
    cbn in IH. lia.
  - intros st card st1 hand bet _ _ r st' _ Hhit IH.
    apply hit_card_Some in Hhit as (_ & _ & _ & _ & _ & Hw). now rewrite <- Hw.
  - intros st hand bet _ b card st1 _ _ _ Hhit.
    apply hit_card_Some in Hhit as (_ & _ & _ & _ & _ & Hw). now rewrite Hw.
  - intros st c0 c1 rest bet _ n1 d1 n2 d2 b r1 st1 r2 st2 _ _ _ _ _ H1 H2.
    cbn in *. lia.
Qed.

(** At the end of the input the loop stops or raises [EOFError], with
    fuel or without. *)
Lemma player_turn_loop_eof (chance : nat -> float) (fuel : nat)
    (st : Session.Round) (hand : list Card) (bet : Z) (dealer_upcard : Card)
    (can_double splittable : bool) :
  Session.stdin (Session.world st) = [] ->
  Session.player_turn_loop chance fuel st hand bet dealer_upcard
    can_double splittable
  = if negb (Session.hand_value hand <? 21) then Ok (Some (hand, bet), st)
    else Raise EOFError.
Proof.
  intros Hnil. destruct fuel as [|fuel]; cbn [Session.player_turn_loop];
    [reflexivity|].
  destruct (negb _); [reflexivity|].
  unfold Session.display_hint, Session.random, Session.input.
  destruct (negb (truthy _)); cbn [mbind result_bind Py.bind];
    [now rewrite Hnil|].
  destruct (PrimFloat.ltb _ _); cbn [Session.stdin mbind result_bind Py.bind];
    now rewrite Hnil.
Qed.

(** A turn can only fail for want of input or of cards, or on a bet
    beyond the range of a float bankroll: the lookups of [handle_split]
    never fail, since the split is offered on two cards only. *)
Lemma player_turn_loop_errors (chance : nat -> float) (fuel : nat) :
  forall (st : Session.Round) (hand : list Card) (bet : Z)
         (dealer_upcard : Card) (can_double splittable : bool) (e : exn),
  (splittable = true -> Session.can_split hand = true) ->
  Session.player_turn_loop chance fuel st hand bet dealer_upcard
    can_double splittable = Raise e ->
  e = EOFError \/ e = AttributeError \/ e = OverflowError.
Proof.
  induction fuel as [|fuel IH];
    intros st hand bet up can_double splittable e Hpair;
    cbn [Session.player_turn_loop];
    destruct (negb _); try discriminate; [intros [= <-]; auto|].
  destruct (Session.display_hint _ _ _ _ _) as [w|e'] eqn:Hhint.
  2:{ intros [= <-]. revert Hhint.
      unfold Session.display_hint, Session.random, Session.input.
      destruct (negb _); [discriminate|].
      destruct (PrimFloat.ltb _ _); [|discriminate].
      cbn [Session.stdin]. destruct (Session.stdin _); [|discriminate].
      intros [= <-]. auto. }
  cbn [mbind result_bind Py.bind].
  destruct (Session.input w) as [[move w']|e'] eqn:Hinput.
  2:{ intros [= <-]. revert Hinput. unfold Session.input.
      destruct (Session.stdin w); [|discriminate]. intros [= <-]. auto. }
  cbn [mbind result_bind Py.bind fst snd].
  assert (Hhit : forall st0 e0,
            Session.hit_card st0 = Raise e0 -> e0 = AttributeError).
  { intros st0 e0. unfold Session.hit_card.
    destruct (deal_card _ true) as [[card|] d]; [discriminate|].
    now intros [= <-]. }
  destruct move; try (apply IH; exact Hpair).
  - (* hit *)
    destruct (Session.hit_card _) as [[card st1]|e'] eqn:Hcard.
    + cbn [mbind result_bind Py.bind fst snd]. apply IH. discriminate.
    + intros [= <-]. apply Hhit in Hcard. auto.
  - (* stand *) discriminate.
  - (* double *)
    destruct can_double; [|apply IH; exact Hpair].
    destruct (num_le _ _); [|apply IH; exact Hpair].
    destruct (num_sub _ _) as [b|e'] eqn:Hsub.
    2:{ intros [= <-]. apply num_sub_errors in Hsub. auto. }
    cbn [mbind result_bind Py.bind].
    destruct (Session.hit_card _) as [[card st1]|e'] eqn:Hcard;
      [discriminate|].
    intros [= <-]. apply Hhit in Hcard. auto.
  - (* split *)
    destruct splittable; [|apply IH; exact Hpair].
    specialize (Hpair eq_refl). unfold Session.can_split in Hpair.
    destruct hand as [|c0 [|c1 [|c2 rest]]]; try discriminate Hpair.
    unfold Session.handle_split.
    destruct (num_lt _ _); [discriminate|].
    destruct (deal_card _ true) as [n1 d1].
    destruct (deal_card d1 true) as [n2 d2].
    destruct (num_sub _ _) as [b|e'] eqn:Hsub.
    2:{ intros [= <-]. apply num_sub_errors in Hsub. auto. }
    cbn [mbind result_bind Py.bind].
    destruct n1 as [n1|]; [|intros [= <-]; auto].
    destruct (Session.player_turn_loop chance fuel _ [c0; n1] _ _ _ _)
      as [[r1 st1]|e'] eqn:H1.
    2:{ intros [= <-]. apply IH in H1; auto. }
    cbn [mbind result_bind Py.bind fst snd].
    destruct n2 as [n2|]; [|intros [= <-]; auto].
    destruct (Session.player_turn_loop chance fuel _ [c1; n2] _ _ _ _)
      as [[r2 st2]|e'] eqn:H2; [discriminate|].
    intros [= <-]. apply IH in H2; auto.
Qed.

(** Fuel beyond the number of lines left changes nothing: any two
    amounts that cover the input give the same turn. *)
Lemma player_turn_loop_fuel (chance : nat -> float) (fuel1 : nat) :
  forall (fuel2 : nat) (st : Session.Round) (hand : list Card) (bet : Z)
         (dealer_upcard : Card) (can_double splittable : bool),
  (length (Session.stdin (Session.world st)) <= fuel1)%nat ->
  (length (Session.stdin (Session.world st)) <= fuel2)%nat ->
  Session.player_turn_loop chance fuel1 st hand bet dealer_upcard
    can_double splittable
  = Session.player_turn_loop chance fuel2 st hand bet dealer_upcard
      can_double splittable.
Proof.
  induction fuel1 as [|fuel1 IH];
    intros fuel2 st hand bet up can_double splittable H1 H2.
  { rewrite !player_turn_loop_eof;
      [reflexivity | | ]; destruct (Session.stdin _); cbn in H1; auto; lia. }
  destruct fuel2 as [|fuel2].
  { rewrite !player_turn_loop_eof;
      [reflexivity | | ]; destruct (Session.stdin _); cbn in H2; auto; lia. }
  cbn [Session.player_turn_loop].
  destruct (negb _); [reflexivity|].
  destruct (Session.display_hint _ _ _ _ _) as [w|e] eqn:Hhint;
    [|reflexivity].
  cbn [mbind result_bind Py.bind].
  destruct (Session.input w) as [[move w']|e] eqn:Hinput; [|reflexivity].
  cbn [mbind result_bind Py.bind fst snd].
  apply display_hint_stdin in Hhint. apply input_stdin in Hinput.
  assert (Hagain : forall cd sp,
    Session.player_turn_loop chance fuel1 (Session.with_world st w') hand bet
      up cd sp
    = Session.player_turn_loop chance fuel2 (Session.with_world st w') hand
        bet up cd sp).
  { intros cd sp. apply IH; cbn; lia. }
  destruct move; auto.
  - (* hit *)
    destruct (Session.hit_card _) as [[card st1]|e] eqn:Hhit; [|reflexivity].
    cbn [mbind result_bind Py.bind fst snd].
    apply hit_card_Some in Hhit as (_ & _ & _ & _ & _ & Hw).
    apply IH; rewrite Hw; cbn; lia.
  - (* double *)
    destruct can_double; auto. destruct (num_le _ _); auto.
  - (* split *)
    destruct splittable; auto.
    unfold Session.handle_split.
    destruct (num_lt _ _); [reflexivity|].
    destruct hand as [|c0 [|c1 rest]]; try reflexivity.
    destruct (deal_card _ true) as [n1 d1].
    destruct (deal_card d1 true) as [n2 d2].
    destruct (num_sub _ _) as [b|e]; [|reflexivity].
    cbn [mbind result_bind Py.bind].
    destruct n1 as [n1|]; [|reflexivity].
    rewrite (IH fuel2) by (cbn; lia).
    destruct (Session.player_turn_loop chance fuel2 _ [c0; n1] _ _ _ _)
      as [[r1 st1]|e] eqn:Hturn; [|reflexivity].
    cbn [mbind result_bind Py.bind fst snd].
    destruct n2 as [n2|]; [|reflexivity].
    apply player_turn_loop_stdin in Hturn. cbn in Hturn.
    rewrite (IH fuel2) by (cbn; lia).
    reflexivity.
Qed.

(** ** The bet *)

(** X24: [get_bet] returns a bet only when the amount typed lies within
    the table limits and the bankroll, and then takes exactly that
    amount from the bankroll and changes nothing else; it returns [None]
    only on ['q'], leaving the session as it was; every line before the
    one that is answered was either not a number or an amount out of
    range.  The only errors are [EOFError] at the end of the input,
    [TypeError] from a limit that is not a number and [OverflowError]
    from a bet beyond the range of a float bankroll. *)
Theorem get_bet_within_limits (self : Session.GameSession)
    (lines : list Session.bet_line) :
  match Session.get_bet self lines with
  | Ok (Some bet, placed, rest) =>
      py_le (Session.min_bet self) (VInt bet) = Ok true /\
      py_le (VInt bet) (Session.max_bet self) = Ok true /\
      num_le (NInt bet) (Session.bankroll self) = true /\
      num_sub (Session.bankroll self) (NInt bet)
        = Ok (Session.bankroll placed) /\
      placed = Session.with_bankroll self (Session.bankroll placed) /\
      exists skipped,
        lines = skipped ++ Session.Amount bet :: rest /\
        ~ In Session.Quit skipped
  | Ok (None, same, rest) =>
      same = self /\
      exists skipped,
        lines = skipped ++ Session.Quit :: rest /\
        ~ In Session.Quit skipped
  | Raise e => e = EOFError \/ e = TypeError \/ e = OverflowError
  end.
Proof.
  induction lines as [|line lines IH]; cbn [Session.get_bet]; [auto|].
  assert (Hskip :
    line <> Session.Quit ->
    match Session.get_bet self lines with
    | Ok (Some bet, placed, rest) =>
        py_le (Session.min_bet self) (VInt bet) = Ok true /\
        py_le (VInt bet) (Session.max_bet self) = Ok true /\
        num_le (NInt bet) (Session.bankroll self) = true /\
        num_sub (Session.bankroll self) (NInt bet)
          = Ok (Session.bankroll placed) /\
        placed = Session.with_bankroll self (Session.bankroll placed) /\
        exists skipped,
          line :: lines = skipped ++ Session.Amount bet :: rest /\
          ~ In Session.Quit skipped
    | Ok (None, same, rest) =>
        same = self /\
        exists skipped,
          line :: lines = skipped ++ Session.Quit :: rest /\
          ~ In Session.Quit skipped
    | Raise e => e = EOFError \/ e = TypeError \/ e = OverflowError
    end).
  { intros Hline.
    destruct (Session.get_bet self lines) as [[[[bet|] placed] rest]|e];
      [| |exact IH].
    - destruct IH as (H1 & H2 & H3 & H4 & H5 & skipped & -> & Hq).
      repeat (split; [assumption|]).
      exists (line :: skipped). split; [reflexivity|].
      intros [Heq|Hin]; [now apply Hline | now apply Hq].
    - destruct IH as (H1 & skipped & -> & Hq). split; [exact H1|].
      exists (line :: skipped). split; [reflexivity|].
      intros [Heq|Hin]; [now apply Hline | now apply Hq]. }
  destruct line as [| |amount]; [|now apply Hskip|].
  - split; [reflexivity|]. exists []. split; [reflexivity | intros []].
  - destruct (py_le (Session.min_bet self) (VInt amount)) as [above|e] eqn:Hmin;
      [|apply py_le_errors in Hmin; cbn [mbind result_bind Py.bind]; auto].
    cbn [mbind result_bind Py.bind].
    destruct above.
    + destruct (py_le (VInt amount) (Session.max_bet self)) as [below|e]
        eqn:Hmax;
        [|apply py_le_errors in Hmax; cbn [mbind result_bind Py.bind]; auto].
      cbn [mbind result_bind Py.bind].
      destruct below; cbn [andb]; [|now apply Hskip].
      destruct (num_le _ _) eqn:Hle; [|now apply Hskip].
      destruct (num_sub _ _) as [b|e] eqn:Hsub;
        [|apply num_sub_errors in Hsub; cbn [mbind result_bind Py.bind]; auto].
      cbn [mbind result_bind Py.bind Session.bankroll Session.with_bankroll].
      repeat (split; [reflexivity || assumption|]).
      exists []. split; [reflexivity | intros []].
    + cbn [mbind result_bind Py.bind andb]. now apply Hskip.
Qed.

(** ** The opening of a round *)

Lemma no_blackjack_behind_a_low_card (up hole : Card) :
  mem (value up) [10; 11] = false ->
  Session.check_blackjack [up; hole] = false.
Proof.
  destruct up as [s r], hole as [s' r']; destruct r, r';
    vm_compute; congruence.
Qed.

Lemma pay_blackjack_errors (self : Session.GameSession)
    (hole_card : option Card) (bet : Z) :
  match Session.pay_blackjack self hole_card bet with
  | Ok self' =>
      exists hole,
        hole_card = Some hole /\
        Session.deck self' = Session.deck (Session.flip_card self hole) /\
        Session.hands_played (Session.session_stats self')
          = Session.hands_played (Session.session_stats self) + 1
  | Raise e => e = AttributeError \/ e = OverflowError
  end.
Proof.
  unfold Session.pay_blackjack. destruct hole_card as [hole|]; [|auto].
  assert (Harith : forall a b e,
            num_mul a b = Raise e \/ num_add a b = Raise e ->
            e = OverflowError).
  { intros [x|x] [y|y] e; unfold num_mul, num_add, num_arith, to_float;
      intros [H|H]; try discriminate H;
      destruct (is_infinity _); cbn in H; congruence. }
  destruct (if py_eq _ _ then _ else _) as [payout|e] eqn:Hpay.
  2:{ right. destruct (py_eq _ _); eapply Harith; eauto. }
  cbn [mbind result_bind Py.bind].
  destruct (num_add (NInt bet) payout) as [total|e] eqn:Htotal;
    [|right; eapply Harith; eauto].
  cbn [mbind result_bind Py.bind].
  destruct (num_add _ total) as [b|e] eqn:Hb;
    [|right; eapply Harith; eauto].
  cbn [mbind result_bind Py.bind]. exists hole. repeat split.
Qed.

(** What the opening deals, counts and checks. *)
Lemma play_opening_spec (self : Session.GameSession)
    (bet : Z) :
  match Session.play_opening self bet with
  | Ok (Session.PlayerTurn self' player_hand dealer_upcard hole_card) =>
      cards (Session.deck self)
        = player_hand ++ dealer_upcard
          :: match hole_card with Some hole => [hole] | None => [] end
          ++ cards (Session.deck self') /\
      length player_hand = 2%nat /\
      Session.check_blackjack player_hand = false /\
      (forall hole, hole_card = Some hole ->
         Session.check_blackjack [dealer_upcard; hole] = false) /\
      running_count (Session.deck self')
        = running_count (Session.deck self) + count_total player_hand
          + get_count_value dealer_upcard /\
      Session.bankroll self' = Session.bankroll self /\
      Session.session_stats self' = Session.session_stats self
  | Ok (Session.RoundOver self') =>
      exists p0 p1 dealer_upcard hole,
        cards (Session.deck self)
          = p0 :: p1 :: dealer_upcard :: hole :: cards (Session.deck self') /\
        (Session.check_blackjack [p0; p1] = true \/
         Session.check_blackjack [dealer_upcard; hole] = true) /\
        running_count (Session.deck self')
          = running_count (Session.deck self)
            + count_total [p0; p1; dealer_upcard; hole] /\
        Session.hands_played (Session.session_stats self')
          = Session.hands_played (Session.session_stats self) + 1
  | Raise e => e = AttributeError \/ e = OverflowError
  end.
Proof.
  unfold Session.play_opening, deal_card.
  destruct (Session.deck self) as [cs n rc ic cut] eqn:Hdeck.
  cbn [cards running_count number_of_decks initial_cards cut_card_position].
  destruct cs as [|p0 [|p1 [|up shoe]]];
    cbn [cards running_count number_of_decks initial_cards
         cut_card_position]; auto.
  assert (Hsum : forall cs, count_total cs = Py.sum (map get_count_value cs))
    by reflexivity.
  assert (Hno :
    forall hole_card shoe' self1,
    shoe = match hole_card with Some hole => [hole] | None => [] end ++ shoe' ->
    cards (Session.deck self1) = shoe' ->
    running_count (Session.deck self1)
      = rc + get_count_value p0 + get_count_value p1 + get_count_value up ->
    Session.bankroll self1 = Session.bankroll self ->
    Session.session_stats self1 = Session.session_stats self ->
    (forall hole, hole_card = Some hole ->
       Session.check_blackjack [up; hole] = false) ->
    match
      (if Session.check_blackjack [p0; p1]
       then self' ← Session.pay_blackjack self1 hole_card bet;
            Ok (Session.RoundOver self')
       else Ok (Session.PlayerTurn self1 [p0; p1] up hole_card))
    with
    | Ok (Session.PlayerTurn self' player_hand dealer_upcard hole_card) =>
        p0 :: p1 :: up :: shoe
          = player_hand ++ dealer_upcard
            :: match hole_card with Some hole => [hole] | None => [] end
            ++ cards (Session.deck self') /\
        length player_hand = 2%nat /\
        Session.check_blackjack player_hand = false /\
        (forall hole, hole_card = Some hole ->
           Session.check_blackjack [dealer_upcard; hole] = false) /\
        running_count (Session.deck self')
          = rc + count_total player_hand + get_count_value dealer_upcard /\
        Session.bankroll self' = Session.bankroll self /\
        Session.session_stats self' = Session.session_stats self
    | Ok (Session.RoundOver self') =>
        exists q0 q1 dealer_upcard hole,
          p0 :: p1 :: up :: shoe
            = q0 :: q1 :: dealer_upcard :: hole :: cards (Session.deck self') /\
          (Session.check_blackjack [q0; q1] = true \/
           Session.check_blackjack [dealer_upcard; hole] = true) /\
          running_count (Session.deck self')
            = rc + count_total [q0; q1; dealer_upcard; hole] /\
          Session.hands_played (Session.session_stats self')
            = Session.hands_played (Session.session_stats self) + 1
    | Raise e => e = AttributeError \/ e = OverflowError
    end).
  { intros hole_card shoe' self1 Hs Hcards Hrc Hbank Hstats Hdealer.
    destruct (Session.check_blackjack [p0; p1]) eqn:Hbj.
    - pose proof (pay_blackjack_errors self1 hole_card bet) as Hpay.
      destruct (Session.pay_blackjack self1 hole_card bet) as [self'|e];
        cbn [mbind result_bind Py.bind]; [|exact Hpay].
      destruct Hpay as (hole & -> & Hd & Hplayed).
      exists p0, p1, up, hole. rewrite Hd, Hs.
      cbn [Session.flip_card Session.deck Session.with_deck cards
           running_count].
      rewrite Hcards, Hrc, Hplayed, Hstats, !Hsum. cbn [map].
      rewrite !sum_cons. change (Py.sum []) with 0.
      split; [reflexivity|]. split; [auto|]. split; [lia | reflexivity].
    - rewrite Hs, Hcards. split; [reflexivity|]. split; [reflexivity|].
      split; [exact Hbj|]. split; [exact Hdealer|].
      rewrite Hrc, !Hsum. cbn [map]. rewrite !sum_cons.
      change (Py.sum []) with 0. split; [lia|]. split; assumption. }
  cbv zeta.
  destruct shoe as [|hole shoe'];
    cbn [cards running_count number_of_decks initial_cards
         cut_card_position].
  - (* the shoe held three cards: there is no hole card *)
    destruct (mem (value up) [10; 11]); [auto|].
    apply (Hno None []); try reflexivity. discriminate.
  - destruct (mem (value up) [10; 11]) eqn:Hten.
    + destruct (Session.check_blackjack [up; hole]) eqn:Hdbj.
      * destruct (Session.check_blackjack [p0; p1]).
        -- destruct (num_add _ _) as [b|e] eqn:Hb.
           2:{ right. revert Hb. unfold num_add, num_arith, to_float.
               destruct (Session.bankroll _); try discriminate.
               destruct (is_infinity _); cbn; congruence. }
           cbn [mbind result_bind Py.bind].
           exists p0, p1, up, hole. rewrite !Hsum. cbn.
           split; [reflexivity|]. split; [auto|]. split; lia.
        -- exists p0, p1, up, hole. rewrite !Hsum. cbn.
           split; [reflexivity|]. split; [auto|]. split; lia.
      * apply (Hno (Some hole) shoe'); try reflexivity.
        intros h [= <-]. exact Hdbj.
    + apply (Hno (Some hole) shoe'); try reflexivity.
      intros h [= <-]. now apply no_blackjack_behind_a_low_card.
Qed.

(** X25: the opening of a round.  [play] reaches the player's turn only
    when neither hand is a blackjack (the dealer's hand is looked at
    only behind a ten-valued card or an ace, and no other upcard can
    hide one); the shoe has then given the player's two cards, the
    upcard and the hole card from its front, of which the hole card
    alone is not in the running count, and bankroll and counters are
    untouched.  When the round ends at once, one of the two hands was a
    blackjack, [hands_played] went up by one and the hole card has been
    counted.  The only errors are [AttributeError], when the shoe runs
    out, and [OverflowError] from the payout. *)
Theorem play_reaches_the_turn_without_blackjack (self : Session.GameSession)
    (bet : Z) :
  match Session.play_opening self bet with
  | Ok (Session.PlayerTurn self' player_hand dealer_upcard hole_card) =>
      cards (Session.deck self)
        = player_hand ++ dealer_upcard
          :: match hole_card with Some hole => [hole] | None => [] end
          ++ cards (Session.deck self') /\
      length player_hand = 2%nat /\
      Session.check_blackjack player_hand = false /\
      (forall hole, hole_card = Some hole ->
         Session.check_blackjack [dealer_upcard; hole] = false) /\
      running_count (Session.deck self')
        = running_count (Session.deck self) + count_total player_hand
          + get_count_value dealer_upcard /\
      Session.bankroll self' = Session.bankroll self /\
      Session.session_stats self' = Session.session_stats self
  | Ok (Session.RoundOver self') =>
      exists p0 p1 dealer_upcard hole,
        cards (Session.deck self)
          = p0 :: p1 :: dealer_upcard :: hole :: cards (Session.deck self') /\
        (Session.check_blackjack [p0; p1] = true \/
         Session.check_blackjack [dealer_upcard; hole] = true) /\
        running_count (Session.deck self')
          = running_count (Session.deck self)
            + count_total [p0; p1; dealer_upcard; hole] /\
        Session.hands_played (Session.session_stats self')
          = Session.hands_played (Session.session_stats self) + 1
  | Raise e => e = AttributeError \/ e = OverflowError
  end.
Proof. apply play_opening_spec. Qed.

(** ** class Player *)

Lemma resolve_index_Ok (self : Players.Player) (hand_index : option Z)
    (i : nat) :
  Players.resolve_index self hand_index = Ok i ->
  (i < length (Players.hands self))%nat /\
  Z.of_nat i
  = match hand_index with
    | None => Z.of_nat (Players.current_hand_index self)
    | Some j => j
    end.
Proof.
  unfold Players.resolve_index.
  destruct (Z.ltb_spec
              (match hand_index with
               | None => Z.of_nat (Players.current_hand_index self)
               | Some j => j
               end) 0) as [Hneg|Hpos]; [discriminate|].
  destruct (Z.leb_spec (Z.of_nat (length (Players.hands self)))
              (match hand_index with
               | None => Z.of_nat (Players.current_hand_index self)
               | Some j => j
               end)) as [Hbig|Hsmall]; [discriminate|].
  intros [= <-]. lia.
Qed.

Lemma withdraw_int (b amount : Z) :
  Players.withdraw (VInt b) (NInt amount) = Ok (VInt (b - amount)).
Proof. reflexivity. Qed.

Lemma split_hands (self self' : Players.Player) (hand_index : option Z)
    (h0 h1 : Players.Hand) :
  Players.split self hand_index = Ok (h0, h1, self') ->
  exists i old c0 c1,
    Players.resolve_index self hand_index = Ok i /\
    Players.hands self !! i = Some old /\
    Players.cards old = [c0; c1] /\ rank c0 = rank c1 /\
    py_gt (of_num (Players.bet old)) (Players.bankroll self) = Ok false /\
    Players.withdraw (Players.bankroll self) (Players.bet old)
      = Ok (Players.bankroll self') /\
    h0 = Players.mkHand [c0] (Players.bet old) true (Players.is_doubled old)
           (Players.is_surrendered old) /\
    h1 = Players.mkHand [c1] (Players.bet old) true false false /\
    Players.hands self'
      = take i (Players.hands self) ++ h0 :: h1
        :: drop (S i) (Players.hands self) /\
    Players.stats self' = Players.bump_splits (Players.stats self) /\
    Players.current_hand_index self' = Players.current_hand_index self /\
    Players.name self' = Players.name self.
Proof.
  unfold Players.split. intros H.
  apply bind_Ok in H as (i & Hi & H).
  destruct (Players.hands self !! i) as [old|] eqn:Hold; [|discriminate H].
  unfold Players.is_pair in H.
  destruct (Players.cards old) as [|c0 [|c1 [|c2 cs]]] eqn:Hcards;
    try discriminate H.
  destruct (rank_eqb (rank c0) (rank c1)) eqn:Hrank; [|discriminate H].
  cbn [negb] in H.
  apply bind_Ok in H as (short & Hshort & H).
  destruct short; [discriminate H|].
  apply bind_Ok in H as (b & Hb & H). injection H as <- <- <-.
  exists i, old, c0, c1. cbn [Players.bankroll Players.hands Players.stats
    Players.current_hand_index Players.name].
  repeat (split; [first [reflexivity | assumption
                        | now apply bool_decide_eq_true in Hrank]|]).
  split; [|repeat split].
  apply resolve_index_Ok in Hi as (Hi & _).
  rewrite (insert_take_drop _ _ _ Hi), take_app, length_take.
  rewrite (take_ge (take i _)) by (rewrite length_take; lia).
  replace (S i - i `min` length (Players.hands self))%nat with 1%nat by lia.
  cbn [take]. now rewrite <- app_assoc.
Qed.

(** X26: what [Player.split] does to the hands.  It succeeds only on a
    hand of two cards of one rank whose bet the bankroll covers; the
    hand keeps its first card, a new hand with the second card and the
    same bet is put right after it, both are marked as split, every
    other hand stays where it was, the bankroll pays the bet once more
    and [splits] goes up by one. *)
Theorem Player_split_makes_two_hands (self self' : Players.Player)
    (hand_index : option Z) (h0 h1 : Players.Hand) :
  Players.split self hand_index = Ok (h0, h1, self') ->
  exists i old c0 c1,
    Players.resolve_index self hand_index = Ok i /\
    Players.hands self !! i = Some old /\
    Players.cards old = [c0; c1] /\ rank c0 = rank c1 /\
    py_gt (of_num (Players.bet old)) (Players.bankroll self) = Ok false /\
    Players.withdraw (Players.bankroll self) (Players.bet old)
      = Ok (Players.bankroll self') /\
    h0 = Players.mkHand [c0] (Players.bet old) true (Players.is_doubled old)
           (Players.is_surrendered old) /\
    h1 = Players.mkHand [c1] (Players.bet old) true false false /\
    Players.hands self'
      = take i (Players.hands self) ++ h0 :: h1
        :: drop (S i) (Players.hands self) /\
    Players.stats self' = Players.bump_splits (Players.stats self) /\
    Players.current_hand_index self' = Players.current_hand_index self /\
    Players.name self' = Players.name self.
Proof. apply split_hands. Qed.

Lemma Player_split_makes_two_hands_witness :
  exists h0 h1 self',
    Players.split eights_player None = Ok (h0, h1, self') /\
    Players.hands self' = [h0; h1].
Proof.
  eassert (H : Players.split eights_player None = Ok (_, _, _))
    by (vm_compute; reflexivity).
  destruct (Player_split_makes_two_hands _ _ _ _ _ H)
    as (i & old & c0 & c1 & Hi & _ & _ & _ & _ & _ & _ & _ & Hhands & _).
  injection Hi as <-.
  exact (ex_intro _ _ (ex_intro _ _ (ex_intro _ _ (conj H Hhands)))).
Defined.

Lemma bets_app (l1 l2 : list Players.Hand) :
  bets (l1 ++ l2) = z1 ← bets l1; z2 ← bets l2; Some (z1 + z2).
Proof.
  induction l1 as [|h l1 IH]; cbn [app bets].
  - destruct (bets l2); reflexivity.
  - rewrite IH. destruct (int_bet h) as [z|]; [|reflexivity].
    cbn. destruct (bets l1) as [z1|]; [|reflexivity].
    cbn. destruct (bets l2) as [z2|]; [|reflexivity].
    cbn. f_equal. lia.
Qed.

Lemma bets_middle (hs : list Players.Hand) (i : nat) (old : Players.Hand)
    (t : Z) :
  hs !! i = Some old -> bets hs = Some t ->
  exists z t1 t2,
    int_bet old = Some z /\ bets (take i hs) = Some t1 /\
    bets (drop (S i) hs) = Some t2 /\ t = t1 + z + t2.
Proof.
  intros Hi Ht. rewrite <- (take_drop_middle _ _ _ Hi), bets_app in Ht.
  cbn [bets] in Ht.
  destruct (bets (take i hs)) as [t1|]; [|discriminate Ht].
  destruct (int_bet old) as [z|]; [|discriminate Ht].
  destruct (bets (drop (S i) hs)) as [t2|]; [|discriminate Ht].
  cbn in Ht. injection Ht as <-. exists z, t1, t2. repeat split. lia.
Qed.

Lemma double_down_hands (self self' : Players.Player)
    (hand_index : option Z) (hand : Players.Hand) :
  Players.double_down self hand_index = Ok (hand, self') ->
  exists i old,
    Players.resolve_index self hand_index = Ok i /\
    Players.hands self !! i = Some old /\
    length (Players.cards old) = 2%nat /\
    py_gt (of_num (Players.bet old)) (Players.bankroll self) = Ok false /\
    Players.withdraw (Players.bankroll self) (Players.bet old)
      = Ok (Players.bankroll self') /\
    num_mul (Players.bet old) (NInt 2) = Ok (Players.bet hand) /\
    Players.hands self'
      = take i (Players.hands self) ++ hand
        :: drop (S i) (Players.hands self).
Proof.
  unfold Players.double_down. intros H.
  apply bind_Ok in H as (i & Hi & H).
  destruct (Players.hands self !! i) as [old|] eqn:Hold; [|discriminate H].
  destruct (Nat.eqb_spec (length (Players.cards old)) 2) as [Hlen|];
    [|discriminate H].
  cbn [negb] in H.
  apply bind_Ok in H as (short & Hshort & H).
  destruct short; [discriminate H|].
  apply bind_Ok in H as (b & Hb & H).
  apply bind_Ok in H as (doubled & Hdoubled & H).
  injection H as <- <-. exists i, old.
  cbn [Players.bankroll Players.hands Players.bet].
  repeat (split; [assumption|]).
  apply resolve_index_Ok in Hi as (Hi & _).
  now rewrite (insert_take_drop _ _ _ Hi).
Qed.

Lemma covered_int (amount b : Z) :
  py_gt (VInt amount) (VInt b) = Ok false -> amount <= b.
Proof. cbn. intros [= H]. lia. Qed.

(** X27: chips are neither made nor lost by the moves of a [Player].
    With an integer bankroll and integer bets, the bankroll plus the
    bets on the hands is the same after [place_bet] (from the moment
    the bet is on the table), [double_down] and [split] as before, and
    a bankroll that was not negative is not negative afterwards. *)
Theorem Player_moves_conserve_chips (self : Players.Player) (c b : Z) :
  chips self = Some c -> funds self = Some b ->
  (forall ps amount hand self',
     Players.place_bet ps self (NInt amount) = Ok (hand, self') ->
     chips self' = Some (c) /\
     exists b', funds self' = Some b' /\ (0 <= b -> 0 <= b')) /\
  (forall hand_index hand self',
     Players.double_down self hand_index = Ok (hand, self') ->
     chips self' = Some c /\
     exists b', funds self' = Some b' /\ (0 <= b -> 0 <= b')) /\
  (forall hand_index h0 h1 self',
     Players.split self hand_index = Ok (h0, h1, self') ->
     chips self' = Some c /\
     exists b', funds self' = Some b' /\ (0 <= b -> 0 <= b')).
Proof.
  unfold chips, funds. intros Hc Hb.
  destruct (Players.bankroll self) as [| |b0| |] eqn:Hbank;
    try discriminate Hb.
  injection Hb as ->. cbn in Hc.
  destruct (bets (Players.hands self)) as [t|] eqn:Ht; [|discriminate Hc].
  cbn in Hc. injection Hc as <-.
  split; [|split].
  - (* place_bet *)
    intros ps amount hand self' H. unfold Players.place_bet in H.
    apply bind_Ok in H as (low & _ & H). destruct low; [discriminate H|].
    apply bind_Ok in H as (high & _ & H). destruct high; [discriminate H|].
    apply bind_Ok in H as (short & Hshort & H).
    destruct short; [discriminate H|].
    rewrite Hbank in H, Hshort. apply covered_int in Hshort.
    cbn in H. injection H as <- <-.
    cbn [Players.bankroll Players.hands]. rewrite bets_app, Ht. cbn.
    split; [f_equal; lia|]. exists (b - amount). split; [reflexivity | lia].
  - (* double_down *)
    intros hand_index hand self' H.
    apply double_down_hands in H
      as (i & old & _ & Hold & _ & Hshort & Hpay & Hbet & ->).
    destruct (bets_middle _ _ _ _ Hold Ht) as (z & t1 & t2 & Hz & H1 & H2 & ->).
    unfold int_bet in Hz.
    destruct (Players.bet old) as [z'|] eqn:Hbo; [|discriminate Hz].
    injection Hz as ->. rewrite Hbank in Hshort, Hpay.
    apply covered_int in Hshort. cbn in Hpay, Hbet.
    injection Hpay as Hpay. injection Hbet as Hbet.
    rewrite <- Hpay, bets_app, H1. cbn [bets]. unfold int_bet.
    rewrite <- Hbet, H2. cbn.
    split; [f_equal; lia|]. exists (b - z). split; [reflexivity | lia].
  - (* split *)
    intros hand_index h0 h1 self' H.
    apply split_hands in H
      as (i & old & c0 & c1 & _ & Hold & _ & _ & Hshort & Hpay & -> & ->
          & -> & _).
    destruct (bets_middle _ _ _ _ Hold Ht) as (z & t1 & t2 & Hz & H1 & H2 & ->).
    unfold int_bet in Hz.
    destruct (Players.bet old) as [z'|] eqn:Hbo; [|discriminate Hz].
    injection Hz as ->. rewrite Hbank in Hshort, Hpay.
    apply covered_int in Hshort. cbn in Hpay. injection Hpay as Hpay.
    rewrite <- Hpay, bets_app, H1. cbn [bets]. unfold int_bet.
    cbn [Players.bet]. rewrite H2. cbn.
    split; [f_equal; lia|]. exists (b - z). split; [reflexivity | lia].
Qed.

Lemma Player_moves_conserve_chips_witness :
  exists h0 h1 self',
    Players.split eights_player None = Ok (h0, h1, self') /\
    chips self' = Some 110.
Proof.
  eassert (H : Players.split eights_player None = Ok (_, _, _))
    by (vm_compute; reflexivity).
  pose proof (proj2 (proj2 (Player_moves_conserve_chips eights_player 110 100
                              eq_refl eq_refl)) _ _ _ _ H) as [Hc _].
  exact (ex_intro _ _ (ex_intro _ _ (ex_intro _ _ (conj H Hc)))).
Defined.

(** ** The shoe is never refilled *)

Lemma deal_card_Some (d d' : Deck) (card : Card) (face_up : bool) :
  deal_card d face_up = (Some card, d') -> cards d = card :: cards d'.
Proof.
  unfold deal_card. destruct (cards d) as [|c cs]; [discriminate|].
  now intros [= <- <-].
Qed.

Lemma player_turn_loop_shoe (chance : nat -> float) (fuel : nat)
    (st st' : Session.Round) (hand : list Card) (bet : Z)
    (dealer_upcard : Card) (can_double splittable : bool)
    (r : Session.outcome) :
  Session.player_turn_loop chance fuel st hand bet dealer_upcard
    can_double splittable = Ok (r, st') ->
  (exists drawn,
     cards (Session.deck (Session.session st))
     = drawn ++ cards (Session.deck (Session.session st'))) /\
  match r with
  | Some (hand', _) => exists drawn, hand' = hand ++ drawn
  | None => Session.hands_to_compare st' <> []
  end.
Proof.
  intros H.
  refine (player_turn_loop_ind chance
    (fun st hand bet can_double splittable r st' =>
       (exists drawn,
          cards (Session.deck (Session.session st))
          = drawn ++ cards (Session.deck (Session.session st'))) /\
       match r with
       | Some (hand', _) => exists drawn, hand' = hand ++ drawn
       | None => Session.hands_to_compare st' <> []
       end)
    _ _ _ _ _ fuel _ _ _ _ _ _ _ _ H); clear.
  - intros st hand bet _ _. split; exists []; [reflexivity|].
    now rewrite app_nil_r.
  - auto.
  - intros st card st1 hand bet _ _ r st' _ Hhit [(drawn & IH) Hr].
    apply hit_card_Some in Hhit as (Hc & _). split.
    + exists (card :: drawn). rewrite Hc, IH. reflexivity.
    + destruct r as [[hand' bet']|]; [|exact Hr].
      destruct Hr as (more & ->). exists (card :: more).
      now rewrite <- app_assoc.
  - intros st hand bet _ b card st1 _ _ _ Hhit.
    apply hit_card_Some in Hhit as (Hc & _). cbn in Hc.
    split; [exists [card]; exact Hc | exists [card]; reflexivity].
  - intros st c0 c1 rest bet _ n1 d1 n2 d2 b r1 st1 r2 st2 _ _ Hd1 Hd2 _
      [(drawn1 & H1) _] [(drawn2 & H2) _].
    apply deal_card_Some in Hd1, Hd2. cbn in H1, H2. split.
    + exists (n1 :: n2 :: drawn1 ++ drawn2). cbn.
      rewrite Hd1, Hd2, H1, H2, <- app_assoc. reflexivity.
    + cbn. intros Hnil. now apply app_eq_nil in Hnil as [_ [=]].
Qed.

Lemma compare_all_deck (entries : list Session.outcome) :
  forall (self self' : Session.GameSession) (dealer_hand : list Card),
  Session.compare_all self dealer_hand entries = Ok self' ->
  Session.deck self' = Session.deck self.
Proof.
  induction entries as [|entry entries IH]; intros self self' dealer_hand;
    cbn [Session.compare_all].
  - now intros [= <-].
  - intros H. apply bind_Ok in H as (self1 & H1 & H).
    apply IH in H. destruct entry as [[hand hand_bet]|]; [|discriminate H1].
    apply compare_hands_Ok in H1 as (Hd & _). congruence.
Qed.

Lemma dealer_turn_shoe (self self' : Session.GameSession)
    (hand hand' : list Card) (total : Z) :
  Session.dealer_turn self hand = Ok (total, hand', self') ->
  exists drawn,
    cards (Session.deck self) = drawn ++ cards (Session.deck self').
Proof.
  unfold Session.dealer_turn.
  destruct (length hand =? 0)%nat; [discriminate|].
  intros H. apply bind_Ok in H as ([hand1 self1] & Hloop & H).
  apply dealer_turn_loop_spec in Hloop
    as (_ & (drawn & _ & Hcards & _) & _); [|reflexivity].
  injection H as _ _ <-. exists drawn.
  destruct (_ <=? 21); exact Hcards.
Qed.

Lemma showdown_shoe (self self' : Session.GameSession) (dealer_upcard : Card)
    (hole_card : option Card) (entries : list Session.outcome) :
  Session.showdown self dealer_upcard hole_card entries = Ok self' ->
  (exists hole, hole_card = Some hole) /\
  exists drawn,
    cards (Session.deck self) = drawn ++ cards (Session.deck self').
Proof.
  unfold Session.showdown. intros H.
  apply bind_Ok in H as ([hole self1] & Hrev & H).
  apply bind_Ok in H as ([[total dealer_hand] self2] & Hdealer & H).
  cbn [fst snd] in *.
  apply reveal_Ok in Hrev as (Hhole & _ & _ & Hc1).
  apply dealer_turn_shoe in Hdealer as (drawn & Hc2).
  apply compare_all_deck in H.
  split; [eauto|]. exists drawn. congruence.
Qed.

Lemma play_hand_shoe (chance : nat -> float) (rnd : nat -> nat)
    (st st' : Session.Round) (player_hand : list Card) (bet : Z)
    (dealer_upcard : Card) (hole_card : option Card) :
  Session.play_hand chance rnd st player_hand bet dealer_upcard hole_card
    = Ok st' ->
  player_hand <> [] ->
  (exists hole, hole_card = Some hole) /\
  exists drawn,
    cards (Session.deck (Session.session st))
    ≡ₚ drawn ++ cards (Session.deck (Session.session st')).
Proof.
  unfold Session.play_hand. intros H Hhand.
  apply bind_Ok in H as (w & _ & H).
  apply bind_Ok in H as ([r st1] & Hturn & H). cbn [fst snd] in H.
  apply player_turn_loop_shoe in Hturn as [(drawn1 & Hc1) Hr].
  cbn [Session.session] in Hc1.
  apply bind_Ok in H as (self & Hself & H). injection H as <-.
  cbn [Session.session].
  assert (Hshoe :
    (exists hole, hole_card = Some hole) /\
    exists drawn,
      cards (Session.deck (Session.session st1))
      = drawn ++ cards (Session.deck self)).
  { destruct (Session.hands_to_compare st1) as [|entry entries].
    - destruct r as [[hand' bet']|]; [|now destruct Hr].
      destruct Hr as (more & ->).
      assert (Hlen : (length (player_hand ++ more) =? 0)%nat = false).
      { apply Nat.eqb_neq. rewrite length_app.
        destruct player_hand; [contradiction | cbn; lia]. }
      rewrite Hlen in Hself. cbn [negb andb] in Hself.
      destruct (negb _).
      + now apply showdown_shoe in Hself.
      + apply bind_Ok in Hself as ([hole self1] & Hrev & Hself).
        apply reveal_Ok in Hrev as (Hhole & _ & _ & Hc).
        injection Hself as <-. split; [eauto|]. exists [].
        cbn [snd Session.deck Session.with_stats] in *. now rewrite Hc.
    - now apply showdown_shoe in Hself. }
  destruct Hshoe as (Hhole & drawn2 & Hc2). split; [exact Hhole|].
  exists (drawn1 ++ drawn2). rewrite Hc1, Hc2, <- app_assoc.
  destruct (is_cut_card _); [|reflexivity].
  cbn [Session.deck Session.with_deck].
  now rewrite (shuffle_Permutation rnd (Session.deck self)).
Qed.

Lemma get_bet_deck (lines : list Session.bet_line) :
  forall (self self' : Session.GameSession) (bet : option Z)
         (rest : list Session.bet_line),
  Session.get_bet self lines = Ok (bet, self', rest) ->
  Session.deck self' = Session.deck self.
Proof.
  induction lines as [|line lines IH]; intros self self' bet rest;
    cbn [Session.get_bet]; [discriminate|].
  destruct line as [| |amount]; [intros [= _ <- _]; reflexivity | apply IH |].
  intros H. apply bind_Ok in H as (above & _ & H).
  apply bind_Ok in H as (in_range & _ & H).
  destruct (in_range && _); [|exact (IH _ _ _ _ H)].
  apply bind_Ok in H as (b & Hb & H).
  injection H as _ <- _. reflexivity.
Qed.

(** X28: the shoe is never refilled during play.  After every pass of
    the loop of [play] that completes, the cards in the shoe are, up to
    the order the shuffle at the cut card gives them, those that were in
    it before less the cards dealt, of which there are at least four:
    the shoe only ever shrinks. *)
Theorem play_round_never_refills_the_shoe (chance : nat -> float)
    (rnd : nat -> nat) (st st' : Session.Round) :
  Session.play_round chance rnd st = Ok (Some st') ->
  exists dealt,
    cards (Session.deck (Session.session st))
    ≡ₚ dealt ++ cards (Session.deck (Session.session st')) /\
    (4 <= length dealt)%nat.
Proof.
  unfold Session.play_round. intros H.
  apply bind_Ok in H as (broke & _ & H).
  destruct broke; [discriminate H|].
  apply bind_Ok in H as ([[bet self] rest] & Hbet & H).
  apply get_bet_deck in Hbet. rewrite <- Hbet.
  destruct bet as [bet|]; [|discriminate H].
  apply bind_Ok in H as (o & Ho & H).
  pose proof (play_opening_spec self bet) as Hspec. rewrite Ho in Hspec.
  destruct o as [self'|self' player_hand up hole].
  - injection H as <-. cbn [Session.session].
    destruct Hspec as (p0 & p1 & u & h & -> & _).
    exists [p0; p1; u; h]. split; [reflexivity | cbn; lia].
  - apply bind_Ok in H as (st1 & Hhand & H). injection H as <-.
    destruct Hspec as (Hcards & Hlen & _).
    apply play_hand_shoe in Hhand as ((h & ->) & drawn & Hperm);
      [|now destruct player_hand].
    cbn [Session.session] in Hperm.
    exists (player_hand ++ up :: h :: drawn). split.
    + rewrite Hcards, Hperm, <- !app_assoc. reflexivity.
    + rewrite length_app, Hlen. cbn. lia.
Qed.

Lemma play_round_never_refills_the_shoe_witness :
  exists st' dealt,
    cards (Session.deck (Session.session
             (seated 100 [Session.LInt 10; Session.LStand])))
    ≡ₚ dealt ++ cards (Session.deck (Session.session st')) /\
    (4 <= length dealt)%nat.
Proof.
  eassert (H : Session.play_round incurious stacked
                 (seated 100 [Session.LInt 10; Session.LStand])
               = Ok (Some _)) by (vm_compute; reflexivity).
  destruct (play_round_never_refills_the_shoe _ _ _ _ H) as (dealt & Hd).
  exact (ex_intro _ _ (ex_intro _ dealt Hd)).
Defined.

(** ** Saved profiles *)

(** X29: a profile survives being saved and loaded: [from_dict] of
    [to_dict] of any profile [PlayerProfile(...)] builds is that
    profile.  The defaults of the two ways in differ, though: a saved
    dictionary without ["stats"] loads with no counters at all, where a
    new profile of the same name has the six counters at 0; and a
    dictionary without ["name"] is a [KeyError]. *)
Theorem profile_round_trip :
  (forall name bankroll xp stats,
     Profile.from_dict
       (Profile.to_dict (Profile.PlayerProfile_init name bankroll xp stats))
     = Ok (Profile.PlayerProfile_init name bankroll xp stats)) /\
  (forall name,
     Profile.from_dict {[ "name" := name ]}
     = Ok (Profile.mkProfile name (Profile.Scalar (VInt 1000))
             (Profile.Scalar (VInt 0)) (Profile.Dict ∅)) /\
     Profile.PlayerProfile_init name (Profile.Scalar (VInt 1000))
       (Profile.Scalar (VInt 0)) (Profile.Scalar VNone)
     = Profile.mkProfile name (Profile.Scalar (VInt 1000))
         (Profile.Scalar (VInt 0)) (Profile.Dict Profile.new_stats) /\
     Profile.new_stats <> ∅) /\
  (forall data, data !! "name" = None ->
     Profile.from_dict data = Raise KeyError).
Proof.
  split; [|split].
  - intros name bankroll xp stats.
    destruct stats as [[| | | |]|d]; vm_compute; reflexivity.
  - intros name. split; [|split].
    + vm_compute. reflexivity.
    + reflexivity.
    + intros H. apply (f_equal (fun m => m !! "doubles")) in H.
      vm_compute in H. discriminate H.
  - intros data H. unfold Profile.from_dict. now rewrite H.
Qed.
